(** * Matterport house-file lighting pipeline: a shallow embedding

    This development embeds the computational core of [load_add_light.py]
    (class [MatterportLightingSystem]): the [.house] line parser, the
    per-room light placement rule, the grouping of lights by level and the
    two alignment stages (fixed axis rotation, then scale-and-translate
    between bounding boxes).

    Modelling conventions.
    - Python [int] is [Z].  In the parser, the extraction and the
      alignment a Python [float] is modelled by the exact rationals [Qc]:
      rounding, infinities and NaN are outside that model.  The one float
      operation that can raise, true division by zero, is modelled with
      its exception.
    - The placement rule compares a computed difference with a
      threshold, so the branch it takes depends on how the difference is
      rounded.  The rule is therefore embedded a second time in module
      [Binary64], over IEEE 754 binary64 as specified by [SpecFloat]
      (round to nearest, ties to even, with infinities and NaN), which is
      the arithmetic of the program.
    - The conversions [int(s)] and [float(s)] are built-ins of the language
      and not code of the script: the parser is parameterised by them
      ([py_int], [py_float], [None] standing for [ValueError]).
    - Text is a [string] of ASCII characters, as the file object delivers
      it (newlines already translated to LF).
    - The [light_info] dictionaries are mutable objects that are shared
      between the per-level lists and the flat list of a plan: they live in
      an explicit heap and the plan holds their addresses.
    - The file system and the prims of the stage are arguments of the
      functions that read them.  The calls that build the scene and
      printing other than the parse warnings are not modelled. *)

From Stdlib Require Import ZArith QArith Qcanon String Ascii List Bool Lia.
From Stdlib Require Import DecimalString.
From Stdlib Require Import Floats.SpecFloat.
From stdpp Require Import base list.

Import ListNotations.
Local Open Scope string_scope.
Local Open Scope list_scope.
Local Open Scope Z_scope.

(* ================================================================== *)
(** * Python built-ins *)
(* ================================================================== *)

Module Py.

(** Exception classes the modelled code can raise. *)
Inductive exn : Type :=
  | ValueError
  | IndexError
  | TypeError
  | ZeroDivisionError.

Definition exn_name (e : exn) : string :=
  match e with
  | ValueError => "ValueError"
  | IndexError => "IndexError"
  | TypeError => "TypeError"
  | ZeroDivisionError => "ZeroDivisionError"
  end.

(** A computation either raises ([inl]) or returns ([inr]). *)
Definition result (A : Type) : Type := (exn + A)%type.

Definition ret {A : Type} (a : A) : result A := inr a.
Definition raise {A : Type} (e : exn) : result A := inl e.

Definition bind {A B : Type} (m : result A) (k : A -> result B) : result B :=
  match m with
  | inl e => inl e
  | inr a => k a
  end.

(** [str.isspace] on ASCII: TAB, LF, VT, FF, CR, FS, GS, RS, US, SPACE. *)
Definition isspace (c : ascii) : bool :=
  let n := nat_of_ascii c in
  ((9 <=? n)%nat && (n <=? 13)%nat) || ((28 <=? n)%nat && (n <=? 32)%nat).

Definition is_empty (s : string) : bool :=
  match s with
  | EmptyString => true
  | String _ _ => false
  end.

Fixpoint lstrip (s : string) : string :=
  match s with
  | EmptyString => EmptyString
  | String c s' => if isspace c then lstrip s' else s
  end.

Fixpoint rstrip (s : string) : string :=
  match s with
  | EmptyString => EmptyString
  | String c s' =>
      let r := rstrip s' in
      if isspace c && is_empty r then EmptyString else String c r
  end.

(** [s.strip()] *)
Definition strip (s : string) : string := rstrip (lstrip s).

Definition starts_token (s : string) : bool :=
  match s with
  | EmptyString => false
  | String c _ => negb (isspace c)
  end.

(** [s.split()]: maximal runs of non-whitespace characters. *)
Fixpoint split (s : string) : list string :=
  match s with
  | EmptyString => []
  | String c s' =>
      if isspace c then split s'
      else if starts_token s' then
        match split s' with
        | t :: ts => String c t :: ts
        | [] => [String c EmptyString]
        end
      else String c EmptyString :: split s'
  end.

Definition LF : ascii := ascii_of_nat 10.

(** Iterating a text file object: the lines, each with its terminating
    LF (the last one possibly without). *)
Fixpoint readlines (s : string) : list string :=
  match s with
  | EmptyString => []
  | String c s' =>
      if Ascii.eqb c LF then String c EmptyString :: readlines s'
      else match readlines s' with
           | l :: ls => String c l :: ls
           | [] => [String c EmptyString]
           end
  end.

(** [enumerate(xs, start)] *)
Fixpoint enumerate {A : Type} (start : Z) (xs : list A) : list (Z * A) :=
  match xs with
  | [] => []
  | x :: xs' => (start, x) :: enumerate (start + 1) xs'
  end.

(** [s.replace(old, "")] for a non-empty [old]: [skip] counts the
    characters of a match that are still to be dropped. *)
Fixpoint remove_sub (old : string) (skip : nat) (s : string) : string :=
  match s with
  | EmptyString => EmptyString
  | String c s' =>
      match skip with
      | S k => remove_sub old k s'
      | O =>
          if String.prefix old s
          then remove_sub old (Nat.pred (String.length old)) s'
          else String c (remove_sub old O s')
      end
  end.

(** [os.path.basename(p)]: what follows the last slash. *)
Fixpoint basename (p : string) : string :=
  match p with
  | EmptyString => EmptyString
  | String c p' =>
      if existsb (Ascii.eqb "/"%char) (list_ascii_of_string p')
      then basename p'
      else if Ascii.eqb c "/"%char then p' else p
  end.

(** [f"{z}"] for an integer. *)
Definition str_of_int (z : Z) : string := NilZero.string_of_int (Z.to_int z).

(** Comparison and [min] on floats.  [min(a, b)] keeps [a] unless [b] is
    strictly smaller. *)
Definition ltb (a b : Qc) : bool :=
  match (a ?= b)%Qc with
  | Lt => true
  | _ => false
  end.

Definition min (a b : Qc) : Qc := if ltb b a then b else a.

(** [a / b] on floats raises on a zero divisor. *)
Definition truediv (a b : Qc) : result Qc :=
  if Qc_eq_dec b 0%Qc then raise ZeroDivisionError else ret (a / b)%Qc.

(** [d.get(k, default)] and [k in d] on a dictionary kept as an
    association list in insertion order. *)
Fixpoint dict_get {V : Type} (d : list (string * V)) (k : string) (default : V) : V :=
  match d with
  | [] => default
  | (k', v) :: d' => if String.eqb k' k then v else dict_get d' k default
  end.

Definition dict_mem {V : Type} (d : list (string * V)) (k : string) : bool :=
  existsb (fun kv => String.eqb (fst kv) k) d.

(** [x in xs] for a list of strings. *)
Definition str_in (x : string) (xs : list string) : bool :=
  existsb (String.eqb x) xs.

End Py.

Notation "'let*' x ':=' m 'in' k" := (Py.bind m (fun x => k))
  (at level 10, x name, m at level 100, k at level 200).

(** Decimal literals as floats. *)
Definition fl (q : Q) : Qc := Q2Qc q.

(* ================================================================== *)
(** * Data model *)
(* ================================================================== *)

(** A three-element list of floats [[x, y, z]]. *)
Record vec3 : Type := Vec3 { v0 : Qc; v1 : Qc; v2 : Qc }.

Inductive axis : Type := ax0 | ax1 | ax2.

(** [v[i]] for [i] in 0..2. *)
Definition getitem3 (v : vec3) (i : axis) : Qc :=
  match i with
  | ax0 => v0 v
  | ax1 => v1 v
  | ax2 => v2 v
  end.

(** [house_data['header']] *)
Record header_data : Type := mkHeader {
  hdr_name : string;
  hdr_num_regions : Z;
  hdr_num_levels : Z;
  hdr_bbox_min : vec3;
  hdr_bbox_max : vec3
}.

(** An element of [house_data['levels']] *)
Record level_data : Type := mkLevel {
  lvl_level_index : Z;
  lvl_num_regions : Z;
  lvl_label : string;
  lvl_center : vec3;
  lvl_bbox_min : vec3;
  lvl_bbox_max : vec3
}.

(** An element of [house_data['regions']] *)
Record region_data : Type := mkRegion {
  reg_region_index : Z;
  reg_level_index : Z;
  reg_label : string;
  reg_center : vec3;
  reg_bbox_min : vec3;
  reg_bbox_max : vec3;
  reg_height : Qc
}.

Record house_data : Type := mkHouse {
  house_name : string;
  header : option header_data;
  levels : list level_data;
  regions : list region_data
}.

(** A warning printed by the parser: the line number and the exception. *)
Definition warning : Type := (Z * Py.exn)%type.

(* ================================================================== *)
(** * parse_house_file *)
(* ================================================================== *)

Section Parser.

(** The built-in conversions [int(s)] and [float(s)]; [None] is
    [ValueError]. *)
Variable py_int : string -> option Z.
Variable py_float : string -> option Qc.

(** [parts[i]] *)
Definition part (parts : list string) (i : nat) : Py.result string :=
  match nth_error parts i with
  | Some t => Py.ret t
  | None => Py.raise Py.IndexError
  end.

(** [int(parts[i])] *)
Definition int_at (parts : list string) (i : nat) : Py.result Z :=
  let* t := part parts i in
  match py_int t with
  | Some z => Py.ret z
  | None => Py.raise Py.ValueError
  end.

(** [float(parts[i])] *)
Definition float_at (parts : list string) (i : nat) : Py.result Qc :=
  let* t := part parts i in
  match py_float t with
  | Some q => Py.ret q
  | None => Py.raise Py.ValueError
  end.

(** [[float(parts[i]), float(parts[i+1]), float(parts[i+2])]] *)
Definition float3_at (parts : list string) (i : nat) : Py.result vec3 :=
  let* a := float_at parts i in
  let* b := float_at parts (i + 1) in
  let* c := float_at parts (i + 2) in
  Py.ret (Vec3 a b c).

(** The dictionary literal of the [H] branch, evaluated left to right. *)
Definition header_of_parts (parts : list string) : Py.result header_data :=
  let* name := part parts 1 in
  let* num_regions := int_at parts 10 in
  let* num_levels := int_at parts 12 in
  let* bbox_min := float3_at parts 18 in
  let* bbox_max := float3_at parts 21 in
  Py.ret (mkHeader name num_regions num_levels bbox_min bbox_max).

(** The dictionary literal of the [L] branch. *)
Definition level_of_parts (parts : list string) : Py.result level_data :=
  let* level_index := int_at parts 1 in
  let* num_regions := int_at parts 2 in
  let* label := part parts 3 in
  let* center := float3_at parts 4 in
  let* bbox_min := float3_at parts 7 in
  let* bbox_max := float3_at parts 10 in
  Py.ret (mkLevel level_index num_regions label center bbox_min bbox_max).

(** The dictionary literal of the [R] branch. *)
Definition region_of_parts (parts : list string) : Py.result region_data :=
  let* region_index := int_at parts 1 in
  let* level_index := int_at parts 2 in
  let* label := part parts 5 in
  let* center := float3_at parts 6 in
  let* bbox_min := float3_at parts 9 in
  let* bbox_max := float3_at parts 12 in
  let* height := float_at parts 15 in
  Py.ret (mkRegion region_index level_index label center bbox_min bbox_max height).

Definition set_header (hd : house_data) (h : header_data) : house_data :=
  mkHouse (house_name hd) (Some h) (levels hd) (regions hd).

Definition append_level (hd : house_data) (l : level_data) : house_data :=
  mkHouse (house_name hd) (header hd) (levels hd ++ [l]) (regions hd).

Definition append_region (hd : house_data) (r : region_data) : house_data :=
  mkHouse (house_name hd) (header hd) (levels hd) (regions hd ++ [r]).

(** The body of the [try] block for one tokenised line. *)
Definition parse_parts (hd : house_data) (parts : list string) : Py.result house_data :=
  match parts with
  | [] => Py.raise Py.IndexError
  | line_type :: _ =>
      if String.eqb line_type "H" then
        if (24 <=? length parts)%nat then
          let* h := header_of_parts parts in Py.ret (set_header hd h)
        else Py.ret hd
      else if String.eqb line_type "L" then
        if (13 <=? length parts)%nat then
          let* l := level_of_parts parts in Py.ret (append_level hd l)
        else Py.ret hd
      else if String.eqb line_type "R" then
        if (16 <=? length parts)%nat then
          let* r := region_of_parts parts in Py.ret (append_region hd r)
        else Py.ret hd
      else Py.ret hd
  end.

(** One iteration of the loop over the lines of the file.  The handler
    catches [ValueError] and [IndexError], the only exceptions the body
    raises, prints a warning and goes on with the next line. *)
Definition parse_line (st : house_data * list warning) (nl : Z * string)
  : house_data * list warning :=
  let '(hd, warnings) := st in
  let '(line_num, line0) := nl in
  let line := Py.strip line0 in
  if Py.is_empty line then st
  else
    let parts := Py.split line in
    if (length parts =? 0)%nat then st
    else
      match parse_parts hd parts with
      | inr hd' => (hd', warnings)
      | inl e => (hd, warnings ++ [(line_num, e)])
      end.

Definition initial_house_data (house_file_path : string) : house_data :=
  mkHouse (Py.remove_sub ".house" 0 (Py.basename house_file_path)) None [] [].

(** [parse_house_file(house_file_path)], where [text] is the content of
    the file at that path.  Returns the document and the warnings printed. *)
Definition parse_house_file (house_file_path : string) (text : string)
  : house_data * list warning :=
  fold_left parse_line (Py.enumerate 1 (Py.readlines text))
    (initial_house_data house_file_path, []).

End Parser.

(* ================================================================== *)
(** * Label catalogue ([__init__]) *)
(* ================================================================== *)

Definition room_type_mapping : list (string * string) :=
  [ ("a", "bathroom");
    ("b", "bedroom");
    ("c", "closet");
    ("d", "dining_room");
    ("e", "entryway");
    ("f", "family_room");
    ("g", "garage");
    ("h", "hallway");
    ("i", "library");
    ("j", "laundry_room");
    ("k", "kitchen");
    ("l", "living_room");
    ("m", "meeting_room");
    ("n", "lounge");
    ("o", "office");
    ("p", "porch");
    ("r", "recreation");
    ("s", "stairs");
    ("t", "toilet");
    ("u", "utility_room");
    ("v", "tv_room");
    ("w", "workout");
    ("x", "outdoor");
    ("y", "balcony");
    ("z", "other");
    ("B", "bar");
    ("C", "classroom");
    ("D", "dining_booth");
    ("S", "spa");
    ("Z", "junk");
    ("-", "unlabeled") ].

Definition room_intensities : list (string * Z) :=
  [ ("kitchen", 15000);
    ("bathroom", 10000);
    ("office", 15000);
    ("dining_room", 15000);
    ("living_room", 12000);
    ("family_room", 12000);
    ("bedroom", 8000);
    ("hallway", 6000);
    ("stairs", 8000);
    ("closet", 6000);
    ("garage", 10000);
    ("laundry_room", 10000);
    ("utility_room", 10000);
    ("library", 10000);
    ("meeting_room", 10000);
    ("lounge", 10000);
    ("recreation", 12000);
    ("bar", 8000);
    ("spa", 6000);
    ("entryway", 10000);
    ("other", 10000);
    ("unlabeled", 8000) ].

(** [self.room_type_mapping.get(label, 'other')] *)
Definition room_type_of (label : string) : string :=
  Py.dict_get room_type_mapping label "other".

(** [self.room_intensities.get(room_type, 1000)] *)
Definition intensity_of (room_type : string) : Z :=
  Py.dict_get room_intensities room_type 1000.

(* ================================================================== *)
(** * calculate_light_position *)
(* ================================================================== *)

Local Open Scope Qc_scope.

(** The function over exact rationals, as the extraction uses it in this
    development.  Which rule applies to a room whose height is within
    rounding of 4.0 is decided by the binary64 embedding,
    [Binary64.calculate_light_position] below. *)
Definition calculate_light_position (region : region_data) : vec3 :=
  let center_x := v0 (reg_center region) in
  let center_y := v1 (reg_center region) in
  let floor_z := v2 (reg_bbox_min region) in
  let ceiling_z := v2 (reg_bbox_max region) in
  let room_height := ceiling_z - floor_z in
  let light_height :=
    if String.eqb (reg_label region) "s" then
      floor_z + room_height * fl 0.4
    else if Py.str_in (reg_label region) ["c"; "t"]%string then
      floor_z + Py.min (fl 2.2) (room_height * fl 0.8)
    else if Py.ltb (fl 4.0) room_height then
      floor_z + room_height * fl 0.6
    else
      floor_z + Py.min (fl 2.7) (room_height * fl 0.8) in
  Vec3 center_x center_y light_height.

Local Close Scope Qc_scope.

(* ================================================================== *)
(** * Light plans and the object heap *)
(* ================================================================== *)

(** A [light_info] dictionary.  The key ['original_position'] is absent
    until a rotation sets it. *)
Record light_info : Type := mkLight {
  li_region_index : Z;
  li_room_label : string;
  li_room_type : string;
  li_position : vec3;
  li_intensity : Z;
  li_room_center : vec3;
  li_room_height : Qc;
  li_floor_z : Qc;
  li_ceiling_z : Qc;
  li_original_position : option vec3
}.

(** Addresses of [light_info] objects and the heap that holds them. *)
Definition loc : Type := nat.
Definition heap : Type := list light_info.

(** Creating a new dictionary object. *)
Definition alloc (h : heap) (li : light_info) : loc * heap :=
  (length h, h ++ [li]).

(** In-place update of the object at an address. *)
Definition heap_update (h : heap) (l : loc) (f : light_info -> light_info) : heap :=
  match h !! l with
  | Some li => <[l := f li]> h
  | None => h
  end.

(** A value of [light_positions['levels']]: the name of a level and
    references to its lights. *)
Record level_lights : Type := mkLevelLights {
  level_name : string;
  lights : list loc
}.

(** The [light_positions] dictionary.  [lp_levels] keeps the insertion
    order of the keys, as a Python dictionary does. *)
Record light_positions : Type := mkPlan {
  lp_house_name : string;
  total_lights : Z;
  lp_levels : list (Z * level_lights);
  all_positions : list loc
}.

(** [level_idx in d] *)
Definition levels_mem (d : list (Z * level_lights)) (level_idx : Z) : bool :=
  existsb (fun kv => Z.eqb (fst kv) level_idx) d.

(** [d[level_idx] = v] for a key that is not yet present. *)
Definition levels_add (d : list (Z * level_lights)) (level_idx : Z) (v : level_lights)
  : list (Z * level_lights) :=
  d ++ [(level_idx, v)].

(** In-place change of [d[level_idx]]. *)
Definition levels_modify (d : list (Z * level_lights)) (level_idx : Z)
    (f : level_lights -> level_lights) : list (Z * level_lights) :=
  map (fun kv => if Z.eqb (fst kv) level_idx then (fst kv, f (snd kv)) else kv) d.

(** [d.values()] followed by the [extend] loop that rebuilds the flat
    list. *)
Definition rebuild_all_positions (d : list (Z * level_lights)) : list loc :=
  fold_left (fun acc kv => acc ++ lights (snd kv)) d [].

(** What a plan denotes in a heap: the lights behind its references. *)
Definition deref (h : heap) (ls : list loc) : list (option light_info) :=
  map (fun l => h !! l) ls.

(* ================================================================== *)
(** * extract_light_positions *)
(* ================================================================== *)

(** The inner loop that looks up the name of a level: the label of the
    first level of the document with that index, if any. *)
Definition find_level_name (house_levels : list level_data) (level_idx : Z)
  : option string :=
  match find (fun level => Z.eqb (lvl_level_index level) level_idx) house_levels with
  | Some level => Some (lvl_label level)
  | None => None
  end.

Definition light_info_of_region (region : region_data) : light_info :=
  let light_pos := calculate_light_position region in
  let room_type := room_type_of (reg_label region) in
  let intensity := intensity_of room_type in
  mkLight (reg_region_index region) (reg_label region) room_type light_pos
    intensity (reg_center region) (reg_height region)
    (v2 (reg_bbox_min region)) (v2 (reg_bbox_max region)) None.

(** One iteration of the loop over the regions. *)
Definition extract_region (house_levels : list level_data)
    (st : light_positions * heap) (region : region_data) : light_positions * heap :=
  let '(lp, h) := st in
  if String.eqb (reg_label region) "Z" then st
  else
    let level_idx := reg_level_index region in
    let d0 := lp_levels lp in
    let d1 :=
      if levels_mem d0 level_idx then d0
      else levels_add d0 level_idx
             (mkLevelLights ("Level_" ++ Py.str_of_int level_idx)%string []) in
    let d2 :=
      match find_level_name house_levels level_idx with
      | Some name => levels_modify d1 level_idx (fun ld => mkLevelLights name (lights ld))
      | None => d1
      end in
    let '(l, h') := alloc h (light_info_of_region region) in
    let d3 := levels_modify d2 level_idx
                (fun ld => mkLevelLights (level_name ld) (lights ld ++ [l])) in
    (mkPlan (lp_house_name lp) (total_lights lp + 1) d3 (all_positions lp ++ [l]), h').

Definition extract_light_positions (hd : house_data) (h : heap)
  : light_positions * heap :=
  fold_left (extract_region (levels hd)) (regions hd)
    (mkPlan (house_name hd) 0 [] [], h).

(* ================================================================== *)
(** * apply_matterport_rotation *)
(* ================================================================== *)

(** The body of the inner loop: the position becomes [(x, z, -y)] and the
    old position is kept under ['original_position']. *)
Definition rotate_light (li : light_info) : light_info :=
  let original_pos := li_position li in
  let new_x := v0 original_pos in
  let new_y := v2 original_pos in
  let new_z := (- v1 original_pos)%Qc in
  mkLight (li_region_index li) (li_room_label li) (li_room_type li)
    (Vec3 new_x new_y new_z)
    (li_intensity li) (li_room_center li) (li_room_height li)
    (li_floor_z li) (li_ceiling_z li) (Some original_pos).

(** The nested loops over the levels and their lights, applying [f] to
    each referenced object in place. *)
Definition update_lights (f : light_info -> light_info)
    (d : list (Z * level_lights)) (h : heap) : heap :=
  fold_left (fun h kv => fold_left (fun h l => heap_update h l f) (lights (snd kv)) h) d h.

(** [light_positions.copy()] is a shallow copy: the new dictionary has
    the same ['levels'] object, whose lights are then changed in place;
    only ['all_positions'] is bound to a new list. *)
Definition apply_matterport_rotation (lp : light_positions) (h : heap)
  : light_positions * heap :=
  let h' := update_lights rotate_light (lp_levels lp) h in
  (mkPlan (lp_house_name lp) (total_lights lp) (lp_levels lp)
     (rebuild_all_positions (lp_levels lp)), h').

Definition transform_light_positions (lp : light_positions) (h : heap)
  : light_positions * heap :=
  apply_matterport_rotation lp h.

(* ================================================================== *)
(** * scale_light_positions *)
(* ================================================================== *)

(** The part of the [mesh_transform] dictionary that the scaling reads. *)
Record mesh_transform : Type := mkMesh {
  mt_bbox_min : vec3;
  mt_bbox_max : vec3
}.

Local Open Scope Qc_scope.

(** The body of the inner loop of the scaling. *)
Definition scale_light (rotated_house_center scale_factors isaac_center : vec3)
    (li : light_info) : light_info :=
  let original_pos := li_position li in
  let rel_x := v0 original_pos - v0 rotated_house_center in
  let rel_y := v1 original_pos - v1 rotated_house_center in
  let rel_z := v2 original_pos - v2 rotated_house_center in
  let scaled_x := rel_x * v0 scale_factors in
  let scaled_y := rel_y * v1 scale_factors in
  let scaled_z := rel_z * v2 scale_factors in
  let isaac_x := scaled_x + v0 isaac_center in
  let isaac_y := scaled_y + v1 isaac_center in
  let isaac_z := scaled_z + v2 isaac_center in
  mkLight (li_region_index li) (li_room_label li) (li_room_type li)
    (Vec3 isaac_x isaac_y isaac_z)
    (li_intensity li) (li_room_center li) (li_room_height li)
    (li_floor_z li) (li_ceiling_z li) (li_original_position li).

(** [(max + min) / 2] on each axis. *)
Definition bbox_center (bmin bmax : vec3) : vec3 :=
  Vec3 ((v0 bmax + v0 bmin) / fl 2) ((v1 bmax + v1 bmin) / fl 2)
       ((v2 bmax + v2 bmin) / fl 2).

(** Subscripting [None] raises [TypeError]. *)
Definition subscriptable {A : Type} (o : option A) : Py.result A :=
  match o with
  | Some a => Py.ret a
  | None => Py.raise Py.TypeError
  end.

(** Everything the function computes before its loop. *)
Definition alignment_frame (mesh : option mesh_transform) (house_header : option header_data)
  : Py.result (vec3 * vec3 * vec3) :=
  let* hh := subscriptable house_header in
  let house_min := hdr_bbox_min hh in
  let house_max := hdr_bbox_max hh in
  let house_center := bbox_center house_min house_max in
  let rotated_house_center :=
    Vec3 (v0 house_center) (v2 house_center) (- v1 house_center) in
  let* mt := subscriptable mesh in
  let isaac_min := mt_bbox_min mt in
  let isaac_max := mt_bbox_max mt in
  let isaac_center := bbox_center isaac_min isaac_max in
  let rotated_house_size :=
    Vec3 (v0 house_max - v0 house_min)
         (v2 house_max - v2 house_min)
         (v1 house_max - v1 house_min) in
  let isaac_size :=
    Vec3 (v0 isaac_max - v0 isaac_min)
         (v1 isaac_max - v1 isaac_min)
         (v2 isaac_max - v2 isaac_min) in
  let* s0 := Py.truediv (v0 isaac_size) (v0 rotated_house_size) in
  let* s1 := Py.truediv (v1 isaac_size) (v1 rotated_house_size) in
  let* s2 := Py.truediv (v2 isaac_size) (v2 rotated_house_size) in
  Py.ret (rotated_house_center, Vec3 s0 s1 s2, isaac_center).

Local Close Scope Qc_scope.

(** The function returns its result or raises, and leaves a heap: every
    exception is raised before the first light is touched. *)
Definition scale_light_positions (lp : light_positions) (mesh : option mesh_transform)
    (house_header : option header_data) (h : heap)
  : Py.result light_positions * heap :=
  match alignment_frame mesh house_header with
  | inl e => (inl e, h)
  | inr (rotated_house_center, scale_factors, isaac_center) =>
      let h' := update_lights
                  (scale_light rotated_house_center scale_factors isaac_center)
                  (lp_levels lp) h in
      (inr (mkPlan (lp_house_name lp) (total_lights lp) (lp_levels lp)
              (rebuild_all_positions (lp_levels lp))), h')
  end.

(** The two alignment calls of [process_house], in sequence. *)
Definition align_light_positions (lp : light_positions) (mesh : option mesh_transform)
    (house_header : option header_data) (h : heap)
  : Py.result light_positions * heap :=
  let '(rotated, h1) := apply_matterport_rotation lp h in
  scale_light_positions rotated mesh house_header h1.

(* ================================================================== *)
(** * A concrete instance of the conversions *)
(* ================================================================== *)

(** Plain decimal numerals, a subset of what [int] and [float] accept:
    an optional sign, digits and, for floats, one decimal point.  They
    instantiate [py_int] and [py_float] in the worked examples. *)

Definition digit_of (c : ascii) : option Z :=
  let n := nat_of_ascii c in
  if ((48 <=? n)%nat && (n <=? 57)%nat)%bool then Some (Z.of_nat (n - 48)) else None.

Fixpoint decimal_mantissa (s : string) (mant : Z) (frac : option nat) (seen : bool)
  : option (Z * nat) :=
  match s with
  | EmptyString =>
      if seen then Some (mant, match frac with Some k => k | None => O end) else None
  | String c s' =>
      if Ascii.eqb c "."%char then
        match frac with
        | None => decimal_mantissa s' mant (Some O) seen
        | Some _ => None
        end
      else
        match digit_of c with
        | Some d => decimal_mantissa s' (10 * mant + d) (option_map S frac) true
        | None => None
        end
  end.

Definition unsigned_float (s : string) : option Qc :=
  match decimal_mantissa s 0 None false with
  | Some (m, k) => Some (Q2Qc (Qmake m (Z.to_pos (10 ^ Z.of_nat k))))
  | None => None
  end.

Definition unsigned_int (s : string) : option Z :=
  match decimal_mantissa s 0 None false with
  | Some (m, O) => if existsb (Ascii.eqb "."%char) (list_ascii_of_string s) then None else Some m
  | _ => None
  end.

Definition signed {A : Type} (neg : A -> A) (conv : string -> option A) (s : string)
  : option A :=
  match s with
  | String c s' =>
      if Ascii.eqb c "-"%char then option_map neg (conv s')
      else if Ascii.eqb c "+"%char then conv s'
      else conv s
  | EmptyString => None
  end.

Definition decimal_int : string -> option Z := signed Z.opp unsigned_int.
Definition decimal_float : string -> option Qc := signed Qcopp unsigned_float.


(* ================================================================== *)
(** * calculate_light_position in binary64 *)
(* ================================================================== *)

(** The arithmetic of Python's [float]: IEEE 754 binary64, that is
    [SpecFloat] at precision 53 and maximal exponent 1024.  Every
    operation rounds to nearest, ties to even; none of [+], [-], [*]
    raises.  A comparison with NaN is false. *)
Module Binary64.

Definition prec : Z := 53.
Definition emax : Z := 1024.

Definition float : Type := spec_float.

Definition add : float -> float -> float := SFadd prec emax.
Definition sub : float -> float -> float := SFsub prec emax.
Definition mul : float -> float -> float := SFmul prec emax.

(** [a < b] *)
Definition ltb : float -> float -> bool := SFltb.

(** [min(a, b)] keeps [a] unless [b] is strictly smaller. *)
Definition min (a b : float) : float := if ltb b a then b else a.

(** The float of an integer. *)
Definition of_Z (z : Z) : float := binary_normalize prec emax z 0 false.

(** The float of the decimal literal [m / 10^k].  Both [m] and [10^k]
    are floats for the literals of the script, and the division rounds
    their quotient to the nearest float, which is what reading the
    literal does. *)
Definition decimal (m : Z) (k : nat) : float :=
  SFdiv prec emax (of_Z m) (of_Z (10 ^ Z.of_nat k)).

(** A three-element list of floats [[x, y, z]]. *)
Record vec3 : Type := Vec3 { v0 : float; v1 : float; v2 : float }.

(** An element of [house_data['regions']] *)
Record region_data : Type := mkRegion {
  reg_region_index : Z;
  reg_level_index : Z;
  reg_label : string;
  reg_center : vec3;
  reg_bbox_min : vec3;
  reg_bbox_max : vec3;
  reg_height : float
}.

Definition calculate_light_position (region : region_data) : vec3 :=
  let center_x := v0 (reg_center region) in
  let center_y := v1 (reg_center region) in
  let floor_z := v2 (reg_bbox_min region) in
  let ceiling_z := v2 (reg_bbox_max region) in
  let room_height := sub ceiling_z floor_z in
  let light_height :=
    if String.eqb (reg_label region) "s" then
      add floor_z (mul room_height (decimal 4 1))
    else if Py.str_in (reg_label region) ["c"; "t"]%string then
      add floor_z (min (decimal 22 1) (mul room_height (decimal 8 1)))
    else if ltb (decimal 40 1) room_height then
      add floor_z (mul room_height (decimal 6 1))
    else
      add floor_z (min (decimal 27 1) (mul room_height (decimal 8 1))) in
  Vec3 center_x center_y light_height.

End Binary64.

From Stdlib Require Import Lqa Sorted.

(* ================================================================== *)
(** * More built-ins: paths and case *)
(* ================================================================== *)

Module Os.

(** [s.startswith("/")] and [s.endswith("/")] *)
Definition starts_with_sep (s : string) : bool := String.prefix "/" s.

Fixpoint ends_with_sep (s : string) : bool :=
  match s with
  | EmptyString => false
  | String c EmptyString => Ascii.eqb c "/"%char
  | String _ s' => ends_with_sep s'
  end.

(** One step of [os.path.join]: an absolute component replaces what is
    there, otherwise it is appended after exactly one separator. *)
Definition join2 (path b : string) : string :=
  if starts_with_sep b then b
  else if Py.is_empty path || ends_with_sep path then (path ++ b)%string
  else (path ++ "/" ++ b)%string.

(** [os.path.join(a, *p)] *)
Definition join (a : string) (p : list string) : string := fold_left join2 p a.

(** [s.endswith(suffix)] *)
Fixpoint endswith (s suffix : string) : bool :=
  String.eqb s suffix ||
  match s with
  | EmptyString => false
  | String _ s' => endswith s' suffix
  end.

(** [s.lower()] on ASCII *)
Definition lower_char (c : ascii) : ascii :=
  let n := nat_of_ascii c in
  if ((65 <=? n)%nat && (n <=? 90)%nat)%bool then ascii_of_nat (n + 32) else c.

Fixpoint lower (s : string) : string :=
  match s with
  | EmptyString => EmptyString
  | String c s' => String (lower_char c) (lower s')
  end.

(** [sub in s] *)
Fixpoint contains (sub s : string) : bool :=
  String.prefix sub s ||
  match s with
  | EmptyString => false
  | String _ s' => contains sub s'
  end.

(** What the script asks of the file system.  [fs_listdir] gives [None]
    where [os.listdir] raises [OSError]. *)
Record filesystem : Type := mkFs {
  fs_exists : string -> bool;
  fs_isdir : string -> bool;
  fs_listdir : string -> option (list string)
}.

End Os.

(* ================================================================== *)
(** * find_house_files *)
(* ================================================================== *)

Definition matterport_base_path : string := "/home/aaron/matterport3d/v1/scans".

(** The [files] dictionary. *)
Record house_files : Type := mkFiles {
  usd_file : option string;
  house_file : option string
}.

(** The inner loop over the entries of one sub-directory. *)
Definition usd_files_in (subdir_path : string) (entries : list string) : list string :=
  map (fun file => Os.join subdir_path [file])
      (List.filter (fun file => Os.endswith file ".usd") entries).

(** The loop over the sub-directories of [matterport_mesh]: the
    candidates it appends, or [None] when a listing raises. *)
Fixpoint usd_files_below (fs : Os.filesystem) (mesh_dir : string) (subdirs : list string)
  : option (list string) :=
  match subdirs with
  | [] => Some []
  | subdir :: rest =>
      let subdir_path := Os.join mesh_dir [subdir] in
      if Os.fs_isdir fs subdir_path then
        match Os.fs_listdir fs subdir_path with
        | None => None
        | Some entries =>
            match usd_files_below fs mesh_dir rest with
            | None => None
            | Some more => Some (usd_files_in subdir_path entries ++ more)
            end
        end
      else usd_files_below fs mesh_dir rest
  end.

(** The list [usd_candidates] when the search loop starts. *)
Definition usd_candidates (fs : Os.filesystem) (house_name : string)
  : option (list string) :=
  let house_dir := Os.join matterport_base_path [house_name] in
  let fixed :=
    [ Os.join house_dir [(house_name ++ "_corrected.usd")%string];
      Os.join house_dir [(house_name ++ ".usd")%string];
      Os.join house_dir ["matterport_mesh"; (house_name ++ ".usd")%string] ] in
  let mesh_dir := Os.join house_dir ["matterport_mesh"] in
  if Os.fs_exists fs mesh_dir then
    match Os.fs_listdir fs mesh_dir with
    | None => None
    | Some subdirs =>
        match usd_files_below fs mesh_dir subdirs with
        | None => None
        | Some found => Some (fixed ++ found)
        end
    end
  else Some fixed.

Definition house_file_path (house_name : string) : string :=
  let house_dir := Os.join matterport_base_path [house_name] in
  let house_seg_path :=
    Os.join house_dir ["house_segmentations"; house_name; "house_segmentations"] in
  Os.join house_seg_path [(house_name ++ ".house")%string].

(** [find_house_files(house_name)]; [None] when a directory listing
    raises. *)
Definition find_house_files (fs : Os.filesystem) (house_name : string)
  : option house_files :=
  let the_house_file :=
    if Os.fs_exists fs (house_file_path house_name)
    then Some (house_file_path house_name) else None in
  match usd_candidates fs house_name with
  | None => None
  | Some candidates =>
      Some (mkFiles (find (Os.fs_exists fs) candidates) the_house_file)
  end.

(* ================================================================== *)
(** * get_house_mesh_transform *)
(* ================================================================== *)

(** What the function reads of a prim of the stage: its path, whether it
    is a mesh or a transform, and the world bounding box that the
    bounding-box cache computes for it ([None] when that computation
    raises). *)
Record prim : Type := mkPrim {
  prim_path : string;
  is_mesh : bool;
  is_xform : bool;
  world_bound : option (vec3 * vec3)
}.

(** The test of the traversal loop. *)
Definition is_mesh_candidate (p : prim) : bool :=
  (is_mesh p || is_xform p) &&
  (negb (Os.contains "lighting" (Os.lower (prim_path p))) &&
   negb (Os.contains "light" (Os.lower (prim_path p)))).

(** The box used when the bounding box cannot be computed. *)
Definition fallback_mesh : mesh_transform :=
  mkMesh (Vec3 (fl (-10)) (fl (-10)) (fl (-1))) (Vec3 (fl 10) (fl 10) (fl 5)).

(** [get_house_mesh_transform()] on the prims of the stage in traversal
    order.  The second candidate is taken; the result is [None] when
    there is no candidate. *)
Definition get_house_mesh_transform (stage : list prim)
  : Py.result (option mesh_transform) :=
  let mesh_candidates := List.filter is_mesh_candidate stage in
  match mesh_candidates with
  | [] => Py.ret None
  | _ :: _ =>
      match nth_error mesh_candidates 1 with
      | None => Py.raise Py.IndexError
      | Some house_prim =>
          match world_bound house_prim with
          | Some (bmin, bmax) => Py.ret (Some (mkMesh bmin bmax))
          | None => Py.ret (Some fallback_mesh)
          end
      end
  end.

(* ================================================================== *)
(** * The lighting steps of process_house *)
(* ================================================================== *)

Section Pipeline.

Variable py_int : string -> option Z.
Variable py_float : string -> option Qc.

(** From the parse of the house file to the scaled plan, as
    [process_house] chains the calls once the files are found and the
    stage is loaded.  An exception of a step ends the chain and leaves
    the heap as that step found it. *)
Definition process_house_lighting (path : string) (text : string)
    (stage : list prim) (h : heap) : Py.result light_positions * heap :=
  let '(house, _) := parse_house_file py_int py_float path text in
  let '(light_positions, h1) := extract_light_positions house h in
  match get_house_mesh_transform stage with
  | inl e => (inl e, h1)
  | inr mesh =>
      let '(rotated, h2) := apply_matterport_rotation light_positions h1 in
      scale_light_positions rotated mesh (header house) h2
  end.

End Pipeline.

(* ================================================================== *)
(** * Notions used in the statements *)
(* ================================================================== *)

(** The record table of the format: the tags, the least number of tokens
    of a record and the token positions of its integer and float fields. *)
Definition recognized (tag : string) : bool :=
  Py.str_in tag ["H"; "L"; "R"].

Definition min_tokens (tag : string) : nat :=
  if String.eqb tag "H" then 24%nat
  else if String.eqb tag "L" then 13%nat
  else if String.eqb tag "R" then 16%nat
  else 0%nat.

Definition int_offsets (tag : string) : list nat :=
  if String.eqb tag "H" then [10; 12]%nat
  else if String.eqb tag "L" then [1; 2]%nat
  else if String.eqb tag "R" then [1; 2]%nat
  else [].

Definition float_offsets (tag : string) : list nat :=
  if String.eqb tag "H" then [18; 19; 20; 21; 22; 23]%nat
  else if String.eqb tag "L" then [4; 5; 6; 7; 8; 9; 10; 11; 12]%nat
  else if String.eqb tag "R" then [6; 7; 8; 9; 10; 11; 12; 13; 14; 15]%nat
  else [].

(** The value of the token at a position under a conversion, when the
    token exists and converts. *)
Definition field {A : Type} (conv : string -> option A) (parts : list string) (i : nat)
  : option A :=
  match nth_error parts i with
  | Some t => conv t
  | None => None
  end.

Definition field3 (conv : string -> option Qc) (parts : list string) (i : nat)
  : option vec3 :=
  match field conv parts i, field conv parts (i + 1), field conv parts (i + 2) with
  | Some a, Some b, Some c => Some (Vec3 a b c)
  | _, _, _ => None
  end.

(** A record line with too few tokens, and one with enough tokens of
    which a numeric one does not convert. *)
Definition too_short (tag : string) (parts : list string) : Prop :=
  (length parts < min_tokens tag)%nat.

Definition bad_numeric (py_int : string -> option Z) (py_float : string -> option Qc)
    (tag : string) (parts : list string) : Prop :=
  (min_tokens tag <= length parts)%nat /\
  exists i : nat,
    (In i (int_offsets tag) /\ field py_int parts i = None) \/
    (In i (float_offsets tag) /\ field py_float parts i = None).

(** The tokens of a line and its tag. *)
Definition tokens (line : string) : list string := Py.split (Py.strip line).

Definition tag_of (line : string) : option string := nth_error (tokens line) 0.

(** The format table read as a parser of its own.  A line gives a record
    when its first token is one of the three tags, it has at least the
    number of tokens of that tag, and every field of the table converts;
    the fields are taken at the token positions of the table. *)
Inductive record : Type :=
  | HeaderRecord (h : header_data)
  | LevelRecord (l : level_data)
  | RegionRecord (r : region_data).

Definition table_record (py_int : string -> option Z) (py_float : string -> option Qc)
    (parts : list string) : option record :=
  match nth_error parts 0 with
  | Some tag =>
      if String.eqb tag "H" then
        if (24 <=? length parts)%nat then
          match nth_error parts 1, field py_int parts 10, field py_int parts 12,
                field3 py_float parts 18, field3 py_float parts 21 with
          | Some name, Some num_regions, Some num_levels, Some bbox_min, Some bbox_max =>
              Some (HeaderRecord
                      (mkHeader name num_regions num_levels bbox_min bbox_max))
          | _, _, _, _, _ => None
          end
        else None
      else if String.eqb tag "L" then
        if (13 <=? length parts)%nat then
          match field py_int parts 1, field py_int parts 2, nth_error parts 3,
                field3 py_float parts 4, field3 py_float parts 7,
                field3 py_float parts 10 with
          | Some index, Some num_regions, Some label, Some center, Some bbox_min,
            Some bbox_max =>
              Some (LevelRecord
                      (mkLevel index num_regions label center bbox_min bbox_max))
          | _, _, _, _, _, _ => None
          end
        else None
      else if String.eqb tag "R" then
        if (16 <=? length parts)%nat then
          match field py_int parts 1, field py_int parts 2, nth_error parts 5,
                field3 py_float parts 6, field3 py_float parts 9,
                field3 py_float parts 12, field py_float parts 15 with
          | Some index, Some level_index, Some label, Some center, Some bbox_min,
            Some bbox_max, Some height =>
              Some (RegionRecord
                      (mkRegion index level_index label center bbox_min bbox_max
                         height))
          | _, _, _, _, _, _, _ => None
          end
        else None
      else None
  | None => None
  end.

(** A header record replaces the header; a level or region record goes
    to the end of its list. *)
Definition store (hd : house_data) (r : record) : house_data :=
  match r with
  | HeaderRecord h => mkHouse (house_name hd) (Some h) (levels hd) (regions hd)
  | LevelRecord l => mkHouse (house_name hd) (header hd) (levels hd ++ [l]) (regions hd)
  | RegionRecord r => mkHouse (house_name hd) (header hd) (levels hd) (regions hd ++ [r])
  end.

Definition table_line (py_int : string -> option Z) (py_float : string -> option Qc)
    (hd : house_data) (line : string) : house_data :=
  match table_record py_int py_float (tokens line) with
  | Some r => store hd r
  | None => hd
  end.

(** The document of a list of lines: the records of the lines, stored
    in the order of the lines. *)
Definition table_document (py_int : string -> option Z) (py_float : string -> option Qc)
    (name : string) (lines : list string) : house_data :=
  fold_left (table_line py_int py_float) lines (mkHouse name None [] []).

(** The document with another name. *)
Definition with_name (name : string) (hd : house_data) : house_data :=
  mkHouse name (header hd) (levels hd) (regions hd).

(** Junk regions and the regions that get a light. *)
Definition is_junk (region : region_data) : bool :=
  String.eqb (reg_label region) "Z".

Definition placed (rs : list region_data) : list region_data :=
  List.filter (fun region => negb (is_junk region)) rs.


(** The per-level groups of a plan, in the order of the dictionary, and
    their concatenation. *)
Definition groups (d : list (Z * level_lights)) : list (list loc) :=
  map (fun kv => lights (snd kv)) d.

Definition grouped_positions (lp : light_positions) : list loc :=
  concat (groups (lp_levels lp)).

Local Open Scope Qc_scope.

(** The fixed rotation [(x, y, z) -> (x, z, -y)]. *)
Definition rotate (p : vec3) : vec3 := Vec3 (v0 p) (v2 p) (- v1 p).

(** The box [bmin .. bmax] after the rotation.  The rotation sends the
    second axis to the negated third, so on the third axis the lower bound
    of the rotated box is the negated upper bound of the second axis and
    the upper bound is the negated lower bound. *)
Definition rotate_bbox (bmin bmax : vec3) : vec3 * vec3 :=
  (Vec3 (v0 bmin) (v2 bmin) (- v1 bmax),
   Vec3 (v0 bmax) (v2 bmax) (- v1 bmin)).

(** The smallest box that holds two points: on each axis the smaller and
    the larger of their coordinates. *)
Definition qmin (a b : Qc) : Qc := if Py.ltb b a then b else a.
Definition qmax (a b : Qc) : Qc := if Py.ltb a b then b else a.

Definition bounding_box (a b : vec3) : vec3 * vec3 :=
  (Vec3 (qmin (v0 a) (v0 b)) (qmin (v1 a) (v1 b)) (qmin (v2 a) (v2 b)),
   Vec3 (qmax (v0 a) (v0 b)) (qmax (v1 a) (v1 b)) (qmax (v2 a) (v2 b))).

(** Midpoint and extent of a box, axis by axis. *)
Definition midpoint (box : vec3 * vec3) : vec3 :=
  Vec3 ((v0 (fst box) + v0 (snd box)) / fl 2)
       ((v1 (fst box) + v1 (snd box)) / fl 2)
       ((v2 (fst box) + v2 (snd box)) / fl 2).

Definition extent (box : vec3 * vec3) : vec3 :=
  Vec3 (v0 (snd box) - v0 (fst box))
       (v1 (snd box) - v1 (fst box))
       (v2 (snd box) - v2 (fst box)).

(** A box whose first corner is below its second corner on every axis. *)
Definition ordered_bbox (bmin bmax : vec3) : Prop :=
  forall i : axis, getitem3 bmin i <= getitem3 bmax i.

(** The lights of a plan are distinct objects. *)
Definition distinct_lights (lp : light_positions) : Prop :=
  NoDup (grouped_positions lp).

Local Close Scope Qc_scope.

(* ================================================================== *)
(** * Notions used in the further statements *)
(* ================================================================== *)

(** The labels whose room type has no entry in the intensity table. *)
Definition default_intensity_labels : list string :=
  ["p"; "t"; "v"; "w"; "x"; "y"; "C"; "D"; "Z"].

(** The name that the document gives to a level index: the label of the
    first level with that index, or a name made from the index. *)
Definition level_display_name (house_levels : list level_data) (k : Z) : string :=
  match find_level_name house_levels k with
  | Some name => name
  | None => ("Level_" ++ Py.str_of_int k)%string
  end.

(** The addresses, from [start] on and in document order, of the lights
    of those regions of a list that are on level [k]. *)
Definition level_locs (k : Z) (start : nat) (rs : list region_data) : list loc :=
  map fst
    (List.filter (fun lr => Z.eqb (reg_level_index (snd lr)) k)
       (combine (seq start (length rs)) rs)).

(** Two lights that differ at most in their position and in the
    position kept as the original one. *)
Definition same_room (li li' : light_info) : Prop :=
  li_region_index li' = li_region_index li /\
  li_room_label li' = li_room_label li /\
  li_room_type li' = li_room_type li /\
  li_intensity li' = li_intensity li /\
  li_room_center li' = li_room_center li /\
  li_room_height li' = li_room_height li /\
  li_floor_z li' = li_floor_z li /\
  li_ceiling_z li' = li_ceiling_z li.

(** [n] rotations of a plan, one after the other. *)
Definition rotate_times (n : nat) (lp : light_positions) (h : heap)
  : light_positions * heap :=
  Nat.iter n (fun st => apply_matterport_rotation (fst st) (snd st)) (lp, h).

(** The test that decides a mesh candidate, without its first half. *)
Definition no_light_in_path (p : prim) : bool :=
  (is_mesh p || is_xform p) && negb (Os.contains "light" (Os.lower (prim_path p))).

(** The box that the stage gives for a prim. *)
Definition mesh_of_prim (p : prim) : mesh_transform :=
  match world_bound p with
  | Some (bmin, bmax) => mkMesh bmin bmax
  | None => fallback_mesh
  end.

(** The first of the candidate paths of a house. *)
Definition corrected_usd_path (house_name : string) : string :=
  Os.join (Os.join matterport_base_path [house_name])
    [(house_name ++ "_corrected.usd")%string].

(** A record line of tag [H] that sets no header: too short, or with a
    numeric token that does not convert. *)
Definition unusable_header_line (py_int : string -> option Z)
    (py_float : string -> option Qc) (line : string) : Prop :=
  too_short "H" (tokens line) \/ bad_numeric py_int py_float "H" (tokens line).

(** A house name that is a single path component. *)
Definition plain_name (name : string) : Prop :=
  name <> EmptyString /\ Os.contains "/" name = false.

(* ================================================================== *)
(** * Inputs of the worked examples *)
(* ================================================================== *)

Definition region_q : region_data :=
  mkRegion 0 0 "q" (Vec3 0 0 0) (Vec3 0 0 0) (Vec3 0 0 (fl 3)) (fl 3).

Definition region_porch : region_data :=
  mkRegion 1 0 "p" (Vec3 0 0 0) (Vec3 0 0 0) (Vec3 0 0 (fl 3)) (fl 3).


(** Regions with binary64 coordinates: the closet with its floor at 0 and
    its ceiling at 10, and two kitchens between 4.3 and 8.3 and between
    0.4 and 4.4. *)
Definition b64_closet_0_10 : Binary64.region_data :=
  Binary64.mkRegion 7 0 "c"
    (Binary64.Vec3 (Binary64.of_Z 1) (Binary64.of_Z 2) (Binary64.of_Z 5))
    (Binary64.Vec3 (Binary64.of_Z 0) (Binary64.of_Z 0) (Binary64.of_Z 0))
    (Binary64.Vec3 (Binary64.of_Z 2) (Binary64.of_Z 4) (Binary64.of_Z 10))
    (Binary64.of_Z 10).

Definition b64_kitchen (floor_z ceiling_z : Binary64.float) : Binary64.region_data :=
  Binary64.mkRegion 3 0 "k"
    (Binary64.Vec3 (Binary64.of_Z 1) (Binary64.of_Z 2) (Binary64.of_Z 6))
    (Binary64.Vec3 (Binary64.of_Z 0) (Binary64.of_Z 0) floor_z)
    (Binary64.Vec3 (Binary64.of_Z 2) (Binary64.of_Z 4) ceiling_z)
    (Binary64.sub ceiling_z floor_z).

Definition line_H : string :=
  "H xyz l 0 0 0 0 0 0 0 3 0 1 0 0 0 0 0 -5 -5 -1 5 5 3 extra".

Definition line_L : string := "L 0 2 groundfloor 0 0 1 -5 -5 -1 5 5 3".

Definition line_R : string := "R 0 0 0 0 k 1 2 0.5 0 0 0 2 4 3 3".

Definition line_R_short : string := "R 3 0 0 0 c 1 2".

Definition line_R_bad : string := "R 3 0 0 0 c 1 2 0 0 x 0 2 2 10 3".

Definition line_other : string := "P 0 0 0 some panorama".

Definition empty_house : house_data := mkHouse "xyz" None [] [].

(** Three rooms, the second on another level than the first and third. *)
Definition interleaved_text : string :=
  "R 0 0 0 0 k 1 2 0 0 0 0 2 4 3 3" ++ String Py.LF
  ("R 1 1 0 0 b 1 2 4 0 0 4 2 4 7 3" ++ String Py.LF
  ("R 2 0 0 0 l 5 2 0 4 0 0 6 4 3 3" ++ String Py.LF "")).

(** A house file with a header line and the three rooms. *)
Definition house_text : string :=
  (line_H ++ String Py.LF interleaved_text)%string.

Definition interleaved_house : house_data :=
  fst (parse_house_file decimal_int decimal_float "xyz.house" interleaved_text).

(** The bounding boxes of the alignment example: the header box
    (-5,-5,-1)..(5,5,3) and the mesh box (0,0,0)..(10,10,4). *)
Definition xyz_header : header_data :=
  mkHeader "xyz" 3 2 (Vec3 (fl (-5)) (fl (-5)) (fl (-1))) (Vec3 (fl 5) (fl 5) (fl 3)).

Definition isaac_mesh : mesh_transform :=
  mkMesh (Vec3 (fl 0) (fl 0) (fl 0)) (Vec3 (fl 10) (fl 10) (fl 4)).

(** A header box that is flat along its second axis. *)
Definition flat_header : header_data :=
  mkHeader "xyz" 3 2 (Vec3 (fl (-5)) (fl 2) (fl (-1))) (Vec3 (fl 5) (fl 2) (fl 3)).

(** One light at (1, 2, 3) on level 0, and the plan that refers to it. *)
Definition one_light : light_info :=
  mkLight 0 "k" "kitchen" (Vec3 (fl 1) (fl 2) (fl 3)) 15000
    (Vec3 (fl 1) (fl 2) (fl 1)) (fl 4) (fl 0) (fl 4) None.

Definition one_light_heap : heap := [one_light].

Definition one_light_plan : light_positions :=
  mkPlan "xyz" 1 [(0, mkLevelLights "Level_0" [0%nat])] [0%nat].

(** A stage with the wrapping transform, the mesh of the house and a
    light, and stages with fewer prims. *)
Definition prim_wrapper : prim := mkPrim "/World/xyz" false true None.

Definition prim_house : prim :=
  mkPrim "/World/xyz/mesh" true false
    (Some (Vec3 (fl 0) (fl 0) (fl 0), Vec3 (fl 10) (fl 10) (fl 4))).

Definition prim_light : prim := mkPrim "/World/MatterportLighting/KeyLight" false true None.

Definition stage_house : list prim := [prim_wrapper; prim_light; prim_house].

Definition stage_wrapper_only : list prim := [prim_light; prim_wrapper].

(** A file system that holds one USD file of the house. *)

Definition fs_corrected_only : Os.filesystem :=
  Os.mkFs (String.eqb "/home/aaron/matterport3d/v1/scans/xyz/xyz_corrected.usd")
    (fun _ => false) (fun _ => Some []).

(** The header that [line_H] holds. *)
Definition line_H_header : header_data :=
  mkHeader "xyz" 3 1 (Vec3 (fl (-5)) (fl (-5)) (fl (-1))) (Vec3 (fl 5) (fl 5) (fl 3)).
(* ================================================================== *)
(** * Properties of the label catalogue *)
(* ================================================================== *)

Lemma dict_get_absent {V : Type} (d : list (string * V)) (k : string) (default : V) :
  Py.dict_mem d k = false -> Py.dict_get d k default = default.
Proof.
  induction d as [| [k' v] d IH]; simpl; [reflexivity |].
  destruct (String.eqb k' k); simpl; [discriminate | exact IH].
Qed.

(** C9 (amended): the label table has 31 entries, not 30.  For every
    region, a label that is not a key of the label table gives the room
    type ['other'], and a room type that is not a key of the intensity
    table gives the intensity 1000; ['k'] is a kitchen at 15000 and ['b']
    a bedroom at 8000. *)
Theorem label_catalogue_defaults :
  length room_type_mapping = 31%nat /\
  (forall region : region_data,
      Py.dict_mem room_type_mapping (reg_label region) = false ->
      li_room_type (light_info_of_region region) = "other") /\
  (forall region : region_data,
      Py.dict_mem room_intensities (li_room_type (light_info_of_region region)) = false ->
      li_intensity (light_info_of_region region) = 1000) /\
  (room_type_of "k" = "kitchen" /\ intensity_of "kitchen" = 15000) /\
  (room_type_of "b" = "bedroom" /\ intensity_of "bedroom" = 8000).
Proof.
  split; [reflexivity |].
  split; [| split; [| split; split; reflexivity]].
  - intros region Habsent. simpl. unfold room_type_of.
    now apply dict_get_absent.
  - intros region Habsent. simpl in *. unfold intensity_of.
    now apply dict_get_absent.
Qed.

Lemma label_catalogue_defaults_witness :
  li_room_type (light_info_of_region region_q) = "other" /\
  li_intensity (light_info_of_region region_porch) = 1000.
Proof.
  destruct label_catalogue_defaults as (_ & Htype & Hint & _).
  split.
  - apply (Htype region_q). reflexivity.
  - apply (Hint region_porch). reflexivity.
Defined.

(** The label table of the source is not a 30-entry table. *)
Lemma label_table_not_30_entries : length room_type_mapping <> 30%nat.
Proof. simpl. lia. Qed.

(* ================================================================== *)
(** * Properties of the placement rule *)
(* ================================================================== *)

Local Open Scope Qc_scope.

Lemma ltb_lt (a b : Qc) : Py.ltb a b = true <-> a < b.
Proof.
  unfold Py.ltb. rewrite Qclt_alt.
  destruct (a ?= b); split; congruence.
Qed.

Lemma ltb_ge (a b : Qc) : Py.ltb a b = false <-> b <= a.
Proof.
  split; intros H.
  - apply Qcnot_lt_le. intros Hlt. apply ltb_lt in Hlt. congruence.
  - destruct (Py.ltb a b) eqn:E; [| reflexivity].
    apply ltb_lt in E. exfalso. exact (Qclt_not_le _ _ E H).
Qed.

Lemma str_in_c_t (s : string) :
  Py.str_in s ["c"; "t"]%string = true <-> s = "c"%string \/ s = "t"%string.
Proof.
  unfold Py.str_in. simpl. rewrite !orb_true_iff, !String.eqb_eq.
  split; [intros [H | [H | H]] | intros [H | H]]; try discriminate; auto.
Qed.


Local Close Scope Qc_scope.

(** The literals of the placement rule, as mantissa and exponent. *)
Lemma binary64_literals :
  Binary64.decimal 4 1 = S754_finite false 7205759403792794 (-54) /\
  Binary64.decimal 6 1 = S754_finite false 5404319552844595 (-53) /\
  Binary64.decimal 8 1 = S754_finite false 7205759403792794 (-53) /\
  Binary64.decimal 22 1 = S754_finite false 4953959590107546 (-51) /\
  Binary64.decimal 27 1 = S754_finite false 6079859496950170 (-51) /\
  Binary64.decimal 40 1 = S754_finite false 4503599627370496 (-50).
Proof. repeat split; vm_compute; reflexivity. Qed.

(** Multiplication of floats is commutative. *)
Lemma binary64_mul_comm (a b : Binary64.float) : Binary64.mul a b = Binary64.mul b a.
Proof.
  unfold Binary64.mul, SFmul.
  destruct a as [sa | sa | | sa ma ea], b as [sb | sb | | sb mb eb];
    try reflexivity; try (now rewrite xorb_comm).
  now rewrite xorb_comm, Pos.mul_comm, Z.add_comm.
Qed.

(** The height of the light, by the branches of the code. *)
Lemma binary64_light_height (region : Binary64.region_data) :
  let floor_z := Binary64.v2 (Binary64.reg_bbox_min region) in
  let h := Binary64.sub (Binary64.v2 (Binary64.reg_bbox_max region)) floor_z in
  Binary64.v2 (Binary64.calculate_light_position region) =
    if String.eqb (Binary64.reg_label region) "s"
    then Binary64.add floor_z (Binary64.mul h (Binary64.decimal 4 1))
    else if Py.str_in (Binary64.reg_label region) ["c"; "t"]%string
    then Binary64.add floor_z
           (Binary64.min (Binary64.decimal 22 1) (Binary64.mul h (Binary64.decimal 8 1)))
    else if Binary64.ltb (Binary64.decimal 40 1) h
    then Binary64.add floor_z (Binary64.mul h (Binary64.decimal 6 1))
    else Binary64.add floor_z
           (Binary64.min (Binary64.decimal 27 1) (Binary64.mul h (Binary64.decimal 8 1))).
Proof. reflexivity. Qed.

(** C5: in the arithmetic of the program (binary64, every operation
    rounded), the light sits above the centre of the region, at a height
    chosen by the first rule that applies, where [h] is the rounded
    difference of ceiling and floor: stairs, [floor + 0.4 * h]; closet or
    toilet, [floor + min(2.2, 0.8 * h)]; [h > 4.0], [floor + 0.6 * h];
    otherwise [floor + min(2.7, 0.8 * h)].  Here [min(c, x)] is [x] when
    [x < c] and [c] otherwise.  A closet with its floor at 0 and its
    ceiling at 10 gets the height 2.2, not 8.0. *)
Theorem calculate_light_position_rule (region : Binary64.region_data) :
  let floor_z := Binary64.v2 (Binary64.reg_bbox_min region) in
  let ceiling_z := Binary64.v2 (Binary64.reg_bbox_max region) in
  let h := Binary64.sub ceiling_z floor_z in
  let label := Binary64.reg_label region in
  let p := Binary64.calculate_light_position region in
  let z := Binary64.v2 p in
  let scaled (m : Z) := Binary64.mul (Binary64.decimal m 1) h in
  let capped (cap : Z) :=
    (Binary64.ltb (scaled 8) (Binary64.decimal cap 1) = true ->
     z = Binary64.add floor_z (scaled 8)) /\
    (Binary64.ltb (scaled 8) (Binary64.decimal cap 1) = false ->
     z = Binary64.add floor_z (Binary64.decimal cap 1)) in
  Binary64.v0 p = Binary64.v0 (Binary64.reg_center region) /\
  Binary64.v1 p = Binary64.v1 (Binary64.reg_center region) /\
  (label = "s"%string -> z = Binary64.add floor_z (scaled 4)) /\
  (label = "c"%string \/ label = "t"%string -> capped 22%Z) /\
  (label <> "s"%string -> label <> "c"%string -> label <> "t"%string ->
     Binary64.ltb (Binary64.decimal 40 1) h = true ->
     z = Binary64.add floor_z (scaled 6)) /\
  (label <> "s"%string -> label <> "c"%string -> label <> "t"%string ->
     Binary64.ltb (Binary64.decimal 40 1) h = false -> capped 27%Z) /\
  (label = "c"%string ->
     floor_z = Binary64.of_Z 0 -> ceiling_z = Binary64.of_Z 10 ->
     z = Binary64.decimal 22 1 /\ z <> Binary64.of_Z 8).
Proof.
  intros floor_z ceiling_z h label p z scaled capped.
  assert (Hcap : forall cap : Z,
             z = Binary64.add floor_z
                   (Binary64.min (Binary64.decimal cap 1)
                      (Binary64.mul h (Binary64.decimal 8 1))) ->
             capped cap).
  { intros cap Hz. subst capped scaled. cbv beta.
    rewrite (binary64_mul_comm (Binary64.decimal 8 1) h).
    unfold Binary64.min in Hz.
    split; intros Hlt; rewrite Hlt in Hz; exact Hz. }
  assert (Hclo : label = "c"%string \/ label = "t"%string ->
                 z = Binary64.add floor_z
                       (Binary64.min (Binary64.decimal 22 1)
                          (Binary64.mul h (Binary64.decimal 8 1)))).
  { intros Hct. subst z p. rewrite binary64_light_height.
    fold floor_z ceiling_z h label.
    destruct (String.eqb label "s") eqn:Es.
    - apply String.eqb_eq in Es. destruct Hct; congruence.
    - apply str_in_c_t in Hct. now rewrite Hct. }
  assert (Hother : label <> "s"%string -> label <> "c"%string -> label <> "t"%string ->
                   z = if Binary64.ltb (Binary64.decimal 40 1) h
                       then Binary64.add floor_z (Binary64.mul h (Binary64.decimal 6 1))
                       else Binary64.add floor_z
                              (Binary64.min (Binary64.decimal 27 1)
                                 (Binary64.mul h (Binary64.decimal 8 1)))).
  { intros Hs Hc Ht. subst z p. rewrite binary64_light_height.
    fold floor_z ceiling_z h label.
    apply String.eqb_neq in Hs. rewrite Hs.
    destruct (Py.str_in label ["c"; "t"]%string) eqn:Ect; [| reflexivity].
    apply str_in_c_t in Ect. tauto. }
  split; [reflexivity |]. split; [reflexivity |].
  split; [| split; [| split; [| split]]].
  - intros Hs. subst z p scaled. cbv beta. rewrite binary64_light_height.
    fold floor_z ceiling_z h label. apply String.eqb_eq in Hs. rewrite Hs.
    now rewrite (binary64_mul_comm h).
  - intros Hct. apply Hcap. exact (Hclo Hct).
  - intros Hs Hc Ht Hlt. rewrite (Hother Hs Hc Ht), Hlt. subst scaled. cbv beta.
    now rewrite (binary64_mul_comm h).
  - intros Hs Hc Ht Hlt. apply Hcap. now rewrite (Hother Hs Hc Ht), Hlt.
  - intros Hc Hfloor Hceiling.
    assert (Hz : z = Binary64.decimal 22 1).
    { rewrite (Hclo (or_introl Hc)). subst h. rewrite Hfloor, Hceiling.
      vm_compute. reflexivity. }
    split; [exact Hz |]. rewrite Hz. vm_compute. discriminate.
Qed.

(** The closet of the example gets 2.2.  Between 4.3 and 8.3 the rounded
    difference is just above 4.0 and the third rule gives 6.7; between
    0.4 and 4.4 it is 4.0 and the last rule gives 0.4 + 2.7 = 3.1. *)
Lemma calculate_light_position_rule_witness :
  Binary64.v2 (Binary64.calculate_light_position b64_closet_0_10) =
    Binary64.decimal 22 1 /\
  Binary64.v2 (Binary64.calculate_light_position
                 (b64_kitchen (Binary64.decimal 43 1) (Binary64.decimal 83 1))) =
    Binary64.decimal 67 1 /\
  Binary64.v2 (Binary64.calculate_light_position
                 (b64_kitchen (Binary64.decimal 4 1) (Binary64.decimal 44 1))) =
    Binary64.decimal 31 1.
Proof.
  split; [| split].
  - destruct (calculate_light_position_rule b64_closet_0_10)
      as (_ & _ & _ & _ & _ & _ & Hex).
    apply Hex; reflexivity.
  - destruct (calculate_light_position_rule
                (b64_kitchen (Binary64.decimal 43 1) (Binary64.decimal 83 1)))
      as (_ & _ & _ & _ & Htall & _).
    rewrite Htall.
    + vm_compute; reflexivity.
    + cbn [Binary64.reg_label b64_kitchen]; discriminate.
    + cbn [Binary64.reg_label b64_kitchen]; discriminate.
    + cbn [Binary64.reg_label b64_kitchen]; discriminate.
    + vm_compute; reflexivity.
  - destruct (calculate_light_position_rule
                (b64_kitchen (Binary64.decimal 4 1) (Binary64.decimal 44 1)))
      as (_ & _ & _ & _ & _ & Hnormal & _).
    destruct Hnormal as [_ Hcap].
    + cbn [Binary64.reg_label b64_kitchen]; discriminate.
    + cbn [Binary64.reg_label b64_kitchen]; discriminate.
    + cbn [Binary64.reg_label b64_kitchen]; discriminate.
    + vm_compute; reflexivity.
    + rewrite Hcap; vm_compute; reflexivity.
Defined.


(* ================================================================== *)
(** * Properties of the parser *)
(* ================================================================== *)

Section ParserFacts.

Variable py_int : string -> option Z.
Variable py_float : string -> option Qc.

Lemma part_nth (parts : list string) (i : nat) (t : string) :
  nth_error parts i = Some t -> part parts i = inr t.
Proof. unfold part. now intros ->. Qed.

Lemma int_at_field (parts : list string) (i : nat) (z : Z) :
  field py_int parts i = Some z -> int_at py_int parts i = inr z.
Proof.
  unfold field, int_at, part.
  destruct (nth_error parts i); simpl; [| discriminate]. now intros ->.
Qed.

Lemma float_at_field (parts : list string) (i : nat) (q : Qc) :
  field py_float parts i = Some q -> float_at py_float parts i = inr q.
Proof.
  unfold field, float_at, part.
  destruct (nth_error parts i); simpl; [| discriminate]. now intros ->.
Qed.

Lemma float3_at_field (parts : list string) (i : nat) (v : vec3) :
  field3 py_float parts i = Some v -> float3_at py_float parts i = inr v.
Proof.
  unfold field3, float3_at. intros H.
  destruct (field py_float parts i) as [a |] eqn:Ea; [| discriminate].
  destruct (field py_float parts (i + 1)) as [b |] eqn:Eb; [| discriminate].
  destruct (field py_float parts (i + 2)) as [c |] eqn:Ec; [| discriminate].
  rewrite (float_at_field _ _ _ Ea). cbn [Py.bind].
  rewrite (float_at_field _ _ _ Eb). cbn [Py.bind].
  rewrite (float_at_field _ _ _ Ec). cbn [Py.bind].
  injection H as <-. reflexivity.
Qed.

(** The branch taken by [parse_parts], by tag. *)
Lemma parse_parts_tag (hd : house_data) (parts : list string) (tag : string) :
  nth_error parts 0 = Some tag ->
  parse_parts py_int py_float hd parts =
    if String.eqb tag "H" then
      if (24 <=? length parts)%nat
      then let* h := header_of_parts py_int py_float parts in Py.ret (set_header hd h)
      else Py.ret hd
    else if String.eqb tag "L" then
      if (13 <=? length parts)%nat
      then let* l := level_of_parts py_int py_float parts in Py.ret (append_level hd l)
      else Py.ret hd
    else if String.eqb tag "R" then
      if (16 <=? length parts)%nat
      then let* r := region_of_parts py_int py_float parts in Py.ret (append_region hd r)
      else Py.ret hd
    else Py.ret hd.
Proof.
  destruct parts as [| t ts]; simpl; [discriminate |].
  intros [= ->]. reflexivity.
Qed.

Lemma recognized_cases (tag : string) :
  recognized tag = true -> tag = "H" \/ tag = "L" \/ tag = "R".
Proof.
  unfold recognized, Py.str_in. simpl.
  rewrite !orb_true_iff, !String.eqb_eq.
  intros [H | [H | [H | H]]]; try discriminate; auto.
Qed.

Lemma parse_parts_short (hd : house_data) (parts : list string) (tag : string) :
  nth_error parts 0 = Some tag ->
  recognized tag = true ->
  (length parts < min_tokens tag)%nat ->
  parse_parts py_int py_float hd parts = inr hd.
Proof.
  intros Htag Hrec Hlen. rewrite (parse_parts_tag _ _ _ Htag).
  destruct (recognized_cases _ Hrec) as [-> | [-> | ->]];
    cbv [min_tokens] in Hlen; simpl in Hlen;
    apply Nat.leb_gt in Hlen; rewrite Hlen; reflexivity.
Qed.

Lemma parse_parts_other (hd : house_data) (parts : list string) (tag : string) :
  nth_error parts 0 = Some tag ->
  recognized tag = false ->
  parse_parts py_int py_float hd parts = inr hd.
Proof.
  intros Htag Hrec. rewrite (parse_parts_tag _ _ _ Htag).
  unfold recognized, Py.str_in in Hrec. simpl in Hrec.
  rewrite !orb_false_iff in Hrec. destruct Hrec as (HH & HL & HR & _).
  now rewrite HH, HL, HR.
Qed.

(** How [parse_line] follows [parse_parts]. *)
Lemma parse_line_parts (hd : house_data) (w : list warning) (n : Z) (line tag : string) :
  tag_of line = Some tag ->
  parse_line py_int py_float (hd, w) (n, line) =
    match parse_parts py_int py_float hd (tokens line) with
    | inr hd' => (hd', w)
    | inl e => (hd, w ++ [(n, e)])
    end.
Proof.
  unfold tag_of, tokens. intros Htag. unfold parse_line.
  destruct (Py.strip line) as [| c s] eqn:Es; [discriminate |].
  cbn [Py.is_empty].
  destruct (Py.split (String c s)) as [| t ts]; [discriminate |].
  reflexivity.
Qed.

(** Peel the tokens that a length bound guarantees. *)
Ltac explode parts Hlen :=
  repeat (destruct parts as [| ? parts]; [simpl in Hlen; lia |]).

Ltac conv_cases :=
  repeat match goal with
    | |- context [py_int ?t] => destruct (py_int t) eqn:?; cbn [Py.bind Py.raise Py.ret]
    | |- context [py_float ?t] => destruct (py_float t) eqn:?; cbn [Py.bind Py.raise Py.ret]
    end.

Lemma bad_numeric_raises (hd : house_data) (parts : list string) (tag : string) :
  nth_error parts 0 = Some tag ->
  recognized tag = true ->
  bad_numeric py_int py_float tag parts ->
  parse_parts py_int py_float hd parts = inl Py.ValueError.
Proof.
  intros Htag Hrec (Hlen & i & Hbad). rewrite (parse_parts_tag _ _ _ Htag).
  clear Htag.
  destruct (recognized_cases _ Hrec) as [-> | [-> | ->]];
    cbv [min_tokens int_offsets float_offsets] in Hlen, Hbad;
    simpl in Hlen, Hbad; pose proof Hlen as Hleb;
    apply Nat.leb_le in Hleb; rewrite Hleb; clear Hleb; cbn [String.eqb Ascii.eqb Bool.eqb];
    explode parts Hlen; clear Hlen;
    unfold header_of_parts, level_of_parts, region_of_parts, float3_at,
      float_at, int_at, part; cbn [nth_error Nat.add Py.bind Py.ret Py.raise];
    unfold field in Hbad; 
    repeat match type of Hbad with
      | _ \/ _ => destruct Hbad as [Hbad | Hbad]
      | _ /\ _ => destruct Hbad as [Hin Hnone]
      end;
    repeat (destruct Hin as [<- | Hin]; [cbn [nth_error] in Hnone |]);
    try contradiction;
    conv_cases; try reflexivity; congruence.
Qed.

Lemma parse_line_short (st : house_data * list warning) (n : Z) (line tag : string) :
  tag_of line = Some tag ->
  recognized tag = true ->
  too_short tag (tokens line) ->
  parse_line py_int py_float st (n, line) = st.
Proof.
  destruct st as [hd w]. intros Htag Hrec Hshort.
  rewrite (parse_line_parts _ _ _ _ _ Htag).
  now rewrite (parse_parts_short _ _ _ Htag Hrec Hshort).
Qed.

Lemma parse_line_bad_numeric (st : house_data * list warning) (n : Z) (line tag : string) :
  tag_of line = Some tag ->
  recognized tag = true ->
  bad_numeric py_int py_float tag (tokens line) ->
  parse_line py_int py_float st (n, line) = (fst st, snd st ++ [(n, Py.ValueError)]).
Proof.
  destruct st as [hd w]. intros Htag Hrec Hbad.
  rewrite (parse_line_parts _ _ _ _ _ Htag).
  now rewrite (bad_numeric_raises _ _ _ Htag Hrec Hbad).
Qed.

Lemma parse_line_other (st : house_data * list warning) (n : Z) (line tag : string) :
  tag_of line = Some tag ->
  recognized tag = false ->
  parse_line py_int py_float st (n, line) = st.
Proof.
  destruct st as [hd w]. intros Htag Hrec.
  rewrite (parse_line_parts _ _ _ _ _ Htag).
  now rewrite (parse_parts_other _ _ _ Htag Hrec).
Qed.

(** The document built by a line does not depend on the warnings or on
    the number of the line. *)
Lemma parse_line_document (hd : house_data) (w w' : list warning) (n n' : Z)
    (line : string) :
  fst (parse_line py_int py_float (hd, w) (n, line)) =
  fst (parse_line py_int py_float (hd, w') (n', line)).
Proof.
  unfold parse_line.
  destruct (Py.is_empty (Py.strip line)); [reflexivity |].
  destruct (length (Py.split (Py.strip line)) =? 0)%nat; [reflexivity |].
  destruct (parse_parts py_int py_float hd (Py.split (Py.strip line))); reflexivity.
Qed.

Lemma parse_lines_document (ls : list string) :
  forall (hd : house_data) (w w' : list warning) (n n' : Z),
    fst (fold_left (parse_line py_int py_float) (Py.enumerate n ls) (hd, w)) =
    fst (fold_left (parse_line py_int py_float) (Py.enumerate n' ls) (hd, w')).
Proof.
  induction ls as [| line ls IH]; intros hd w w' n n'; [reflexivity |].
  cbn [Py.enumerate fold_left].
  pose proof (parse_line_document hd w w' n n' line) as Hd.
  destruct (parse_line py_int py_float (hd, w) (n, line)) as [hd1 w1].
  destruct (parse_line py_int py_float (hd, w') (n', line)) as [hd2 w2].
  simpl in Hd. subst hd2. apply IH.
Qed.

Lemma enumerate_app {A : Type} (xs ys : list A) :
  forall n : Z,
    Py.enumerate n (xs ++ ys) =
    Py.enumerate n xs ++ Py.enumerate (n + Z.of_nat (length xs)) ys.
Proof.
  induction xs as [| x xs IH]; intros n; simpl.
  - now rewrite Z.add_0_r.
  - rewrite IH. do 3 f_equal. lia.
Qed.

(** What a conversion in the body of a record branch gives, in terms of
    the field of the table. *)
Lemma int_at_cases (parts : list string) (i : nat) :
  match int_at py_int parts i with
  | inr z => field py_int parts i = Some z
  | inl _ => field py_int parts i = None
  end.
Proof.
  unfold int_at, field, part.
  destruct (nth_error parts i) as [t |]; cbn [Py.bind Py.ret Py.raise]; [| reflexivity].
  destruct (py_int t); reflexivity.
Qed.

Lemma float_at_cases (parts : list string) (i : nat) :
  match float_at py_float parts i with
  | inr q => field py_float parts i = Some q
  | inl _ => field py_float parts i = None
  end.
Proof.
  unfold float_at, field, part.
  destruct (nth_error parts i) as [t |]; cbn [Py.bind Py.ret Py.raise]; [| reflexivity].
  destruct (py_float t); reflexivity.
Qed.

Lemma float3_at_cases (parts : list string) (i : nat) :
  match float3_at py_float parts i with
  | inr v => field3 py_float parts i = Some v
  | inl _ => field3 py_float parts i = None
  end.
Proof.
  unfold float3_at, field3.
  pose proof (float_at_cases parts i) as Ha.
  destruct (float_at py_float parts i); cbn [Py.bind]; rewrite Ha; [reflexivity |].
  pose proof (float_at_cases parts (i + 1)) as Hb.
  destruct (float_at py_float parts (i + 1)); cbn [Py.bind]; rewrite Hb; [reflexivity |].
  pose proof (float_at_cases parts (i + 2)) as Hc.
  destruct (float_at py_float parts (i + 2)); cbn [Py.bind]; rewrite Hc; reflexivity.
Qed.

Ltac table_field :=
  match goal with
  | |- context [Py.bind (part ?ps ?i) _] =>
      unfold part at 1; destruct (nth_error ps i);
      cbn [Py.bind Py.ret Py.raise]; [| reflexivity]
  | |- context [Py.bind (int_at _ ?ps ?i) _] =>
      let H := fresh "H" in
      pose proof (int_at_cases ps i) as H;
      destruct (int_at py_int ps i); cbn [Py.bind Py.ret Py.raise];
      rewrite H; clear H; [reflexivity |]
  | |- context [Py.bind (float3_at _ ?ps ?i) _] =>
      let H := fresh "H" in
      pose proof (float3_at_cases ps i) as H;
      destruct (float3_at py_float ps i); cbn [Py.bind Py.ret Py.raise];
      rewrite H; clear H; [reflexivity |]
  | |- context [Py.bind (float_at _ ?ps ?i) _] =>
      let H := fresh "H" in
      pose proof (float_at_cases ps i) as H;
      destruct (float_at py_float ps i); cbn [Py.bind Py.ret Py.raise];
      rewrite H; clear H; [reflexivity |]
  end.

(** The body of the [try] block stores the record of the table, and
    raises only where the table gives no record. *)
Lemma parse_parts_table (hd : house_data) (parts : list string) (tag : string) :
  nth_error parts 0 = Some tag ->
  match parse_parts py_int py_float hd parts with
  | inr hd' =>
      hd' = match table_record py_int py_float parts with
            | Some r => store hd r
            | None => hd
            end
  | inl _ => table_record py_int py_float parts = None
  end.
Proof.
  intros Htag. rewrite (parse_parts_tag _ _ _ Htag).
  unfold table_record. rewrite Htag.
  destruct (String.eqb tag "H").
  { destruct (24 <=? length parts)%nat; [| reflexivity].
    unfold header_of_parts. repeat table_field. reflexivity. }
  destruct (String.eqb tag "L").
  { destruct (13 <=? length parts)%nat; [| reflexivity].
    unfold level_of_parts. repeat table_field. reflexivity. }
  destruct (String.eqb tag "R").
  { destruct (16 <=? length parts)%nat; [| reflexivity].
    unfold region_of_parts. repeat table_field. reflexivity. }
  reflexivity.
Qed.

Lemma parse_line_table (st : house_data * list warning) (n : Z) (line : string) :
  fst (parse_line py_int py_float st (n, line)) =
  table_line py_int py_float (fst st) line.
Proof.
  destruct st as [hd w]. unfold table_line, tokens, parse_line. cbn [fst].
  destruct (Py.strip line) as [| c s] eqn:Es; [reflexivity |].
  cbn [Py.is_empty].
  destruct (Py.split (String c s)) as [| tag ts] eqn:Eparts; [reflexivity |].
  cbn [length Nat.eqb]. rewrite <- Eparts.
  pose proof (parse_parts_table hd (Py.split (String c s)) tag) as Htable.
  rewrite Eparts in Htable at 1. specialize (Htable eq_refl).
  destruct (parse_parts py_int py_float hd (Py.split (String c s))) as [e | hd'].
  - cbn [fst]. now rewrite Htable.
  - exact Htable.
Qed.

Lemma parse_lines_table (ls : list string) :
  forall (start : Z) (st : house_data * list warning),
    fst (fold_left (parse_line py_int py_float) (Py.enumerate start ls) st) =
    fold_left (table_line py_int py_float) ls (fst st).
Proof.
  induction ls as [| line ls IH]; intros start st; [reflexivity |].
  cbn [Py.enumerate fold_left]. rewrite IH. now rewrite parse_line_table.
Qed.

Lemma table_record_recognized (parts : list string) (r : record) :
  table_record py_int py_float parts = Some r ->
  exists tag, nth_error parts 0 = Some tag /\ recognized tag = true /\
              (min_tokens tag <= length parts)%nat.
Proof.
  unfold table_record.
  destruct (nth_error parts 0) as [tag |]; [| discriminate].
  intros H. exists tag. split; [reflexivity |].
  destruct (String.eqb tag "H") eqn:EH.
  { apply String.eqb_eq in EH. subst tag.
    destruct (24 <=? length parts)%nat eqn:El; [| discriminate].
    apply Nat.leb_le in El. split; [reflexivity | exact El]. }
  destruct (String.eqb tag "L") eqn:EL.
  { apply String.eqb_eq in EL. subst tag.
    destruct (13 <=? length parts)%nat eqn:El; [| discriminate].
    apply Nat.leb_le in El. split; [reflexivity | exact El]. }
  destruct (String.eqb tag "R") eqn:ER; [| discriminate].
  apply String.eqb_eq in ER. subst tag.
  destruct (16 <=? length parts)%nat eqn:El; [| discriminate].
  apply Nat.leb_le in El. split; [reflexivity | exact El].
Qed.

(** The record branches of [parse_parts], field by field. *)
Lemma parse_parts_header (hd : house_data) (parts : list string)
    (name : string) (num_regions num_levels : Z) (bbox_min bbox_max : vec3) :
  nth_error parts 0 = Some "H" ->
  (24 <= length parts)%nat ->
  nth_error parts 1 = Some name ->
  field py_int parts 10 = Some num_regions ->
  field py_int parts 12 = Some num_levels ->
  field3 py_float parts 18 = Some bbox_min ->
  field3 py_float parts 21 = Some bbox_max ->
  parse_parts py_int py_float hd parts =
    inr (set_header hd (mkHeader name num_regions num_levels bbox_min bbox_max)).
Proof.
  intros Htag Hlen Hname Hnr Hnl Hmn Hmx.
  rewrite (parse_parts_tag _ _ _ Htag). cbn [String.eqb Ascii.eqb Bool.eqb].
  apply Nat.leb_le in Hlen. rewrite Hlen. unfold header_of_parts.
  rewrite (part_nth _ _ _ Hname); cbn [Py.bind].
  rewrite (int_at_field _ _ _ Hnr); cbn [Py.bind].
  rewrite (int_at_field _ _ _ Hnl); cbn [Py.bind].
  rewrite (float3_at_field _ _ _ Hmn); cbn [Py.bind].
  rewrite (float3_at_field _ _ _ Hmx); cbn [Py.bind].
  reflexivity.
Qed.

Lemma parse_parts_level (hd : house_data) (parts : list string)
    (index num_regions : Z) (label : string) (center bbox_min bbox_max : vec3) :
  nth_error parts 0 = Some "L" ->
  (13 <= length parts)%nat ->
  field py_int parts 1 = Some index ->
  field py_int parts 2 = Some num_regions ->
  nth_error parts 3 = Some label ->
  field3 py_float parts 4 = Some center ->
  field3 py_float parts 7 = Some bbox_min ->
  field3 py_float parts 10 = Some bbox_max ->
  parse_parts py_int py_float hd parts =
    inr (append_level hd (mkLevel index num_regions label center bbox_min bbox_max)).
Proof.
  intros Htag Hlen Hidx Hnr Hlabel Hc Hmn Hmx.
  rewrite (parse_parts_tag _ _ _ Htag). cbn [String.eqb Ascii.eqb Bool.eqb].
  apply Nat.leb_le in Hlen. rewrite Hlen. unfold level_of_parts.
  rewrite (int_at_field _ _ _ Hidx); cbn [Py.bind].
  rewrite (int_at_field _ _ _ Hnr); cbn [Py.bind].
  rewrite (part_nth _ _ _ Hlabel); cbn [Py.bind].
  rewrite (float3_at_field _ _ _ Hc); cbn [Py.bind].
  rewrite (float3_at_field _ _ _ Hmn); cbn [Py.bind].
  rewrite (float3_at_field _ _ _ Hmx); cbn [Py.bind].
  reflexivity.
Qed.

Lemma parse_parts_region (hd : house_data) (parts : list string)
    (index level_index : Z) (label : string) (center bbox_min bbox_max : vec3)
    (height : Qc) :
  nth_error parts 0 = Some "R" ->
  (16 <= length parts)%nat ->
  field py_int parts 1 = Some index ->
  field py_int parts 2 = Some level_index ->
  nth_error parts 5 = Some label ->
  field3 py_float parts 6 = Some center ->
  field3 py_float parts 9 = Some bbox_min ->
  field3 py_float parts 12 = Some bbox_max ->
  field py_float parts 15 = Some height ->
  parse_parts py_int py_float hd parts =
    inr (append_region hd
           (mkRegion index level_index label center bbox_min bbox_max height)).
Proof.
  intros Htag Hlen Hidx Hlidx Hlabel Hc Hmn Hmx Hheight.
  rewrite (parse_parts_tag _ _ _ Htag). cbn [String.eqb Ascii.eqb Bool.eqb].
  apply Nat.leb_le in Hlen. rewrite Hlen. unfold region_of_parts.
  rewrite (int_at_field _ _ _ Hidx); cbn [Py.bind].
  rewrite (int_at_field _ _ _ Hlidx); cbn [Py.bind].
  rewrite (part_nth _ _ _ Hlabel); cbn [Py.bind].
  rewrite (float3_at_field _ _ _ Hc); cbn [Py.bind].
  rewrite (float3_at_field _ _ _ Hmn); cbn [Py.bind].
  rewrite (float3_at_field _ _ _ Hmx); cbn [Py.bind].
  rewrite (float_at_field _ _ _ Hheight); cbn [Py.bind].
  reflexivity.
Qed.

(** C7: the parser knows the tags [H], [L] and [R] and asks for at
    least 24, 13 and 16 tokens.  A line with one of these tags, enough
    tokens and fields that convert stores the record whose fields are the
    tokens at the positions of the format table, and prints no warning;
    a line that changes the document has one of the three tags and
    enough tokens; a line with another tag leaves the document and the
    warnings as they are.  The document of a whole text is the document
    of the format table: the records of its lines, in line order. *)
Theorem parser_tags_and_offsets :
  (forall st n line name num_regions num_levels bbox_min bbox_max,
      tag_of line = Some "H" ->
      (24 <= length (tokens line))%nat ->
      nth_error (tokens line) 1 = Some name ->
      field py_int (tokens line) 10 = Some num_regions ->
      field py_int (tokens line) 12 = Some num_levels ->
      field3 py_float (tokens line) 18 = Some bbox_min ->
      field3 py_float (tokens line) 21 = Some bbox_max ->
      parse_line py_int py_float st (n, line) =
        (mkHouse (house_name (fst st))
           (Some (mkHeader name num_regions num_levels bbox_min bbox_max))
           (levels (fst st)) (regions (fst st)),
         snd st)) /\
  (forall st n line index num_regions label center bbox_min bbox_max,
      tag_of line = Some "L" ->
      (13 <= length (tokens line))%nat ->
      field py_int (tokens line) 1 = Some index ->
      field py_int (tokens line) 2 = Some num_regions ->
      nth_error (tokens line) 3 = Some label ->
      field3 py_float (tokens line) 4 = Some center ->
      field3 py_float (tokens line) 7 = Some bbox_min ->
      field3 py_float (tokens line) 10 = Some bbox_max ->
      parse_line py_int py_float st (n, line) =
        (mkHouse (house_name (fst st)) (header (fst st))
           (levels (fst st) ++
            [mkLevel index num_regions label center bbox_min bbox_max])
           (regions (fst st)),
         snd st)) /\
  (forall st n line index level_index label center bbox_min bbox_max height,
      tag_of line = Some "R" ->
      (16 <= length (tokens line))%nat ->
      field py_int (tokens line) 1 = Some index ->
      field py_int (tokens line) 2 = Some level_index ->
      nth_error (tokens line) 5 = Some label ->
      field3 py_float (tokens line) 6 = Some center ->
      field3 py_float (tokens line) 9 = Some bbox_min ->
      field3 py_float (tokens line) 12 = Some bbox_max ->
      field py_float (tokens line) 15 = Some height ->
      parse_line py_int py_float st (n, line) =
        (mkHouse (house_name (fst st)) (header (fst st)) (levels (fst st))
           (regions (fst st) ++
            [mkRegion index level_index label center bbox_min bbox_max height]),
         snd st)) /\
  (forall st n line,
      fst (parse_line py_int py_float st (n, line)) <> fst st ->
      exists tag,
        tag_of line = Some tag /\
        (tag = "H" \/ tag = "L" \/ tag = "R") /\
        (min_tokens tag <= length (tokens line))%nat) /\
  (forall st n line tag,
      tag_of line = Some tag ->
      tag <> "H" -> tag <> "L" -> tag <> "R" ->
      parse_line py_int py_float st (n, line) = st) /\
  (forall path text,
      fst (parse_house_file py_int py_float path text) =
      table_document py_int py_float
        (Py.remove_sub ".house" 0 (Py.basename path)) (Py.readlines text)).
Proof.
  repeat apply conj.
  - intros [hd w] n line name nr nl mn mx Htag Hlen Hname Hnr Hnl Hmn Hmx.
    rewrite (parse_line_parts _ _ _ _ _ Htag).
    now rewrite (parse_parts_header hd _ _ _ _ _ _ Htag Hlen Hname Hnr Hnl Hmn Hmx).
  - intros [hd w] n line idx nr label c mn mx Htag Hlen Hidx Hnr Hlabel Hc Hmn Hmx.
    rewrite (parse_line_parts _ _ _ _ _ Htag).
    now rewrite (parse_parts_level hd _ _ _ _ _ _ _ Htag Hlen Hidx Hnr Hlabel Hc Hmn Hmx).
  - intros [hd w] n line idx lidx label c mn mx height
      Htag Hlen Hidx Hlidx Hlabel Hc Hmn Hmx Hheight.
    rewrite (parse_line_parts _ _ _ _ _ Htag).
    now rewrite (parse_parts_region hd _ _ _ _ _ _ _ _
                   Htag Hlen Hidx Hlidx Hlabel Hc Hmn Hmx Hheight).
  - intros st n line Hchanged. rewrite parse_line_table in Hchanged.
    unfold table_line in Hchanged.
    destruct (table_record py_int py_float (tokens line)) as [r |] eqn:Er;
      [| contradiction].
    destruct (table_record_recognized _ _ Er) as (tag & Htag & Hrec & Hlen).
    exists tag. split; [exact Htag |]. split; [| exact Hlen].
    now apply recognized_cases.
  - intros st n line tag Htag HH HL HR.
    apply (parse_line_other st n line tag Htag).
    unfold recognized, Py.str_in. simpl.
    apply String.eqb_neq in HH, HL, HR. now rewrite HH, HL, HR.
  - intros path text. unfold parse_house_file, table_document.
    now rewrite parse_lines_table.
Qed.

(** C4 (amended): a record line with too few tokens is skipped without
    a warning; a record line with enough tokens and a numeric token that
    does not convert is skipped with one warning.  Neither stores a
    record, and the lines after it are parsed as if it were not there. *)
Theorem malformed_line_skipped :
  (forall st n line tag,
      tag_of line = Some tag -> recognized tag = true ->
      too_short tag (tokens line) ->
      parse_line py_int py_float st (n, line) = st) /\
  (forall st n line tag,
      tag_of line = Some tag -> recognized tag = true ->
      bad_numeric py_int py_float tag (tokens line) ->
      parse_line py_int py_float st (n, line) =
        (fst st, snd st ++ [(n, Py.ValueError)])) /\
  (forall path before after line tag,
      tag_of line = Some tag -> recognized tag = true ->
      too_short tag (tokens line) \/ bad_numeric py_int py_float tag (tokens line) ->
      fst (fold_left (parse_line py_int py_float)
             (Py.enumerate 1 (before ++ line :: after))
             (initial_house_data path, [])) =
      fst (fold_left (parse_line py_int py_float)
             (Py.enumerate 1 (before ++ after))
             (initial_house_data path, []))).
Proof.
  split; [exact parse_line_short |].
  split; [exact parse_line_bad_numeric |].
  intros path before after line tag Htag Hrec Hmal.
  rewrite !enumerate_app, !fold_left_app. cbn [Py.enumerate fold_left].
  destruct (fold_left (parse_line py_int py_float) (Py.enumerate 1 before)
              (initial_house_data path, [])) as [hd w].
  assert (Hline : fst (parse_line py_int py_float (hd, w)
                         (1 + Z.of_nat (length before), line)) = hd).
  { destruct Hmal as [Hshort | Hbad].
    - now rewrite (parse_line_short _ _ _ _ Htag Hrec Hshort).
    - now rewrite (parse_line_bad_numeric _ _ _ _ Htag Hrec Hbad). }
  destruct (parse_line py_int py_float (hd, w) (1 + Z.of_nat (length before), line))
    as [hd1 w1].
  simpl in Hline. subst hd1. apply parse_lines_document.
Qed.

Lemma parse_parts_with_name (name : string) (hd : house_data) (parts : list string) :
  parse_parts py_int py_float (with_name name hd) parts =
  match parse_parts py_int py_float hd parts with
  | inl e => inl e
  | inr hd' => inr (with_name name hd')
  end.
Proof.
  destruct parts as [| tag ts]; [reflexivity |].
  unfold parse_parts.
  repeat match goal with
    | |- context [if ?b then _ else _] => destruct b
    end;
    try reflexivity;
    match goal with
    | |- context [Py.bind ?m _] => destruct m; reflexivity
    end.
Qed.

Lemma parse_line_with_name (name : string) (hd : house_data) (w : list warning)
    (nl : Z * string) :
  parse_line py_int py_float (with_name name hd, w) nl =
  (with_name name (fst (parse_line py_int py_float (hd, w) nl)),
   snd (parse_line py_int py_float (hd, w) nl)).
Proof.
  destruct nl as [n line]. unfold parse_line.
  destruct (Py.is_empty (Py.strip line)); [reflexivity |].
  destruct (length (Py.split (Py.strip line)) =? 0)%nat; [reflexivity |].
  rewrite parse_parts_with_name.
  destruct (parse_parts py_int py_float hd (Py.split (Py.strip line))); reflexivity.
Qed.

Lemma parse_lines_with_name (name : string) (ls : list (Z * string)) :
  forall (hd : house_data) (w : list warning),
    fold_left (parse_line py_int py_float) ls (with_name name hd, w) =
    (with_name name (fst (fold_left (parse_line py_int py_float) ls (hd, w))),
     snd (fold_left (parse_line py_int py_float) ls (hd, w))).
Proof.
  induction ls as [| nl ls IH]; intros hd w; [reflexivity |].
  cbn [fold_left]. rewrite parse_line_with_name.
  destruct (parse_line py_int py_float (hd, w) nl) as [hd1 w1].
  apply IH.
Qed.

(** C10: the parser is a function of the text.  The header, the levels,
    the regions and the warnings it returns are fixed by the text alone;
    the path of the file only gives the document its name, so parsing the
    same file twice gives equal documents. *)
Theorem parse_house_file_deterministic (path1 path2 text : string) :
  let d1 := parse_house_file py_int py_float path1 text in
  let d2 := parse_house_file py_int py_float path2 text in
  header (fst d1) = header (fst d2) /\
  levels (fst d1) = levels (fst d2) /\
  regions (fst d1) = regions (fst d2) /\
  snd d1 = snd d2 /\
  house_name (fst d1) = Py.remove_sub ".house" 0 (Py.basename path1) /\
  (Py.basename path1 = Py.basename path2 -> d1 = d2).
Proof.
  intros d1 d2.
  assert (Hname : forall path,
             parse_house_file py_int py_float path text =
             (with_name (Py.remove_sub ".house" 0 (Py.basename path))
                (fst (parse_house_file py_int py_float path2 text)),
              snd (parse_house_file py_int py_float path2 text))).
  { intros path. unfold parse_house_file.
    rewrite <- parse_lines_with_name. reflexivity. }
  subst d1 d2. rewrite (Hname path1). cbn [fst snd with_name header levels regions house_name].
  repeat split.
  intros Hbase. rewrite Hbase. rewrite <- (Hname path2). reflexivity.
Qed.

End ParserFacts.

Ltac evaluate := first [reflexivity | vm_compute; lia | discriminate].

Lemma parser_tags_and_offsets_witness :
  parse_line decimal_int decimal_float (empty_house, []) (1, line_H) =
    (mkHouse "xyz"
       (Some (mkHeader "xyz" 3 1 (Vec3 (fl (-5)) (fl (-5)) (fl (-1)))
                (Vec3 (fl 5) (fl 5) (fl 3))))
       [] [], []) /\
  parse_line decimal_int decimal_float (empty_house, []) (2, line_L) =
    (mkHouse "xyz" None
       [mkLevel 0 2 "groundfloor" (Vec3 (fl 0) (fl 0) (fl 1))
          (Vec3 (fl (-5)) (fl (-5)) (fl (-1))) (Vec3 (fl 5) (fl 5) (fl 3))]
       [], []) /\
  parse_line decimal_int decimal_float (empty_house, []) (3, line_R) =
    (mkHouse "xyz" None []
       [mkRegion 0 0 "k" (Vec3 (fl 1) (fl 2) (fl 0.5)) (Vec3 (fl 0) (fl 0) (fl 0))
          (Vec3 (fl 2) (fl 4) (fl 3)) (fl 3)], []) /\
  parse_line decimal_int decimal_float (empty_house, []) (4, line_other) =
    (empty_house, []) /\
  fst (parse_house_file decimal_int decimal_float "/scans/xyz/xyz.house" house_text) =
    table_document decimal_int decimal_float "xyz" (Py.readlines house_text).
Proof.
  destruct (parser_tags_and_offsets decimal_int decimal_float)
    as (HH & HL & HR & _ & Hother & Hdoc).
  repeat apply conj.
  - apply (HH (empty_house, []) 1 line_H); evaluate.
  - apply (HL (empty_house, []) 2 line_L); evaluate.
  - apply (HR (empty_house, []) 3 line_R); evaluate.
  - apply (Hother (empty_house, []) 4 line_other "P"); evaluate.
  - apply (Hdoc "/scans/xyz/xyz.house" house_text).
Defined.

Lemma line_R_bad_is_bad_numeric :
  bad_numeric decimal_int decimal_float "R" (tokens line_R_bad).
Proof.
  split; [vm_compute; lia |].
  exists 10%nat. right. split; [simpl; tauto | reflexivity].
Qed.

Lemma malformed_line_skipped_witness :
  parse_line decimal_int decimal_float (empty_house, []) (3, line_R_short) =
    (empty_house, []) /\
  parse_line decimal_int decimal_float (empty_house, []) (3, line_R_bad) =
    (empty_house, [(3, Py.ValueError)]) /\
  fst (fold_left (parse_line decimal_int decimal_float)
         (Py.enumerate 1 ([line_H] ++ line_R_bad :: [line_R]))
         (initial_house_data "xyz.house", [])) =
  fst (fold_left (parse_line decimal_int decimal_float)
         (Py.enumerate 1 ([line_H] ++ [line_R]))
         (initial_house_data "xyz.house", [])).
Proof.
  destruct (malformed_line_skipped decimal_int decimal_float)
    as (Hshort & Hbad & Hgoes_on).
  repeat apply conj.
  - apply (Hshort (empty_house, []) 3 line_R_short "R"); evaluate.
  - apply (Hbad (empty_house, []) 3 line_R_bad "R");
      [reflexivity | reflexivity | exact line_R_bad_is_bad_numeric].
  - apply (Hgoes_on "xyz.house" [line_H] [line_R] line_R_bad "R");
      [reflexivity | reflexivity | right; exact line_R_bad_is_bad_numeric].
Defined.

(** A record line with too few tokens leaves no warning behind. *)
Lemma short_record_line_gives_no_warning :
  tag_of line_R_short = Some "R" /\
  recognized "R" = true /\
  (length (tokens line_R_short) < 16)%nat /\
  snd (parse_house_file decimal_int decimal_float "xyz.house" line_R_short) = [].
Proof. repeat apply conj; evaluate. Qed.

Lemma parse_house_file_deterministic_witness :
  parse_house_file decimal_int decimal_float "/scans/xyz/xyz.house" line_R =
  parse_house_file decimal_int decimal_float "/other/place/xyz.house" line_R.
Proof.
  apply (parse_house_file_deterministic decimal_int decimal_float
           "/scans/xyz/xyz.house" "/other/place/xyz.house" line_R).
  reflexivity.
Defined.

(* ================================================================== *)
(** * Properties of the extraction *)
(* ================================================================== *)

Lemma levels_modify_keys (d : list (Z * level_lights)) (k : Z)
    (f : level_lights -> level_lights) :
  map fst (levels_modify d k f) = map fst d.
Proof.
  unfold levels_modify. rewrite map_map. apply map_ext.
  intros [k' v]. simpl. now destruct (k' =? k)%Z.
Qed.

Lemma levels_mem_In (d : list (Z * level_lights)) (k : Z) :
  levels_mem d k = true <-> In k (map fst d).
Proof.
  unfold levels_mem. rewrite existsb_exists, in_map_iff. split.
  - intros ([k' v] & Hin & Heq). simpl in Heq. apply Z.eqb_eq in Heq. subst.
    now exists (k, v).
  - intros ([k' v] & Heq & Hin). simpl in Heq. subst.
    exists (k, v). split; [assumption | apply Z.eqb_refl].
Qed.

Lemma levels_modify_absent (d : list (Z * level_lights)) (k : Z)
    (f : level_lights -> level_lights) :
  ~ In k (map fst d) -> levels_modify d k f = d.
Proof.
  induction d as [| [k' v] d IH]; simpl; intros Hnot; [reflexivity |].
  destruct (Z.eqb_spec k' k) as [-> | Hne]; [tauto |].
  f_equal. apply IH. tauto.
Qed.

Lemma groups_rename (d : list (Z * level_lights)) (k : Z) (name : string) :
  groups (levels_modify d k (fun ld => mkLevelLights name (lights ld))) = groups d.
Proof.
  unfold groups, levels_modify. rewrite map_map. apply map_ext.
  intros [k' v]. simpl. now destruct (k' =? k)%Z.
Qed.

Lemma groups_append (d : list (Z * level_lights)) (k : Z) (l : loc) :
  NoDup (map fst d) -> In k (map fst d) ->
  Permutation
    (concat (groups (levels_modify d k
                       (fun ld => mkLevelLights (level_name ld) (lights ld ++ [l])))))
    (concat (groups d) ++ [l]).
Proof.
  induction d as [| [k' v] d IH]; simpl; intros Hnd Hin; [contradiction |].
  apply NoDup_cons in Hnd as [Hfresh Hnd].
  rewrite list_elem_of_In in Hfresh.
  destruct (Z.eqb_spec k' k) as [-> | Hne]; simpl.
  - fold (levels_modify d k
            (fun ld => mkLevelLights (level_name ld) (lights ld ++ [l]))).
    rewrite levels_modify_absent by assumption.
    rewrite <- !app_assoc. apply Permutation_app_head.
    apply Permutation_app_comm.
  - destruct Hin as [Heq | Hin]; [congruence |].
    fold (levels_modify d k
            (fun ld => mkLevelLights (level_name ld) (lights ld ++ [l]))).
    rewrite <- app_assoc. apply Permutation_app_head. now apply IH.
Qed.

Lemma rebuild_all_positions_concat (d : list (Z * level_lights)) :
  rebuild_all_positions d = concat (groups d).
Proof.
  unfold rebuild_all_positions.
  assert (H : forall acc, fold_left (fun acc kv => acc ++ lights (snd kv)) d acc =
                          acc ++ concat (groups d)).
  { induction d as [| kv d IH]; intros acc; simpl.
    - now rewrite app_nil_r.
    - rewrite IH. now rewrite <- app_assoc. }
  apply (H []).
Qed.

Lemma placed_cons (region : region_data) (rs : list region_data) :
  placed (region :: rs) =
  if String.eqb (reg_label region) "Z" then placed rs else region :: placed rs.
Proof.
  unfold placed, is_junk. simpl. now destruct (String.eqb (reg_label region) "Z").
Qed.

(** The state after one iteration, for a region that gets a light. *)
Lemma extract_region_placed (house_levels : list level_data) (lp : light_positions)
    (h : heap) (region : region_data) :
  String.eqb (reg_label region) "Z" = false ->
  extract_region house_levels (lp, h) region =
    let idx := reg_level_index region in
    let d1 := if levels_mem (lp_levels lp) idx then lp_levels lp
              else levels_add (lp_levels lp) idx
                     (mkLevelLights ("Level_" ++ Py.str_of_int idx)%string []) in
    let d2 := match find_level_name house_levels idx with
              | Some name =>
                  levels_modify d1 idx (fun ld => mkLevelLights name (lights ld))
              | None => d1
              end in
    (mkPlan (lp_house_name lp) (total_lights lp + 1)
       (levels_modify d2 idx
          (fun ld => mkLevelLights (level_name ld) (lights ld ++ [length h])))
       (all_positions lp ++ [length h]),
     h ++ [light_info_of_region region]).
Proof. intros Hj. unfold extract_region. rewrite Hj. reflexivity. Qed.

Lemma extract_region_junk (house_levels : list level_data)
    (st : light_positions * heap) (region : region_data) :
  String.eqb (reg_label region) "Z" = true ->
  extract_region house_levels st region = st.
Proof. intros Hj. destruct st. unfold extract_region. now rewrite Hj. Qed.

(** What the loop over the regions has done after any number of
    iterations, from any state. *)
Lemma extract_regions_state (house_levels : list level_data) (rs : list region_data) :
  forall (lp : light_positions) (h : heap),
    let r := fold_left (extract_region house_levels) rs (lp, h) in
    snd r = h ++ map light_info_of_region (placed rs) /\
    all_positions (fst r) =
      all_positions lp ++ seq (length h) (length (placed rs)) /\
    total_lights (fst r) = total_lights lp + Z.of_nat (length (placed rs)).
Proof.
  induction rs as [| region rs IH]; intros lp h.
  - simpl. rewrite !app_nil_r, Z.add_0_r. auto.
  - cbn [fold_left]. rewrite placed_cons.
    destruct (String.eqb (reg_label region) "Z") eqn:Ej.
    + rewrite extract_region_junk by assumption. apply IH.
    + rewrite extract_region_placed by assumption. cbv zeta.
      match goal with
      | |- context [fold_left _ rs (?lp1, ?h1)] =>
          destruct (IH lp1 h1) as (Hheap & Hall & Htotal)
      end.
      cbn [all_positions total_lights] in Hall, Htotal.
      split; [| split].
      * etransitivity; [exact Hheap |]. now rewrite <- app_assoc.
      * etransitivity; [exact Hall |].
        rewrite length_app, <- app_assoc. cbn [length map seq app].
        now replace (length h + 1)%nat with (S (length h)) by lia.
      * etransitivity; [exact Htotal |]. cbn [length]. lia.
Qed.

Lemma extract_regions_groups (house_levels : list level_data) (rs : list region_data) :
  forall (lp : light_positions) (h : heap),
    NoDup (map fst (lp_levels lp)) ->
    Permutation (grouped_positions lp) (all_positions lp) ->
    let r := fold_left (extract_region house_levels) rs (lp, h) in
    NoDup (map fst (lp_levels (fst r))) /\
    Permutation (grouped_positions (fst r)) (all_positions (fst r)).
Proof.
  induction rs as [| region rs IH]; intros lp h Hnd Hperm; [now split |].
  cbn [fold_left].
  destruct (String.eqb (reg_label region) "Z") eqn:Ej;
    [rewrite extract_region_junk by assumption; now apply IH |].
  rewrite extract_region_placed by assumption. cbv zeta.
  apply IH; cbn [lp_levels all_positions]; unfold grouped_positions;
    cbn [lp_levels].
  - rewrite levels_modify_keys.
    destruct (find_level_name house_levels (reg_level_index region));
      [rewrite levels_modify_keys |];
      (destruct (levels_mem (lp_levels lp) (reg_level_index region)) eqn:Em;
       [assumption |]);
      unfold levels_add; rewrite map_app; simpl;
      apply NoDup_app; (split; [assumption |]);
      (split; [| apply NoDup_singleton]);
      intros k Hk Hk'; apply list_elem_of_In in Hk, Hk';
      destruct Hk' as [<- | []];
      apply levels_mem_In in Hk; congruence.
  - set (idx := reg_level_index region).
    set (d1 := if levels_mem (lp_levels lp) idx then lp_levels lp
               else levels_add (lp_levels lp) idx
                      (mkLevelLights ("Level_" ++ Py.str_of_int idx)%string [])).
    assert (Hnd1 : NoDup (map fst d1)).
    { subst d1. destruct (levels_mem (lp_levels lp) idx) eqn:Em; [assumption |].
      unfold levels_add. rewrite map_app. simpl.
      apply NoDup_app. split; [assumption |].
      split; [| apply NoDup_singleton].
      intros k Hk Hk'. apply list_elem_of_In in Hk, Hk'.
      destruct Hk' as [<- | []]. apply levels_mem_In in Hk. congruence. }
    assert (Hin1 : In idx (map fst d1)).
    { subst d1. destruct (levels_mem (lp_levels lp) idx) eqn:Em.
      - now apply levels_mem_In.
      - unfold levels_add. rewrite map_app. apply in_or_app. right. now left. }
    assert (Hg1 : concat (groups d1) = concat (groups (lp_levels lp))).
    { subst d1. destruct (levels_mem (lp_levels lp) idx); [reflexivity |].
      unfold levels_add, groups. rewrite map_app, concat_app. simpl.
      now rewrite app_nil_r. }
    set (d2 := match find_level_name house_levels idx with
               | Some name =>
                   levels_modify d1 idx (fun ld => mkLevelLights name (lights ld))
               | None => d1
               end).
    assert (Hk2 : map fst d2 = map fst d1).
    { subst d2. destruct (find_level_name house_levels idx); [| reflexivity].
      apply levels_modify_keys. }
    assert (Hg2 : groups d2 = groups d1).
    { subst d2. destruct (find_level_name house_levels idx); [| reflexivity].
      apply groups_rename. }
    rewrite groups_append by (rewrite Hk2; assumption).
    rewrite Hg2, Hg1. apply Permutation_app_tail. exact Hperm.
Qed.



Lemma placed_snoc (done : list region_data) (region : region_data) :
  placed (done ++ [region]) =
  if String.eqb (reg_label region) "Z" then placed done else placed done ++ [region].
Proof.
  unfold placed, is_junk. rewrite List.filter_app. simpl.
  destruct (String.eqb (reg_label region) "Z"); simpl; [apply app_nil_r | reflexivity].
Qed.


(** The plan of the extraction refers to distinct objects, one for each
    region that is not junk. *)
Lemma extract_distinct_lights (hd : house_data) (h : heap) :
  distinct_lights (fst (extract_light_positions hd h)).
Proof.
  unfold distinct_lights, extract_light_positions.
  destruct (extract_regions_groups (levels hd) (regions hd)
              (mkPlan (house_name hd) 0 [] []) h) as [_ Hperm];
    [apply NoDup_nil_2 | apply Permutation_refl |].
  destruct (extract_regions_state (levels hd) (regions hd)
              (mkPlan (house_name hd) 0 [] []) h) as (_ & Hall & _).
  cbn [all_positions app] in Hall.
  rewrite Hperm, Hall. apply NoDup_seq.
Qed.

(** C6: a junk region gets no light.  The extraction creates one light
    for each region that is not junk and no other, so [total_lights] is
    the number of regions less the number of junk regions, and it is the
    length of the flat list. *)
Theorem extract_total_lights (hd : house_data) (h : heap) :
  let r := extract_light_positions hd h in
  snd r = h ++ map light_info_of_region (placed (regions hd)) /\
  Forall (fun region => reg_label region <> "Z") (placed (regions hd)) /\
  all_positions (fst r) = seq (length h) (length (placed (regions hd))) /\
  total_lights (fst r) =
    Z.of_nat (length (regions hd)) - Z.of_nat (length (List.filter is_junk (regions hd))) /\
  total_lights (fst r) = Z.of_nat (length (all_positions (fst r))).
Proof.
  intros r. subst r. unfold extract_light_positions.
  destruct (extract_regions_state (levels hd) (regions hd)
              (mkPlan (house_name hd) 0 [] []) h) as (Hheap & Hall & Htotal).
  cbn [all_positions total_lights app] in Hall, Htotal.
  split; [exact Hheap |].
  split.
  { apply List.Forall_forall. intros region Hin. unfold placed in Hin.
    apply List.filter_In in Hin as [_ Hj]. unfold is_junk in Hj.
    apply negb_true_iff, String.eqb_neq in Hj. exact Hj. }
  split; [exact Hall |].
  split.
  - rewrite Htotal. simpl.
    assert (Hcount : forall rs : list region_data,
               (length (placed rs) + length (List.filter is_junk rs) = length rs)%nat).
    { induction rs as [| x rs IH]; [reflexivity |].
      unfold placed in *. simpl. destruct (is_junk x); simpl; lia. }
    specialize (Hcount (regions hd)). lia.
  - rewrite Htotal, Hall, length_seq. simpl. reflexivity.
Qed.




(* ================================================================== *)
(** * The heap under the two alignment loops *)
(* ================================================================== *)

Lemma heap_update_same (h : heap) (l : loc) (f : light_info -> light_info) :
  heap_update h l f !! l = f <$> h !! l.
Proof.
  unfold heap_update. destruct (h !! l) as [li |] eqn:E; simpl.
  - apply list_lookup_insert_eq. now apply lookup_lt_Some in E.
  - now rewrite E.
Qed.

Lemma heap_update_other (h : heap) (l l' : loc) (f : light_info -> light_info) :
  l <> l' -> heap_update h l f !! l' = h !! l'.
Proof.
  intros Hne. unfold heap_update. destruct (h !! l); [| reflexivity].
  now apply list_lookup_insert_ne.
Qed.

Lemma update_list_other (f : light_info -> light_info) (ls : list loc) :
  forall (h : heap) (l : loc),
    ~ In l ls ->
    fold_left (fun h l => heap_update h l f) ls h !! l = h !! l.
Proof.
  induction ls as [| l0 ls IH]; intros h l Hnot; [reflexivity |].
  simpl. rewrite IH by (simpl in Hnot; tauto).
  apply heap_update_other. simpl in Hnot. tauto.
Qed.

Lemma update_list_member (f : light_info -> light_info) (ls : list loc) :
  forall (h : heap) (l : loc),
    NoDup ls -> In l ls ->
    fold_left (fun h l => heap_update h l f) ls h !! l = f <$> h !! l.
Proof.
  induction ls as [| l0 ls IH]; intros h l Hnd Hin; [contradiction |].
  apply NoDup_cons in Hnd as [Hfresh Hnd]. rewrite list_elem_of_In in Hfresh.
  simpl. destruct Hin as [-> | Hin].
  - rewrite update_list_other by assumption. apply heap_update_same.
  - rewrite IH by assumption. f_equal. apply heap_update_other.
    intros ->. contradiction.
Qed.

Lemma update_lights_concat (f : light_info -> light_info) (d : list (Z * level_lights)) :
  forall h : heap,
    update_lights f d h =
    fold_left (fun h l => heap_update h l f) (concat (groups d)) h.
Proof.
  unfold update_lights. induction d as [| kv d IH]; intros h; [reflexivity |].
  simpl. rewrite fold_left_app. apply IH.
Qed.

Lemma update_lights_member (f : light_info -> light_info) (lp : light_positions)
    (h : heap) (l : loc) :
  distinct_lights lp -> In l (grouped_positions lp) ->
  update_lights f (lp_levels lp) h !! l = f <$> h !! l.
Proof.
  intros Hnd Hin. rewrite update_lights_concat. now apply update_list_member.
Qed.

Lemma update_lights_other (f : light_info -> light_info) (lp : light_positions)
    (h : heap) (l : loc) :
  ~ In l (grouped_positions lp) ->
  update_lights f (lp_levels lp) h !! l = h !! l.
Proof.
  intros Hnot. rewrite update_lights_concat. now apply update_list_other.
Qed.

(* ================================================================== *)
(** * Properties of the alignment *)
(* ================================================================== *)

Local Open Scope Qc_scope.

Lemma vec3_ext (a b : vec3) :
  v0 a = v0 b -> v1 a = v1 b -> v2 a = v2 b -> a = b.
Proof. destruct a, b. simpl. now intros -> -> ->. Qed.

Ltac qc_eq := apply Qc_is_canon; vm_compute; reflexivity.

Lemma fl_2_nonzero : fl 2 <> 0.
Proof. intros H. apply (f_equal this) in H. vm_compute in H. discriminate. Qed.

Lemma qmin_ordered (a b : Qc) : a <= b -> qmin a b = a.
Proof. intros H. unfold qmin. apply ltb_ge in H. now rewrite H. Qed.

Lemma qmax_ordered (a b : Qc) : a <= b -> qmax a b = b.
Proof.
  intros H. unfold qmax. destruct (Py.ltb a b) eqn:E; [reflexivity |].
  apply ltb_ge in E. now apply Qcle_antisym.
Qed.

Lemma qmin_swapped (a b : Qc) : b <= a -> qmin a b = b.
Proof.
  intros H. unfold qmin. destruct (Py.ltb b a) eqn:E; [reflexivity |].
  apply ltb_ge in E. now apply Qcle_antisym.
Qed.

Lemma qmax_swapped (a b : Qc) : b <= a -> qmax a b = a.
Proof. intros H. unfold qmax. apply ltb_ge in H. now rewrite H. Qed.

Lemma opp_le (a b : Qc) : a <= b -> - b <= - a.
Proof. apply Qcopp_le_compat. Qed.

Lemma truediv_zero (a b : Qc) : b = 0 -> Py.truediv a b = inl Py.ZeroDivisionError.
Proof. intros ->. unfold Py.truediv. now destruct (Qc_eq_dec 0 0). Qed.

Lemma truediv_nonzero (a b : Qc) : b <> 0 -> Py.truediv a b = inr (a / b).
Proof. intros H. unfold Py.truediv. now destruct (Qc_eq_dec b 0). Qed.

Lemma truediv_cases (a b : Qc) :
  Py.truediv a b = inl Py.ZeroDivisionError \/ Py.truediv a b = inr (a / b).
Proof. unfold Py.truediv. destruct (Qc_eq_dec b 0); auto. Qed.

(** For an ordered box, [rotate_bbox] is the smallest box that holds
    the two rotated corners. *)
Lemma rotate_bbox_bounding_box (bmin bmax : vec3) :
  ordered_bbox bmin bmax ->
  rotate_bbox bmin bmax = bounding_box (rotate bmin) (rotate bmax).
Proof.
  intros Hord.
  pose proof (Hord ax0) as H0. pose proof (Hord ax1) as H1.
  pose proof (Hord ax2) as H2. simpl in H0, H1, H2.
  unfold rotate_bbox, bounding_box, rotate. cbn [v0 v1 v2].
  rewrite (qmin_ordered _ _ H0), (qmax_ordered _ _ H0),
    (qmin_ordered _ _ H2), (qmax_ordered _ _ H2),
    (qmin_swapped _ _ (opp_le _ _ H1)), (qmax_swapped _ _ (opp_le _ _ H1)).
  reflexivity.
Qed.

(** The extents of the rotated header box are the differences that the
    code divides by. *)
Lemma rotated_extent (hh : header_data) :
  extent (rotate_bbox (hdr_bbox_min hh) (hdr_bbox_max hh)) =
  Vec3 (v0 (hdr_bbox_max hh) - v0 (hdr_bbox_min hh))
       (v2 (hdr_bbox_max hh) - v2 (hdr_bbox_min hh))
       (v1 (hdr_bbox_max hh) - v1 (hdr_bbox_min hh)).
Proof. unfold extent, rotate_bbox. cbn [fst snd v0 v1 v2]. f_equal. ring. Qed.

Lemma rotated_extent_zero (hh : header_data) (i : axis) :
  getitem3 (extent (rotate_bbox (hdr_bbox_min hh) (hdr_bbox_max hh))) i = 0 ->
  match i with
  | ax0 => v0 (hdr_bbox_max hh) - v0 (hdr_bbox_min hh)
  | ax1 => v2 (hdr_bbox_max hh) - v2 (hdr_bbox_min hh)
  | ax2 => v1 (hdr_bbox_max hh) - v1 (hdr_bbox_min hh)
  end = 0.
Proof. rewrite rotated_extent. now destruct i. Qed.

(** C2 (amended): when the rotated header box has no extent on some
    axis, the scaling returns no plan and has touched no light.  Called
    with a mesh box it raises the built-in [ZeroDivisionError] while it
    computes the scale factors; called with [None] for the mesh box it
    raises [TypeError] before it comes to the division.  The whole
    alignment fails in the same way, after the rotation has run. *)
Theorem degenerate_bounds_raise (lp : light_positions) (mesh : option mesh_transform)
    (hh : header_data) (h : heap) :
  (exists i : axis,
      getitem3 (extent (rotate_bbox (hdr_bbox_min hh) (hdr_bbox_max hh))) i = 0) ->
  let e := match mesh with
           | Some _ => Py.ZeroDivisionError
           | None => Py.TypeError
           end in
  scale_light_positions lp mesh (Some hh) h = (inl e, h) /\
  align_light_positions lp mesh (Some hh) h =
    (inl e, snd (apply_matterport_rotation lp h)).
Proof.
  intros [i Hzero] e. apply rotated_extent_zero in Hzero.
  assert (Hframe : alignment_frame mesh (Some hh) = inl e).
  { subst e. destruct mesh as [mesh |]; [| reflexivity].
    unfold alignment_frame. cbn [subscriptable Py.bind Py.ret v0 v1 v2].
    destruct i.
    - now rewrite (truediv_zero _ _ Hzero).
    - destruct (truediv_cases
                  (v0 (mt_bbox_max mesh) - v0 (mt_bbox_min mesh))
                  (v0 (hdr_bbox_max hh) - v0 (hdr_bbox_min hh))) as [-> | ->];
        [reflexivity |].
      cbn [Py.bind]. now rewrite (truediv_zero _ _ Hzero).
    - destruct (truediv_cases
                  (v0 (mt_bbox_max mesh) - v0 (mt_bbox_min mesh))
                  (v0 (hdr_bbox_max hh) - v0 (hdr_bbox_min hh))) as [-> | ->];
        [reflexivity |].
      cbn [Py.bind].
      destruct (truediv_cases
                  (v1 (mt_bbox_max mesh) - v1 (mt_bbox_min mesh))
                  (v2 (hdr_bbox_max hh) - v2 (hdr_bbox_min hh))) as [-> | ->];
        [reflexivity |].
      cbn [Py.bind]. now rewrite (truediv_zero _ _ Hzero). }
  split.
  - unfold scale_light_positions. now rewrite Hframe.
  - unfold align_light_positions, apply_matterport_rotation, scale_light_positions.
    now rewrite Hframe.
Qed.

Lemma flat_header_has_no_extent :
  getitem3 (extent (rotate_bbox (hdr_bbox_min flat_header) (hdr_bbox_max flat_header)))
    ax2 = 0.
Proof. apply Qc_is_canon. reflexivity. Qed.

Lemma degenerate_bounds_raise_witness :
  scale_light_positions one_light_plan (Some isaac_mesh) (Some flat_header)
    one_light_heap = (inl Py.ZeroDivisionError, one_light_heap) /\
  scale_light_positions one_light_plan None (Some flat_header)
    one_light_heap = (inl Py.TypeError, one_light_heap).
Proof.
  split.
  - apply (degenerate_bounds_raise one_light_plan (Some isaac_mesh) flat_header
             one_light_heap).
    exists ax2. exact flat_header_has_no_extent.
  - apply (degenerate_bounds_raise one_light_plan None flat_header one_light_heap).
    exists ax2. exact flat_header_has_no_extent.
Defined.

(** On a flat header box the alignment fails with [ZeroDivisionError]:
    no failure of the name [DegenerateBounds] is raised. *)
Lemma degenerate_bounds_is_zero_division :
  getitem3 (extent (rotate_bbox (hdr_bbox_min flat_header) (hdr_bbox_max flat_header)))
    ax2 = 0 /\
  exists e : Py.exn,
    fst (align_light_positions one_light_plan (Some isaac_mesh) (Some flat_header)
           one_light_heap) = inl e /\
    Py.exn_name e = "ZeroDivisionError"%string /\
    Py.exn_name e <> "DegenerateBounds"%string.
Proof.
  split; [exact flat_header_has_no_extent |].
  exists Py.ZeroDivisionError. split; [| split; [reflexivity | discriminate]].
  unfold align_light_positions, apply_matterport_rotation, scale_light_positions.
  assert (Hframe : alignment_frame (Some isaac_mesh) (Some flat_header) =
                   inl Py.ZeroDivisionError).
  { unfold alignment_frame. cbn [subscriptable Py.bind Py.ret].
    rewrite truediv_nonzero
      by (intros H; apply (f_equal this) in H; vm_compute in H; discriminate).
    cbn [Py.bind].
    rewrite truediv_nonzero
      by (intros H; apply (f_equal this) in H; vm_compute in H; discriminate).
    cbn [Py.bind].
    rewrite truediv_zero by (apply Qc_is_canon; reflexivity).
    reflexivity. }
  now rewrite Hframe.
Qed.

Local Close Scope Qc_scope.

Local Open Scope Qc_scope.

(** With a header box that has an extent on every axis after the
    rotation, the code finds the frame of the statement: the centre and
    the extent of the rotated box and the centre of the mesh box. *)
Lemma alignment_frame_rotated (mesh : mesh_transform) (hh : header_data) :
  let source := rotate_bbox (hdr_bbox_min hh) (hdr_bbox_max hh) in
  let dest := (mt_bbox_min mesh, mt_bbox_max mesh) in
  (forall i : axis, getitem3 (extent source) i <> 0) ->
  alignment_frame (Some mesh) (Some hh) =
    inr (midpoint source,
         Vec3 (getitem3 (extent dest) ax0 / getitem3 (extent source) ax0)
              (getitem3 (extent dest) ax1 / getitem3 (extent source) ax1)
              (getitem3 (extent dest) ax2 / getitem3 (extent source) ax2),
         midpoint dest).
Proof.
  intros source dest Hnz.
  pose proof (Hnz ax0) as N0. pose proof (Hnz ax1) as N1.
  pose proof (Hnz ax2) as N2.
  subst source dest. rewrite rotated_extent in *.
  unfold rotate_bbox, extent, midpoint.
  cbn [fst snd v0 v1 v2 getitem3] in *.
  unfold alignment_frame, bbox_center.
  cbn [subscriptable Py.bind Py.ret v0 v1 v2].
  rewrite (truediv_nonzero _ _ N0). cbn [Py.bind].
  rewrite (truediv_nonzero _ _ N1). cbn [Py.bind].
  rewrite (truediv_nonzero _ _ N2). cbn [Py.bind].
  pose proof fl_2_nonzero as Htwo.
  do 2 f_equal; [f_equal |]; apply vec3_ext; cbn [v0 v1 v2]; field; assumption.
Qed.

(** C1: for a plan whose lights are distinct objects, a header box
    that has an extent on every axis after the rotation, and any mesh
    box, the alignment succeeds, keeps the level groups, and leaves in
    every light of the plan the position it had before as
    [original_position] and, on every axis, the position
    [(p - rotated source centre) * (mesh extent / rotated source extent)
     + mesh centre], where [p] is the old position rotated once, the
    source centre and extent are those of the rotated header box and the
    mesh centre and extent those of the mesh box as it is. *)
Theorem alignment_formula (lp : light_positions) (mesh : mesh_transform)
    (hh : header_data) (h : heap) :
  distinct_lights lp ->
  let source := rotate_bbox (hdr_bbox_min hh) (hdr_bbox_max hh) in
  let dest := (mt_bbox_min mesh, mt_bbox_max mesh) in
  (forall i : axis, getitem3 (extent source) i <> 0) ->
  exists lp' : light_positions,
    fst (align_light_positions lp (Some mesh) (Some hh) h) = inr lp' /\
    lp_levels lp' = lp_levels lp /\
    forall (l : loc) (li : light_info),
      In l (grouped_positions lp) ->
      h !! l = Some li ->
      exists li' : light_info,
        snd (align_light_positions lp (Some mesh) (Some hh) h) !! l = Some li' /\
        li_original_position li' = Some (li_position li) /\
        forall i : axis,
          getitem3 (li_position li') i =
            (getitem3 (rotate (li_position li)) i - getitem3 (midpoint source) i)
            * (getitem3 (extent dest) i / getitem3 (extent source) i)
            + getitem3 (midpoint dest) i.
Proof.
  intros Hdistinct source dest Hnz.
  pose proof (alignment_frame_rotated mesh hh Hnz) as Hframe.
  fold source dest in Hframe.
  unfold align_light_positions, apply_matterport_rotation, scale_light_positions.
  rewrite Hframe. cbn [fst snd lp_levels].
  eexists. split; [reflexivity |]. split; [reflexivity |].
  intros l li Hin Hl.
  set (rotated := mkPlan (lp_house_name lp) (total_lights lp) (lp_levels lp)
                    (rebuild_all_positions (lp_levels lp))).
  assert (Hd' : distinct_lights rotated) by exact Hdistinct.
  assert (Hin' : In l (grouped_positions rotated)) by exact Hin.
  change (lp_levels lp) with (lp_levels rotated) at 1.
  rewrite (update_lights_member _ rotated _ l Hd' Hin').
  rewrite (update_lights_member _ lp _ l Hdistinct Hin).
  rewrite Hl. simpl. eexists. split; [reflexivity |].
  split; [reflexivity |].
  intros i. destruct i; reflexivity.
Qed.

(** The header box of the example is ordered, so its rotated box is the
    smallest box around its rotated corners. *)
Lemma xyz_header_rotated_box :
  rotate_bbox (hdr_bbox_min xyz_header) (hdr_bbox_max xyz_header) =
  bounding_box (rotate (hdr_bbox_min xyz_header)) (rotate (hdr_bbox_max xyz_header)).
Proof.
  apply rotate_bbox_bounding_box. intros i. destruct i; vm_compute; discriminate.
Qed.

Lemma xyz_header_has_extent (i : axis) :
  getitem3 (extent (rotate_bbox (hdr_bbox_min xyz_header) (hdr_bbox_max xyz_header))) i
  <> 0.
Proof.
  destruct i; intros H; apply (f_equal this) in H; vm_compute in H; discriminate.
Qed.

Lemma one_light_plan_distinct : distinct_lights one_light_plan.
Proof. apply NoDup_singleton. Qed.

Lemma alignment_formula_witness :
  exists li' : light_info,
    snd (align_light_positions one_light_plan (Some isaac_mesh) (Some xyz_header)
           one_light_heap) !! 0%nat = Some li' /\
    li_original_position li' = Some (Vec3 (fl 1) (fl 2) (fl 3)) /\
    getitem3 (li_position li') ax0 = fl 6 /\
    getitem3 (li_position li') ax1 = fl 10 /\
    getitem3 (li_position li') ax2 = fl 1.2.
Proof.
  destruct (alignment_formula one_light_plan isaac_mesh xyz_header one_light_heap
              one_light_plan_distinct xyz_header_has_extent)
    as (lp' & _ & _ & Hlights).
  destruct (Hlights 0%nat one_light (or_introl eq_refl) eq_refl)
    as (li' & Hl & Horig & Hpos).
  exists li'. split; [exact Hl |]. split; [exact Horig |].
  rewrite !Hpos. repeat split; qc_eq.
Defined.

(** The rotation writes into the objects that its argument refers to:
    whatever plan still holds the address of a light sees it rotated. *)
Lemma apply_matterport_rotation_in_place (lp : light_positions) (h : heap)
    (l : loc) (li : light_info) :
  distinct_lights lp ->
  In l (grouped_positions lp) ->
  h !! l = Some li ->
  snd (apply_matterport_rotation lp h) !! l = Some (rotate_light li).
Proof.
  intros Hdistinct Hin Hl. unfold apply_matterport_rotation. cbn [snd].
  rewrite (update_lights_member _ lp _ l Hdistinct Hin), Hl. reflexivity.
Qed.

(** Lights that the plan does not refer to are left alone. *)
Lemma apply_matterport_rotation_frame (lp : light_positions) (h : heap) (l : loc) :
  ~ In l (grouped_positions lp) ->
  snd (apply_matterport_rotation lp h) !! l = h !! l.
Proof.
  intros Hnot. unfold apply_matterport_rotation. cbn [snd].
  now apply update_lights_other.
Qed.

(** C8: the rotation and the scaling change the lights of their input
    plan in place.  With one light at (1, 2, 3), the flat list and the
    level group of the input plan show (1, 3, -2) after the rotation and
    (6, 7.5, 3.2) after the scaling, and no longer (1, 2, 3). *)
Theorem alignment_mutates_input_plan :
  let positions (h : heap) (ls : list loc) := map (option_map li_position) (deref h ls) in
  let h1 := snd (apply_matterport_rotation one_light_plan one_light_heap) in
  let h2 := snd (scale_light_positions one_light_plan (Some isaac_mesh)
                   (Some xyz_header) one_light_heap) in
  positions one_light_heap (all_positions one_light_plan)
    = [Some (Vec3 (fl 1) (fl 2) (fl 3))] /\
  positions one_light_heap (grouped_positions one_light_plan)
    = [Some (Vec3 (fl 1) (fl 2) (fl 3))] /\
  positions h1 (all_positions one_light_plan) = [Some (Vec3 (fl 1) (fl 3) (fl (-2)))] /\
  positions h1 (grouped_positions one_light_plan)
    = [Some (Vec3 (fl 1) (fl 3) (fl (-2)))] /\
  positions h2 (all_positions one_light_plan) = [Some (Vec3 (fl 6) (fl 7.5) (fl 3.2))] /\
  positions h2 (grouped_positions one_light_plan)
    = [Some (Vec3 (fl 6) (fl 7.5) (fl 3.2))] /\
  positions h1 (all_positions one_light_plan)
    <> positions one_light_heap (all_positions one_light_plan).
Proof.
  assert (Hframe : alignment_frame (Some isaac_mesh) (Some xyz_header) =
                   inr (Vec3 (fl 0) (fl 1) (fl 0),
                        Vec3 (fl 1) (fl 2.5) (fl 0.4),
                        Vec3 (fl 5) (fl 5) (fl 2))).
  { rewrite (alignment_frame_rotated isaac_mesh xyz_header xyz_header_has_extent).
    do 2 f_equal; [f_equal |]; apply vec3_ext; qc_eq. }
  cbv zeta. unfold scale_light_positions. rewrite Hframe.
  repeat apply conj; try reflexivity;
    try (cbn; do 2 f_equal; apply vec3_ext; qc_eq).
  intros H.
  apply (f_equal (fun ps => match ps with
                            | [Some p] => this (v1 p)
                            | _ => 0%Q
                            end)) in H.
  vm_compute in H. discriminate.
Qed.

Local Close Scope Qc_scope.

(* ================================================================== *)
(** * More properties of the parser *)
(* ================================================================== *)

Section ParserInvariants.

Variable py_int : string -> option Z.
Variable py_float : string -> option Qc.

Ltac peel parts Hlen :=
  repeat (destruct parts as [| ? parts]; [simpl in Hlen; lia |]).

Ltac convert_all :=
  repeat match goal with
    | |- context [py_int ?t] => destruct (py_int t); cbn [Py.bind Py.raise Py.ret]
    | |- context [py_float ?t] => destruct (py_float t); cbn [Py.bind Py.raise Py.ret]
    end.

(** With the length tests in front of them, the subscripts of a record
    branch are all in range: the body of the [try] block can only fail
    in a conversion. *)
Lemma parse_parts_raises_value_error (hd : house_data) (parts : list string) (e : Py.exn) :
  parts <> [] ->
  parse_parts py_int py_float hd parts = inl e -> e = Py.ValueError.
Proof.
  destruct parts as [| tag ts] eqn:Eparts; [congruence |]. intros _.
  rewrite <- Eparts.
  rewrite (parse_parts_tag py_int py_float hd parts tag) by now rewrite Eparts.
  clear Eparts ts.
  destruct (String.eqb tag "H");
    [| destruct (String.eqb tag "L"); [| destruct (String.eqb tag "R")]];
    try discriminate;
    match goal with
    | |- context [(?n <=? length parts)%nat] =>
        destruct (Nat.leb_spec n (length parts)) as [Hlen | Hlen];
        [| discriminate]
    end;
    peel parts Hlen; clear Hlen;
    unfold header_of_parts, level_of_parts, region_of_parts, float3_at,
      float_at, int_at, part; cbn [nth_error Nat.add Py.bind Py.ret Py.raise];
    convert_all; intros H; try discriminate H; now injection H.
Qed.

(** What one line can do to the state: add one level, add one region,
    add one warning, or add nothing; the name never changes and what is
    there stays in front. *)
Lemma parse_line_grows (st : house_data * list warning) (nl : Z * string) :
  let st' := parse_line py_int py_float st nl in
  house_name (fst st') = house_name (fst st) /\
  exists ls rs ws,
    levels (fst st') = levels (fst st) ++ ls /\
    regions (fst st') = regions (fst st) ++ rs /\
    snd st' = snd st ++ ws /\
    (length ls + length rs + length ws <= 1)%nat /\
    Forall (fun w => w = (fst nl, Py.ValueError)) ws.
Proof.
  destruct st as [hd w], nl as [n line]. cbn [fst snd].
  assert (Hsame : house_name hd = house_name hd /\
                  exists ls rs ws,
                    levels hd = levels hd ++ ls /\ regions hd = regions hd ++ rs /\
                    w = w ++ ws /\ (length ls + length rs + length ws <= 1)%nat /\
                    Forall (fun x => x = (n, Py.ValueError)) ws).
  { split; [reflexivity |]. exists [], [], [].
    rewrite !app_nil_r. repeat split; auto. }
  unfold parse_line.
  destruct (Py.is_empty (Py.strip line)); [exact Hsame |].
  destruct (Py.split (Py.strip line)) as [| tag ts] eqn:Eparts; [exact Hsame |].
  cbn [length Nat.eqb]. rewrite <- Eparts.
  destruct (parse_parts py_int py_float hd (Py.split (Py.strip line)))
    as [e | hd'] eqn:Ebody.
  - apply parse_parts_raises_value_error in Ebody; [| rewrite Eparts; discriminate].
    subst e. cbn [fst snd]. split; [reflexivity |].
    exists [], [], [(n, Py.ValueError)]. rewrite !app_nil_r.
    repeat split; auto.
  - cbn [fst snd].
    rewrite (parse_parts_tag py_int py_float hd _ tag) in Ebody by now rewrite Eparts.
    assert (Hcases : hd' = hd \/ (exists x, hd' = set_header hd x) \/
                     (exists l, hd' = append_level hd l) \/
                     (exists r, hd' = append_region hd r)).
    { repeat match type of Ebody with
        | (if ?b then _ else _) = _ => destruct b
        end;
        try (injection Ebody as <-; now left);
        match type of Ebody with
        | Py.bind ?m _ = _ => destruct m; [discriminate |]
        end;
        injection Ebody as <-; eauto. }
    destruct Hcases as [-> | [[x ->] | [[l ->] | [r ->]]]]; cbn.
    + exact Hsame.
    + exact Hsame.
    + split; [reflexivity |]. exists [l], [], []. rewrite !app_nil_r.
      repeat split; auto.
    + split; [reflexivity |]. exists [], [r], []. rewrite !app_nil_r.
      repeat split; auto.
Qed.

Lemma enumerate_line_numbers {A : Type} (xs : list A) :
  forall (start : Z) (n : Z) (x : A),
    In (n, x) (Py.enumerate start xs) -> start <= n < start + Z.of_nat (length xs).
Proof.
  induction xs as [| y xs IH]; intros start n x Hin; [contradiction |].
  cbn [Py.enumerate length] in *. destruct Hin as [[= <- <-] | Hin].
  - lia.
  - apply IH in Hin. lia.
Qed.

(** The loop over the lines, from any state. *)
Lemma parse_lines_grow (ls : list string) :
  forall (start : Z) (st : house_data * list warning),
    let st' := fold_left (parse_line py_int py_float) (Py.enumerate start ls) st in
    house_name (fst st') = house_name (fst st) /\
    exists lv rs ws,
      levels (fst st') = levels (fst st) ++ lv /\
      regions (fst st') = regions (fst st) ++ rs /\
      snd st' = snd st ++ ws /\
      (length lv + length rs + length ws <= length ls)%nat /\
      Forall (fun w => snd w = Py.ValueError /\
                       start <= fst w < start + Z.of_nat (length ls)) ws /\
      StronglySorted Z.lt (map fst ws).
Proof.
  induction ls as [| line ls IH]; intros start st.
  - cbn. split; [reflexivity |]. exists [], [], []. rewrite !app_nil_r.
    repeat split; auto. constructor.
  - cbn [Py.enumerate fold_left].
    destruct (parse_line_grows st (start, line))
      as (Hname1 & lv1 & rs1 & ws1 & Hlv1 & Hrs1 & Hws1 & Hlen1 & Hall1).
    destruct (IH (start + 1) (parse_line py_int py_float st (start, line)))
      as (Hname2 & lv2 & rs2 & ws2 & Hlv2 & Hrs2 & Hws2 & Hlen2 & Hall2 & Hsorted2).
    cbv zeta. split; [congruence |].
    exists (lv1 ++ lv2), (rs1 ++ rs2), (ws1 ++ ws2).
    rewrite Hlv2, Hlv1, Hrs2, Hrs1, Hws2, Hws1, <- !app_assoc.
    repeat split.
    + rewrite !length_app. cbn [length]. lia.
    + apply Forall_app. split.
      * eapply List.Forall_impl; [| exact Hall1]. cbn. intros w ->. cbn [fst snd length].
        split; [reflexivity | lia].
      * eapply List.Forall_impl; [| exact Hall2]. cbn. intros w [Hv Hr].
        split; [exact Hv |]. cbn [length]. lia.
    + rewrite map_app.
      destruct ws1 as [| w1 ws1]; [exact Hsorted2 |].
      destruct ws1; [| cbn [length] in Hlen1; lia].
      apply Forall_cons in Hall1 as [-> _]. cbn [map app fst].
      constructor; [exact Hsorted2 |].
      apply List.Forall_forall. intros n Hn. apply in_map_iff in Hn as (w & <- & Hw).
      rewrite Forall_forall in Hall2. apply list_elem_of_In in Hw.
      apply Hall2 in Hw. lia.
Qed.

(** X1: a parse warns only about conversions.  Every warning of
    [parse_house_file] carries [ValueError]: the length tests keep every
    subscript in range, so the [IndexError] that the handler also catches
    never occurs. *)
Theorem parse_warnings_are_value_errors (path text : string) :
  Forall (fun w => snd w = Py.ValueError)
    (snd (parse_house_file py_int py_float path text)).
Proof.
  unfold parse_house_file.
  destruct (parse_lines_grow (Py.readlines text) 1 (initial_house_data path, []))
    as (_ & lv & rs & ws & _ & _ & Hws & _ & Hall & _).
  rewrite Hws. cbn [snd app].
  eapply List.Forall_impl; [| exact Hall]. cbn. tauto.
Qed.

(** X2: every line of the file accounts for at most one record or one
    warning: the levels, the regions and the warnings of a parse are
    together no more than the lines of the text. *)
Theorem parse_is_bounded_by_lines (path text : string) :
  let r := parse_house_file py_int py_float path text in
  (length (levels (fst r)) + length (regions (fst r)) + length (snd r)
   <= length (Py.readlines text))%nat.
Proof.
  unfold parse_house_file.
  destruct (parse_lines_grow (Py.readlines text) 1 (initial_house_data path, []))
    as (_ & lv & rs & ws & Hlv & Hrs & Hws & Hlen & _).
  cbv zeta. rewrite Hlv, Hrs, Hws. exact Hlen.
Qed.

(** X3: the warnings come in the order of the lines: their line numbers
    are strictly increasing and lie between 1 and the number of lines. *)
Theorem parse_warnings_in_line_order (path text : string) :
  let ws := snd (parse_house_file py_int py_float path text) in
  StronglySorted Z.lt (map fst ws) /\
  Forall (fun w => 1 <= fst w <= Z.of_nat (length (Py.readlines text))) ws.
Proof.
  unfold parse_house_file.
  destruct (parse_lines_grow (Py.readlines text) 1 (initial_house_data path, []))
    as (_ & lv & rs & ws & _ & _ & Hws & _ & Hall & Hsorted).
  cbv zeta. rewrite Hws. cbn [snd app]. split; [exact Hsorted |].
  eapply List.Forall_impl; [| exact Hall]. cbn. intros w [_ Hr]. lia.
Qed.

(** X4: parsing only appends.  Continuing a parse with more lines keeps
    the levels and regions found so far, in their order, as a prefix of
    the result, and keeps the name of the document. *)
Theorem parse_lines_append_only (ls : list string) (start : Z)
    (st : house_data * list warning) :
  let st' := fold_left (parse_line py_int py_float) (Py.enumerate start ls) st in
  house_name (fst st') = house_name (fst st) /\
  (exists lv, levels (fst st') = levels (fst st) ++ lv) /\
  (exists rs, regions (fst st') = regions (fst st) ++ rs) /\
  (exists ws, snd st' = snd st ++ ws).
Proof.
  destruct (parse_lines_grow ls start st)
    as (Hname & lv & rs & ws & Hlv & Hrs & Hws & _).
  cbv zeta. eauto 10.
Qed.

End ParserInvariants.

(* ================================================================== *)
(** * More properties of the placement rule and the catalogue *)
(* ================================================================== *)

Local Open Scope Qc_scope.









Local Close Scope Qc_scope.

Lemma dict_get_cases {V : Type} (d : list (string * V)) (k : string) (default : V) :
  In (k, Py.dict_get d k default) d \/
  (Py.dict_mem d k = false /\ Py.dict_get d k default = default).
Proof.
  induction d as [| [k' v] d IH]; simpl; [now right |].
  destruct (String.eqb_spec k' k) as [-> | Hne]; simpl.
  - left. now left.
  - destruct IH as [Hin | [Hmem Hget]]; [left; now right | now right].
Qed.

(** X7: which lights get the default intensity.  The light of a region
    has an intensity between 1000 and 15000; it is the default 1000
    exactly for the nine labels whose room type the intensity table
    does not list, and a label that the label table does not know gets
    10000, the intensity of ['other']. *)
Theorem light_intensity_range (region : region_data) :
  let li := light_info_of_region region in
  1000 <= li_intensity li <= 15000 /\
  (li_intensity li = 1000 <->
   Py.str_in (reg_label region) default_intensity_labels = true) /\
  (Py.dict_mem room_type_mapping (reg_label region) = false ->
   li_intensity li = 10000).
Proof.
  cbv zeta. cbn [light_info_of_region li_intensity].
  generalize (reg_label region) as label. intros label.
  destruct (dict_get_cases room_type_mapping label "other") as [Hin | [Hmem Hget]].
  - unfold room_type_of.
    set (room_type := Py.dict_get room_type_mapping label "other") in *.
    clearbody room_type.
    assert (Hmem : Py.dict_mem room_type_mapping label = true).
    { unfold Py.dict_mem. apply existsb_exists. exists (label, room_type).
      split; [exact Hin | apply String.eqb_refl]. }
    rewrite Hmem.
    simpl in Hin.
    repeat (destruct Hin as [Hin | Hin];
            [injection Hin as <- <-; vm_compute;
             repeat split; intros; congruence |]).
    contradiction.
  - unfold room_type_of. rewrite Hget.
    change (intensity_of "other") with 10000%Z.
    split; [lia |]. split; [split; [discriminate |] | intros _; reflexivity].
    unfold Py.str_in. intros Hin.
    apply existsb_exists in Hin as (x & Hx & Heq).
      apply String.eqb_eq in Heq. subst x.
      simpl in Hx.
      repeat (destruct Hx as [Hx | Hx];
              [subst label; vm_compute in Hmem; discriminate |]).
      contradiction.
Qed.

Lemma light_intensity_range_witness :
  li_intensity (light_info_of_region region_porch) = 1000 /\
  li_intensity (light_info_of_region region_q) = 10000.
Proof.
  split.
  - apply (proj1 (proj2 (light_intensity_range region_porch))). reflexivity.
  - apply (proj2 (proj2 (light_intensity_range region_q))). reflexivity.
Defined.

(* ================================================================== *)
(** * More properties of the extraction *)
(* ================================================================== *)

Lemma levels_modify_In (d : list (Z * level_lights)) (k0 : Z)
    (f : level_lights -> level_lights) (k : Z) (g : level_lights) :
  In (k, g) (levels_modify d k0 f) ->
  exists g0, In (k, g0) d /\ g = if Z.eqb k k0 then f g0 else g0.
Proof.
  unfold levels_modify. rewrite in_map_iff. intros ([k' g0] & Heq & Hin).
  cbn [fst snd] in Heq. destruct (Z.eqb k' k0) eqn:E.
  - injection Heq as <- <-. exists g0. now rewrite E.
  - injection Heq as <- <-. exists g0. now rewrite E.
Qed.

(** The entries of the dictionary after one region that gets a light. *)
Lemma extract_region_levels (house_levels : list level_data) (lp : light_positions)
    (h : heap) (region : region_data) (k : Z) (g : level_lights) :
  String.eqb (reg_label region) "Z" = false ->
  In (k, g) (lp_levels (fst (extract_region house_levels (lp, h) region))) ->
  let idx := reg_level_index region in
  if Z.eqb k idx then
    level_name g = level_display_name house_levels idx /\
    ((exists g0, In (k, g0) (lp_levels lp) /\ lights g = lights g0 ++ [length h] /\
                 (find_level_name house_levels idx = None ->
                  level_name g = level_name g0)) \/
     (levels_mem (lp_levels lp) idx = false /\ lights g = [length h]))
    \/ (exists g0, In (k, g0) (lp_levels lp) /\ lights g = lights g0 ++ [length h] /\
                   find_level_name house_levels idx = None /\
                   level_name g = level_name g0)
  else In (k, g) (lp_levels lp).
Proof.
  intros Hj Hin. rewrite extract_region_placed in Hin by assumption.
  cbv zeta in Hin. cbn [fst lp_levels] in Hin. cbv zeta.
  apply levels_modify_In in Hin as (g2 & Hin2 & ->).
  assert (Hd1 : forall g1,
             In (k, g1)
               (if levels_mem (lp_levels lp) (reg_level_index region)
                then lp_levels lp
                else levels_add (lp_levels lp) (reg_level_index region)
                       (mkLevelLights
                          ("Level_" ++ Py.str_of_int (reg_level_index region))%string
                          [])) ->
             In (k, g1) (lp_levels lp) \/
             (levels_mem (lp_levels lp) (reg_level_index region) = false /\
              k = reg_level_index region /\
              g1 = mkLevelLights
                     ("Level_" ++ Py.str_of_int (reg_level_index region))%string [])).
  { intros g1 H1. destruct (levels_mem (lp_levels lp) (reg_level_index region));
      [now left |].
    unfold levels_add in H1. apply in_app_or in H1 as [H1 | [[= <- <-] | []]];
      [now left | right; auto]. }
  unfold level_display_name.
  destruct (find_level_name house_levels (reg_level_index region)) as [name |] eqn:Ef.
  - apply levels_modify_In in Hin2 as (g1 & Hin1 & ->).
    destruct (Z.eqb k (reg_level_index region)) eqn:Ek.
    + left. split; [reflexivity |]. cbn [lights level_name].
      destruct (Hd1 g1 Hin1) as [Hold | (Hmem & _ & ->)].
      * left. exists g1. repeat split; [exact Hold | discriminate].
      * right. split; [exact Hmem | reflexivity].
    + destruct (Hd1 g1 Hin1) as [Hold | (_ & Hk & _)]; [exact Hold |].
      apply Z.eqb_neq in Ek. contradiction.
  - destruct (Z.eqb k (reg_level_index region)) eqn:Ek.
    + cbn [lights level_name].
      destruct (Hd1 g2 Hin2) as [Hold | (Hmem & _ & ->)].
      * right. exists g2. repeat split; assumption.
      * left. split; [reflexivity |]. right. split; [exact Hmem | reflexivity].
    + destruct (Hd1 g2 Hin2) as [Hold | (_ & Hk & _)]; [exact Hold |].
      apply Z.eqb_neq in Ek. contradiction.
Qed.




Lemma level_locs_cons (k : Z) (start : nat) (r : region_data) (rs : list region_data) :
  level_locs k start (r :: rs) =
  (if Z.eqb (reg_level_index r) k then [start] else []) ++ level_locs k (S start) rs.
Proof.
  unfold level_locs. cbn [length seq combine List.filter snd].
  now destruct (Z.eqb (reg_level_index r) k).
Qed.

Lemma level_locs_snoc (k : Z) (rs : list region_data) (r : region_data) :
  forall start : nat,
    level_locs k start (rs ++ [r]) =
    level_locs k start rs ++
    (if Z.eqb (reg_level_index r) k then [(start + length rs)%nat] else []).
Proof.
  induction rs as [| r0 rs IH]; intros start.
  - cbn [app length]. rewrite level_locs_cons, Nat.add_0_r.
    unfold level_locs. cbn. now rewrite app_nil_r.
  - cbn [app length]. rewrite !level_locs_cons, IH, <- app_assoc.
    now replace (S start + length rs)%nat with (start + S (length rs))%nat by lia.
Qed.

Lemma level_locs_none (k : Z) (rs : list region_data) :
  forall start : nat,
    (forall r, In r rs -> reg_level_index r <> k) ->
    level_locs k start rs = [].
Proof.
  induction rs as [| r rs IH]; intros start Hnone; [reflexivity |].
  rewrite level_locs_cons.
  assert (Hr : Z.eqb (reg_level_index r) k = false)
    by (apply Z.eqb_neq, Hnone; now left).
  rewrite Hr. apply (IH (S start)). intros r' Hin. apply Hnone. now right.
Qed.

Lemma extract_region_keys (house_levels : list level_data) (lp : light_positions)
    (h : heap) (region : region_data) (k : Z) :
  String.eqb (reg_label region) "Z" = false ->
  levels_mem (lp_levels (fst (extract_region house_levels (lp, h) region))) k = true <->
  levels_mem (lp_levels lp) k = true \/ k = reg_level_index region.
Proof.
  intros Hj. rewrite extract_region_placed by assumption. cbv zeta.
  cbn [fst lp_levels]. rewrite !levels_mem_In, levels_modify_keys.
  assert (Hk2 : forall d,
             map fst (match find_level_name house_levels (reg_level_index region) with
                      | Some name =>
                          levels_modify d (reg_level_index region)
                            (fun ld => mkLevelLights name (lights ld))
                      | None => d
                      end) = map fst d).
  { intros d. destruct (find_level_name house_levels (reg_level_index region));
      [apply levels_modify_keys | reflexivity]. }
  rewrite Hk2.
  destruct (levels_mem (lp_levels lp) (reg_level_index region)) eqn:Em.
  - apply levels_mem_In in Em. split; [now left |].
    intros [H | ->]; assumption.
  - unfold levels_add. rewrite map_app, in_app_iff. cbn. intuition congruence.
Qed.

Lemma extract_regions_groups_by_level (house_levels : list level_data)
    (rs : list region_data) :
  forall (done : list region_data) (lp : light_positions) (h : heap) (start : nat),
    length h = (start + length (placed done))%nat ->
    (forall r, In r (placed done) ->
               levels_mem (lp_levels lp) (reg_level_index r) = true) ->
    (forall k g, In (k, g) (lp_levels lp) ->
                 lights g = level_locs k start (placed done) /\ lights g <> []) ->
    forall k g,
      In (k, g) (lp_levels (fst (fold_left (extract_region house_levels) rs (lp, h)))) ->
      lights g = level_locs k start (placed (done ++ rs)) /\ lights g <> [].
Proof.
  induction rs as [| region rs IH]; intros done lp h start Hlen Hkeys Hinv k g Hin.
  - rewrite app_nil_r. now apply Hinv.
  - cbn [fold_left] in Hin.
    replace (done ++ region :: rs) with ((done ++ [region]) ++ rs)
      by now rewrite <- app_assoc.
    destruct (String.eqb (reg_label region) "Z") eqn:Ej.
    + rewrite extract_region_junk in Hin by assumption.
      apply (IH (done ++ [region]) lp h start); try assumption;
        rewrite placed_snoc, Ej; assumption.
    + destruct (extract_region house_levels (lp, h) region) as [lp1 h1] eqn:E1.
      apply (IH (done ++ [region]) lp1 h1 start); try assumption;
        rewrite placed_snoc, Ej.
      * rewrite extract_region_placed in E1 by assumption. cbv zeta in E1.
        injection E1 as _ <-. rewrite !length_app. cbn [length]. lia.
      * intros r Hr.
        pose proof (extract_region_keys house_levels lp h region
                      (reg_level_index r) Ej) as Hstep.
        rewrite E1 in Hstep. apply Hstep.
        apply in_app_or in Hr as [Hr | [<- | []]]; [left; now apply Hkeys | now right].
      * intros k1 g1 Hin1.
        pose proof (extract_region_levels house_levels lp h region k1 g1 Ej) as Hstep.
        rewrite E1 in Hstep. specialize (Hstep Hin1). cbv zeta in Hstep.
        rewrite level_locs_snoc.
        destruct (Z.eqb_spec k1 (reg_level_index region)) as [-> | Hne].
        -- rewrite Z.eqb_refl.
           assert (Hl : length h = (start + length (placed done))%nat) by exact Hlen.
           assert (Hcases :
                     (exists g0, In (reg_level_index region, g0) (lp_levels lp) /\
                                 lights g1 = lights g0 ++ [length h]) \/
                     (levels_mem (lp_levels lp) (reg_level_index region) = false /\
                      lights g1 = [length h])).
           { destruct Hstep as [[_ [(g0 & Hin0 & Hl0 & _) | Hnew]]
                               | (g0 & Hin0 & Hl0 & _)]; eauto. }
           destruct Hcases as [(g0 & Hin0 & Hl0) | (Hmem & Hl0)].
           ++ rewrite Hl0, Hl. destruct (Hinv _ _ Hin0) as [-> _].
              split; [reflexivity |]. intros H. now apply app_eq_nil in H as [_ H].
           ++ rewrite Hl0, Hl. rewrite level_locs_none; [split; [reflexivity | discriminate] |].
              intros r Hr Heq. apply Hkeys in Hr. rewrite Heq in Hr. congruence.
        -- apply not_eq_sym, Z.eqb_neq in Hne. rewrite Hne, app_nil_r.
           now apply Hinv.
Qed.

(** X9: the level groups sort the lights by level.  The group of a
    level index holds exactly the lights of the non-junk regions with
    that index, in document order, and no group is empty. *)
Theorem extracted_groups_by_level (hd : house_data) (h : heap) (k : Z)
    (g : level_lights) :
  In (k, g) (lp_levels (fst (extract_light_positions hd h))) ->
  lights g = level_locs k (length h) (placed (regions hd)) /\ lights g <> [].
Proof.
  unfold extract_light_positions.
  apply (extract_regions_groups_by_level (levels hd) (regions hd) []
           (mkPlan (house_name hd) 0 [] []) h (length h)).
  - cbn. lia.
  - intros r [].
  - intros k0 g0 [].
Qed.

Lemma extracted_groups_by_level_witness :
  lights (mkLevelLights "Level_0" [0; 2]%nat) =
  level_locs 0 0 (placed (regions interleaved_house)).
Proof.
  apply (extracted_groups_by_level interleaved_house [] 0
           (mkLevelLights "Level_0" [0; 2]%nat)).
  vm_compute. left. reflexivity.
Defined.

(* ================================================================== *)
(** * More properties of the alignment *)
(* ================================================================== *)

Lemma same_room_refl (li : light_info) : same_room li li.
Proof. repeat split. Qed.

Lemma same_room_trans (a b c : light_info) :
  same_room a b -> same_room b c -> same_room a c.
Proof. unfold same_room. intuition congruence. Qed.

Lemma rotate_light_same_room (li : light_info) : same_room li (rotate_light li).
Proof. repeat split. Qed.

Lemma scale_light_same_room (c s ic : vec3) (li : light_info) :
  same_room li (scale_light c s ic li).
Proof. repeat split. Qed.

Lemma heap_update_length (h : heap) (l : loc) (f : light_info -> light_info) :
  length (heap_update h l f) = length h.
Proof. unfold heap_update. destruct (h !! l); [apply length_insert | reflexivity]. Qed.

(** An in-place update of any lights, distinct or not, keeps the size of
    the heap and the room of every light. *)
Lemma update_list_same_room (f : light_info -> light_info) (ls : list loc) :
  (forall li, same_room li (f li)) ->
  forall h : heap,
    let h' := fold_left (fun h l => heap_update h l f) ls h in
    length h' = length h /\
    forall (l : loc) li, h !! l = Some li ->
                 exists li', h' !! l = Some li' /\ same_room li li'.
Proof.
  intros Hf. induction ls as [| l0 ls IH]; intros h.
  - cbn. split; [reflexivity |]. intros l li Hl. exists li.
    split; [exact Hl | apply same_room_refl].
  - cbn [fold_left]. destruct (IH (heap_update h l0 f)) as [Hlen Hall].
    cbv zeta. split; [now rewrite Hlen, heap_update_length |].
    intros l li Hl.
    destruct (Nat.eq_dec l0 l) as [-> | Hne].
    + destruct (Hall l (f li)) as (li' & Hl' & Hsame).
      { now rewrite heap_update_same, Hl. }
      exists li'. split; [exact Hl' |].
      eapply same_room_trans; [apply Hf | exact Hsame].
    + apply Hall. now rewrite heap_update_other.
Qed.

(** X10: the two alignment stages neither add nor remove a light, nor
    touch anything of a light but its position and its original
    position: the heap keeps its size, every light keeps its region,
    label, room type, intensity and heights, the lights that the plan
    does not refer to are unchanged, and the plan keeps its name, its
    count and its level groups. *)
Theorem alignment_stages_keep_rooms (lp : light_positions) (mesh : option mesh_transform)
    (house_header : option header_data) (h : heap) :
  let stage_keeps (r : light_positions) (h' : heap) :=
    lp_house_name r = lp_house_name lp /\
    total_lights r = total_lights lp /\
    lp_levels r = lp_levels lp /\
    length h' = length h /\
    (forall (l : loc) li, h !! l = Some li ->
                  exists li', h' !! l = Some li' /\ same_room li li') /\
    (forall l : loc, ~ In l (grouped_positions lp) -> h' !! l = h !! l) in
  stage_keeps (fst (apply_matterport_rotation lp h))
              (snd (apply_matterport_rotation lp h)) /\
  (forall scaled,
      fst (scale_light_positions lp mesh house_header h) = inr scaled ->
      stage_keeps scaled (snd (scale_light_positions lp mesh house_header h)) /\
      forall (l : loc) li, h !! l = Some li ->
                   exists li', snd (scale_light_positions lp mesh house_header h) !! l
                               = Some li' /\
                               li_original_position li' = li_original_position li).
Proof.
  cbv zeta. split.
  - unfold apply_matterport_rotation. cbn [fst snd lp_house_name total_lights lp_levels].
    rewrite update_lights_concat.
    destruct (update_list_same_room rotate_light (concat (groups (lp_levels lp)))
                rotate_light_same_room h) as [Hlen Hall].
    repeat split; try assumption.
    intros l Hnot. now apply update_list_other.
  - intros scaled. unfold scale_light_positions.
    destruct (alignment_frame mesh house_header) as [e | [[c s] ic]];
      cbn [fst snd]; [discriminate |].
    intros [= <-]. cbn [lp_house_name total_lights lp_levels].
    rewrite update_lights_concat.
    destruct (update_list_same_room (scale_light c s ic)
                (concat (groups (lp_levels lp))) (scale_light_same_room c s ic) h)
      as [Hlen Hall].
    split.
    + repeat split; try assumption.
      intros l Hnot. now apply update_list_other.
    + clear Hlen Hall. generalize (concat (groups (lp_levels lp))) as ls.
      intros ls. revert h. induction ls as [| l0 ls IH]; intros h l li Hl.
      * exists li. now split.
      * cbn [fold_left]. destruct (Nat.eq_dec l0 l) as [-> | Hne].
        -- destruct (IH (heap_update h l (scale_light c s ic)) l
                       (scale_light c s ic li)) as (li' & Hl' & Ho).
           { now rewrite heap_update_same, Hl. }
           exists li'. now split.
        -- apply IH. now rewrite heap_update_other.
Qed.

Lemma alignment_stages_keep_rooms_witness :
  exists li',
    snd (scale_light_positions one_light_plan (Some isaac_mesh) (Some xyz_header)
           one_light_heap) !! 0%nat = Some li' /\
    li_original_position li' = None.
Proof.
  destruct (alignment_stages_keep_rooms one_light_plan (Some isaac_mesh)
              (Some xyz_header) one_light_heap) as [_ Hscale].
  destruct (fst (scale_light_positions one_light_plan (Some isaac_mesh)
                   (Some xyz_header) one_light_heap)) as [e | scaled] eqn:E.
  - vm_compute in E. discriminate.
  - destruct (Hscale scaled eq_refl) as [_ Horig].
    apply (Horig 0%nat one_light). reflexivity.
Defined.

Lemma grouped_positions_levels (a b : light_positions) :
  lp_levels a = lp_levels b -> grouped_positions a = grouped_positions b.
Proof. unfold grouped_positions. now intros ->. Qed.

Lemma rotate_times_lookup (n : nat) (lp : light_positions) (h : heap)
    (l : loc) (li : light_info) :
  distinct_lights lp ->
  In l (grouped_positions lp) ->
  h !! l = Some li ->
  lp_levels (fst (rotate_times n lp h)) = lp_levels lp /\
  snd (rotate_times n lp h) !! l = Some (Nat.iter n rotate_light li).
Proof.
  intros Hdistinct Hin Hl. induction n as [| n [IHlevels IHl]]; [now split |].
  unfold rotate_times in *. cbn [Nat.iter].
  set (st := Nat.iter n (fun st => apply_matterport_rotation (fst st) (snd st)) (lp, h))
    in *.
  split; [exact IHlevels |].
  pose proof (grouped_positions_levels _ _ IHlevels) as Hgroups.
  apply apply_matterport_rotation_in_place.
  - exact (eq_ind_r (fun ls => NoDup ls) Hdistinct Hgroups).
  - exact (eq_ind_r (fun ls => In l ls) Hin Hgroups).
  - exact IHl.
Qed.

Local Open Scope Qc_scope.

(** X11: rotating a plan twice does not undo the rotation.  After a
    second [apply_matterport_rotation] a light that was at (x, y, z) is
    at (x, -y, -z), and its [original_position] is the position after the
    first rotation: the position before the alignment is lost. *)
Theorem rotation_twice (lp : light_positions) (h : heap) (l : loc) (li : light_info) :
  distinct_lights lp ->
  In l (grouped_positions lp) ->
  h !! l = Some li ->
  exists li2 : light_info,
    snd (rotate_times 2 lp h) !! l = Some li2 /\
    li_position li2 =
      Vec3 (v0 (li_position li)) (- v1 (li_position li)) (- v2 (li_position li)) /\
    li_original_position li2 = Some (rotate (li_position li)).
Proof.
  intros Hdistinct Hin Hl.
  destruct (rotate_times_lookup 2 lp h l li Hdistinct Hin Hl) as [_ Hl2].
  eexists. split; [exact Hl2 |]. split; reflexivity.
Qed.

Lemma rotation_twice_witness :
  exists li2 : light_info,
    snd (rotate_times 2 one_light_plan one_light_heap) !! 0%nat = Some li2 /\
    li_position li2 = Vec3 (fl 1) (- fl 2) (- fl 3) /\
    li_original_position li2 = Some (Vec3 (fl 1) (fl 3) (- fl 2)).
Proof.
  apply (rotation_twice one_light_plan one_light_heap 0%nat one_light).
  - exact one_light_plan_distinct.
  - left. reflexivity.
  - reflexivity.
Defined.

(** X12: four rotations bring every light of the plan back to where it
    was. *)
Theorem rotation_four_times (lp : light_positions) (h : heap) (l : loc)
    (li : light_info) :
  distinct_lights lp ->
  In l (grouped_positions lp) ->
  h !! l = Some li ->
  exists li4 : light_info,
    snd (rotate_times 4 lp h) !! l = Some li4 /\
    li_position li4 = li_position li.
Proof.
  intros Hdistinct Hin Hl.
  destruct (rotate_times_lookup 4 lp h l li Hdistinct Hin Hl) as [_ Hl4].
  eexists. split; [exact Hl4 |].
  cbn. apply vec3_ext; cbn [v0 v1 v2]; try reflexivity; apply Qcopp_involutive.
Qed.

Lemma rotation_four_times_witness :
  exists li4 : light_info,
    snd (rotate_times 4 one_light_plan one_light_heap) !! 0%nat = Some li4 /\
    li_position li4 = Vec3 (fl 1) (fl 2) (fl 3).
Proof.
  apply (rotation_four_times one_light_plan one_light_heap 0%nat one_light).
  - exact one_light_plan_distinct.
  - left. reflexivity.
  - reflexivity.
Defined.

(** The light that the alignment leaves at an address of the plan. *)
Lemma align_light_lookup (lp : light_positions) (mesh : mesh_transform)
    (hh : header_data) (h : heap) (l : loc) (li : light_info) :
  distinct_lights lp ->
  let source := rotate_bbox (hdr_bbox_min hh) (hdr_bbox_max hh) in
  let dest := (mt_bbox_min mesh, mt_bbox_max mesh) in
  (forall i : axis, getitem3 (extent source) i <> 0) ->
  In l (grouped_positions lp) ->
  h !! l = Some li ->
  snd (align_light_positions lp (Some mesh) (Some hh) h) !! l =
    Some (scale_light (midpoint source)
            (Vec3 (getitem3 (extent dest) ax0 / getitem3 (extent source) ax0)
                  (getitem3 (extent dest) ax1 / getitem3 (extent source) ax1)
                  (getitem3 (extent dest) ax2 / getitem3 (extent source) ax2))
            (midpoint dest) (rotate_light li)).
Proof.
  intros Hdistinct source dest Hnz Hin Hl.
  pose proof (alignment_frame_rotated mesh hh Hnz) as Hframe.
  fold source dest in Hframe.
  unfold align_light_positions, apply_matterport_rotation, scale_light_positions.
  rewrite Hframe. cbn [fst snd lp_levels].
  set (rotated := mkPlan (lp_house_name lp) (total_lights lp) (lp_levels lp)
                    (rebuild_all_positions (lp_levels lp))).
  assert (Hd' : distinct_lights rotated) by exact Hdistinct.
  assert (Hin' : In l (grouped_positions rotated)) by exact Hin.
  change (lp_levels lp) with (lp_levels rotated) at 1.
  rewrite (update_lights_member _ rotated _ l Hd' Hin').
  rewrite (update_lights_member _ lp _ l Hdistinct Hin).
  now rewrite Hl.
Qed.

Local Close Scope Qc_scope.

(* ================================================================== *)
(** * Properties of the mesh lookup and of the file lookup *)
(* ================================================================== *)

Lemma prefix_app (a b s : string) :
  String.prefix (a ++ b) s = true -> String.prefix a s = true.
Proof.
  revert s. induction a as [| c a IH]; intros s; [now destruct s |].
  destruct s as [| c' s]; cbn; [discriminate |].
  destruct (Ascii.ascii_dec c c'); [apply IH | discriminate].
Qed.

Lemma contains_app (a b s : string) :
  Os.contains (a ++ b) s = true -> Os.contains a s = true.
Proof.
  induction s as [| c s IH]; cbn [Os.contains]; rewrite !orb_true_iff.
  - intros [H | H]; [left; now apply (prefix_app a b) | discriminate].
  - intros [H | H]; [left; now apply (prefix_app a b) | right; now apply IH].
Qed.

Lemma is_mesh_candidate_light (p : prim) : is_mesh_candidate p = no_light_in_path p.
Proof.
  unfold is_mesh_candidate, no_light_in_path.
  destruct (Os.contains "light" (Os.lower (prim_path p))) eqn:El;
    [now rewrite andb_false_r |].
  destruct (Os.contains "lighting" (Os.lower (prim_path p))) eqn:Eg; [| reflexivity].
  apply (contains_app "light" "ing") in Eg. congruence.
Qed.

(** The lookup in terms of the candidates without the word light. *)
Lemma get_house_mesh_transform_candidates (stage : list prim) :
  get_house_mesh_transform stage =
    match List.filter no_light_in_path stage with
    | [] => inr None
    | [_] => inl Py.IndexError
    | _ :: house_prim :: _ => inr (Some (mesh_of_prim house_prim))
    end.
Proof.
  unfold get_house_mesh_transform.
  rewrite (List.filter_ext _ _ is_mesh_candidate_light).
  destruct (List.filter no_light_in_path stage) as [| p0 [| p1 ps]]; try reflexivity.
  cbn [nth_error]. unfold mesh_of_prim.
  destruct (world_bound p1) as [[bmin bmax] |]; reflexivity.
Qed.

(** X15: which prim gives the mesh box.  The candidates are the meshes
    and transforms without ["light"] in their lower-cased path (the test
    for ["lighting"] adds nothing).  Without a candidate the result is
    [None]; with exactly one the subscript [1] raises [IndexError]; with
    more the box is that of the second candidate, or the fallback box
    when the stage cannot compute it, and the first candidate is never
    looked at. *)
Theorem mesh_candidate_selection (stage : list prim) :
  (List.filter no_light_in_path stage = [] ->
   get_house_mesh_transform stage = inr None) /\
  (forall p, List.filter no_light_in_path stage = [p] ->
             get_house_mesh_transform stage = inl Py.IndexError) /\
  (forall first house_prim others,
      List.filter no_light_in_path stage = first :: house_prim :: others ->
      get_house_mesh_transform stage = inr (Some (mesh_of_prim house_prim))).
Proof.
  rewrite get_house_mesh_transform_candidates.
  repeat apply conj.
  - now intros ->.
  - now intros p ->.
  - now intros p0 p1 ps ->.
Qed.

Lemma mesh_candidate_selection_witness :
  get_house_mesh_transform stage_house = inr (Some isaac_mesh) /\
  get_house_mesh_transform stage_wrapper_only = inl Py.IndexError.
Proof.
  split.
  - apply (proj2 (proj2 (mesh_candidate_selection stage_house))
             prim_wrapper prim_house []).
    reflexivity.
  - apply (proj1 (proj2 (mesh_candidate_selection stage_wrapper_only)) prim_wrapper).
    reflexivity.
Defined.

(** The element that [find] returns is the first that passes the test. *)
Lemma find_first {A : Type} (f : A -> bool) (l : list A) (x : A) :
  find f l = Some x ->
  exists before after, l = before ++ x :: after /\ forall y, In y before -> f y = false.
Proof.
  induction l as [| a l IH]; [discriminate |]. cbn [find].
  destruct (f a) eqn:Ea.
  - intros [= ->]. exists [], l. split; [reflexivity | intros y []].
  - intros H. destruct (IH H) as (before & after & -> & Hb).
    exists (a :: before), after. split; [reflexivity |].
    intros y [<- | Hy]; [exact Ea | now apply Hb].
Qed.

(** X16: the file that [find_house_files] reports is a file that
    exists.  The USD file is the first candidate that exists, so the
    corrected file wins when it is there, and no USD file is reported
    only when no candidate exists; the house file is reported exactly
    when the segmentation file of the house exists. *)
Theorem find_house_files_exist (fs : Os.filesystem) (house_name : string)
    (files : house_files) :
  find_house_files fs house_name = Some files ->
  (forall p, usd_file files = Some p -> Os.fs_exists fs p = true) /\
  (Os.fs_exists fs (corrected_usd_path house_name) = true ->
   usd_file files = Some (corrected_usd_path house_name)) /\
  (usd_file files = None ->
   forall cs p, usd_candidates fs house_name = Some cs -> In p cs ->
                Os.fs_exists fs p = false) /\
  (forall q, house_file files = Some q <->
             q = house_file_path house_name /\ Os.fs_exists fs q = true) /\
  (forall p cs, usd_file files = Some p -> usd_candidates fs house_name = Some cs ->
     exists before after,
       cs = before ++ p :: after /\
       forall q, In q before -> Os.fs_exists fs q = false).
Proof.
  unfold find_house_files.
  destruct (usd_candidates fs house_name) as [cs |] eqn:Ecs; [| discriminate].
  intros [= <-]. cbn [usd_file house_file].
  repeat apply conj.
  - intros p Hp. now apply find_some in Hp.
  - intros Hexists.
    assert (Hhead : exists rest, cs = corrected_usd_path house_name :: rest).
    { unfold usd_candidates in Ecs. cbv zeta in Ecs.
      repeat match type of Ecs with
        | (if ?b then _ else _) = _ => destruct b
        | match ?m with Some _ => _ | None => _ end = _ => destruct m
        end;
        try discriminate; injection Ecs as <-; eexists; reflexivity. }
    destruct Hhead as [rest ->]. cbn [find]. now rewrite Hexists.
  - intros Hnone cs' p [= <-] Hin.
    exact (find_none _ _ Hnone p Hin).
  - intros q. destruct (Os.fs_exists fs (house_file_path house_name)) eqn:Eh.
    + split; [intros [= <-]; now split | intros [-> _]; reflexivity].
    + split; [discriminate | intros [-> H]; congruence].
  - intros p cs' Hp [= <-]. exact (find_first _ _ _ Hp).
Qed.

Lemma find_house_files_exist_witness :
  exists files,
    find_house_files fs_corrected_only "xyz" = Some files /\
    usd_file files = Some "/home/aaron/matterport3d/v1/scans/xyz/xyz_corrected.usd" /\
    house_file files = None.
Proof.
  destruct (find_house_files fs_corrected_only "xyz") as [files |] eqn:E;
    [| vm_compute in E; discriminate].
  exists files. split; [reflexivity |].
  destruct (find_house_files_exist fs_corrected_only "xyz" files E)
    as (_ & Hcorrected & _ & Hhouse & _).
  split.
  - apply Hcorrected. reflexivity.
  - destruct (house_file files) as [q |] eqn:Eq; [| reflexivity].
    destruct (proj1 (Hhouse q) eq_refl) as [-> Hq]. vm_compute in Hq. discriminate.
Defined.

(* ================================================================== *)
(** * Properties of the lighting steps of process_house *)
(* ================================================================== *)

Section PipelineFacts.

Variable py_int : string -> option Z.
Variable py_float : string -> option Qc.

Lemma parse_line_header (st : house_data * list warning) (n : Z) (line : string) :
  tag_of line <> Some "H" ->
  header (fst (parse_line py_int py_float st (n, line))) = header (fst st).
Proof.
  destruct st as [hd w]. unfold tag_of, tokens. intros Htag. unfold parse_line.
  destruct (Py.is_empty (Py.strip line)); [reflexivity |].
  destruct (Py.split (Py.strip line)) as [| tag ts] eqn:Eparts; [reflexivity |].
  cbn [length Nat.eqb]. rewrite <- Eparts.
  rewrite (parse_parts_tag py_int py_float hd _ tag) by now rewrite Eparts.
  assert (Hne : String.eqb tag "H" = false).
  { apply String.eqb_neq. intros ->. apply Htag. reflexivity. }
  rewrite Hne.
  repeat match goal with
    | |- context [if ?b then _ else _] => destruct b
    end;
    try reflexivity;
    match goal with
    | |- context [Py.bind ?m _] => destruct m; reflexivity
    end.
Qed.

Lemma parse_lines_header (ls : list string) :
  forall (start : Z) (st : house_data * list warning),
    (forall line, In line ls -> tag_of line <> Some "H") ->
    header (fst (fold_left (parse_line py_int py_float) (Py.enumerate start ls) st)) =
    header (fst st).
Proof.
  induction ls as [| line ls IH]; intros start st Hno; [reflexivity |].
  cbn [Py.enumerate fold_left]. rewrite IH by (intros l Hl; apply Hno; now right).
  apply parse_line_header. apply Hno. now left.
Qed.

(** X17: a house file without a header line stops the lighting.  When
    no line of the file has the tag [H], the lighting steps return no
    plan.  With exactly one mesh candidate on the stage the mesh lookup
    raises [IndexError] and the new lights stay as the extraction made
    them; with any other number the scaling subscripts a header that is
    [None] and the steps end in [TypeError], after the lights have been
    created and rotated. *)
Theorem lighting_without_header (path text : string) (stage : list prim) (h : heap) :
  (forall line, In line (Py.readlines text) -> tag_of line <> Some "H") ->
  let house := fst (parse_house_file py_int py_float path text) in
  let extracted := extract_light_positions house h in
  let candidates := List.filter no_light_in_path stage in
  (length candidates = 1%nat ->
   process_house_lighting py_int py_float path text stage h =
     (inl Py.IndexError, snd extracted)) /\
  (length candidates <> 1%nat ->
   process_house_lighting py_int py_float path text stage h =
     (inl Py.TypeError,
      snd (apply_matterport_rotation (fst extracted) (snd extracted)))).
Proof.
  intros Hno house extracted candidates.
  assert (Hheader : header house = None).
  { subst house. unfold parse_house_file. now rewrite parse_lines_header. }
  unfold process_house_lighting. subst extracted. fold house.
  destruct (parse_house_file py_int py_float path text) as [house' w] eqn:Ep.
  cbn [fst] in house. subst house.
  destruct (extract_light_positions house' h) as [lp h1].
  rewrite get_house_mesh_transform_candidates. fold candidates. cbn [fst snd].
  split.
  - intros Hone. destruct candidates as [| p [| q rest]]; try discriminate.
    reflexivity.
  - intros Hother.
    assert (Hscale : forall mesh : option mesh_transform,
               scale_light_positions
                 (fst (apply_matterport_rotation lp h1)) mesh (header house')
                 (snd (apply_matterport_rotation lp h1)) =
               (inl Py.TypeError, snd (apply_matterport_rotation lp h1))).
    { intros mesh. unfold scale_light_positions, alignment_frame.
      now rewrite Hheader. }
    destruct candidates as [| p [| q rest]].
    + destruct (apply_matterport_rotation lp h1) as [rotated h2] eqn:Er.
      exact (Hscale None).
    + contradiction Hother. reflexivity.
    + destruct (apply_matterport_rotation lp h1) as [rotated h2] eqn:Er.
      apply Hscale.
Qed.

(** X18: a stage without a second mesh candidate stops the lighting
    before any light is rotated.  With one candidate the lookup raises
    [IndexError]; with none it returns [None] and the scaling raises
    [TypeError] when the file has a header.  In the first case the heap
    holds the new lights as the extraction made them. *)
Theorem lighting_without_mesh (path text : string) (stage : list prim) (h : heap) :
  let house := fst (parse_house_file py_int py_float path text) in
  (forall p, List.filter no_light_in_path stage = [p] ->
             process_house_lighting py_int py_float path text stage h =
               (inl Py.IndexError,
                h ++ map light_info_of_region (placed (regions house)))) /\
  (List.filter no_light_in_path stage = [] ->
   header house <> None ->
   fst (process_house_lighting py_int py_float path text stage h) = inl Py.TypeError).
Proof.
  intros house. split.
  - intros p Hone. unfold process_house_lighting. subst house.
    destruct (parse_house_file py_int py_float path text) as [house w].
    cbn [fst].
    pose proof (extract_regions_state (levels house) (regions house)
                  (mkPlan (house_name house) 0 [] []) h) as (Hheap & _).
    fold (extract_light_positions house h) in Hheap.
    destruct (extract_light_positions house h) as [lp h1].
    rewrite get_house_mesh_transform_candidates, Hone. cbn [snd] in Hheap. now rewrite Hheap.
  - intros Hnone Hheader. unfold process_house_lighting. subst house.
    destruct (parse_house_file py_int py_float path text) as [house w].
    cbn [fst] in Hheader.
    destruct (extract_light_positions house h) as [lp h1].
    rewrite get_house_mesh_transform_candidates, Hnone.
    unfold apply_matterport_rotation, scale_light_positions, alignment_frame.
    destruct (header house); [reflexivity | contradiction].
Qed.

Local Open Scope Qc_scope.

(** X19: what the lighting steps give when they succeed.  With a header
    whose rotated box has an extent on every axis and a stage that gives
    a mesh box, the steps return a plan with one light for each region
    that is not junk; the light of the [i]-th such region is the new
    object number [i], it is the light of the extraction rotated once and
    then scaled with the frame of the two boxes, and the objects that
    were on the heap before are as they were. *)
Theorem lighting_result (path text : string) (stage : list prim) (h : heap)
    (mesh : mesh_transform) (hh : header_data) :
  let house := fst (parse_house_file py_int py_float path text) in
  header house = Some hh ->
  get_house_mesh_transform stage = inr (Some mesh) ->
  let source := rotate_bbox (hdr_bbox_min hh) (hdr_bbox_max hh) in
  let dest := (mt_bbox_min mesh, mt_bbox_max mesh) in
  (forall i : axis, getitem3 (extent source) i <> 0) ->
  let r := process_house_lighting py_int py_float path text stage h in
  exists lp' : light_positions,
    fst r = inr lp' /\
    total_lights lp' = Z.of_nat (length (placed (regions house))) /\
    all_positions lp' = grouped_positions lp' /\
    length (snd r) = (length h + length (placed (regions house)))%nat /\
    (forall l : loc, (l < length h)%nat -> snd r !! l = h !! l) /\
    (forall (i : nat) (region : region_data),
        placed (regions house) !! i = Some region ->
        snd r !! (length h + i)%nat =
          Some (scale_light (midpoint source)
                  (Vec3 (getitem3 (extent dest) ax0 / getitem3 (extent source) ax0)
                        (getitem3 (extent dest) ax1 / getitem3 (extent source) ax1)
                        (getitem3 (extent dest) ax2 / getitem3 (extent source) ax2))
                  (midpoint dest)
                  (rotate_light (light_info_of_region region)))).
Proof.
  intros house Hheader Hmesh source dest Hnz r. subst r.
  unfold process_house_lighting. subst house.
  destruct (parse_house_file py_int py_float path text) as [house w].
  cbn [fst] in *.
  pose proof (extract_distinct_lights house h) as Hdistinct.
  pose proof (extract_regions_state (levels house) (regions house)
                (mkPlan (house_name house) 0 [] []) h) as (Hheap & Hall & Htotal).
  pose proof (extract_regions_groups (levels house) (regions house)
                (mkPlan (house_name house) 0 [] []) h
                (NoDup_nil_2 : NoDup (map fst (lp_levels (mkPlan (house_name house) 0 [] []))))
                (Permutation_refl _)) as [_ Hperm].
  fold (extract_light_positions house h) in Hdistinct, Hheap, Hall, Htotal, Hperm.
  destruct (extract_light_positions house h) as [lp h1].
  cbn [fst snd all_positions total_lights app] in *.
  rewrite Hmesh, Hheader.
  change (let '(rotated, h2) := apply_matterport_rotation lp h1 in
          scale_light_positions rotated (Some mesh) (Some hh) h2)
    with (align_light_positions lp (Some mesh) (Some hh) h1).
  pose proof (alignment_frame_rotated mesh hh Hnz) as Hframe.
  fold source dest in Hframe.
  assert (Hgrouped : forall l : loc,
             In l (grouped_positions lp) <->
             (length h <= l < length h + length (placed (regions house)))%nat).
  { intros l. rewrite <- in_seq, <- Hall. split; intros Hl.
    - eapply Permutation_in; [exact Hperm | exact Hl].
    - eapply Permutation_in; [symmetry; exact Hperm | exact Hl]. }
  assert (Hresult : align_light_positions lp (Some mesh) (Some hh) h1 =
                    (inr (mkPlan (lp_house_name lp) (total_lights lp) (lp_levels lp)
                            (rebuild_all_positions (lp_levels lp))),
                     snd (align_light_positions lp (Some mesh) (Some hh) h1))).
  { unfold align_light_positions, apply_matterport_rotation, scale_light_positions.
    rewrite Hframe. reflexivity. }
  eexists. split; [rewrite Hresult; reflexivity |].
  cbn [total_lights all_positions].
  split; [rewrite Htotal; lia |].
  split; [apply rebuild_all_positions_concat |].
  split; [| split].
  - unfold align_light_positions, apply_matterport_rotation, scale_light_positions.
    rewrite Hframe. cbn [snd lp_levels]. rewrite !update_lights_concat.
    match goal with
    | |- length (fold_left _ ?ls (fold_left _ ?ls ?h0)) = _ =>
        destruct (update_list_same_room rotate_light ls rotate_light_same_room h0)
          as [Hl1 _];
        transitivity (length (fold_left (fun h l => heap_update h l rotate_light) ls h0));
        [| rewrite Hl1, Hheap, length_app, length_map; reflexivity]
    end.
    match goal with
    | |- length (fold_left (fun h l => heap_update h l ?f) ?ls ?h0) = _ =>
        exact (proj1 (update_list_same_room f ls (scale_light_same_room _ _ _) h0))
    end.
  - intros l Hl.
    assert (Hnot : ~ In l (grouped_positions lp)) by (rewrite Hgrouped; lia).
    unfold align_light_positions, apply_matterport_rotation, scale_light_positions.
    rewrite Hframe. cbn [snd lp_levels].
    rewrite !update_lights_concat, !update_list_other by exact Hnot.
    rewrite Hheap. exact (lookup_app_l h _ l Hl).
  - intros i region Hi.
    apply (align_light_lookup lp mesh hh h1 (length h + i)%nat
             (light_info_of_region region)
             Hdistinct Hnz).
    + apply Hgrouped. apply lookup_lt_Some in Hi. lia.
    + rewrite Hheap.
      refine (eq_trans (lookup_app_r h _ (length h + i)%nat _) _); [lia |].
      replace (length h + i - length h)%nat with i by lia.
      rewrite list_lookup_fmap, Hi. reflexivity.
Qed.

Local Close Scope Qc_scope.

End PipelineFacts.

Lemma lighting_without_header_witness :
  fst (process_house_lighting decimal_int decimal_float "xyz.house" interleaved_text
         stage_house []) = inl Py.TypeError /\
  fst (process_house_lighting decimal_int decimal_float "xyz.house" interleaved_text
         stage_wrapper_only []) = inl Py.IndexError.
Proof.
  assert (Hno : forall line, In line (Py.readlines interleaved_text) ->
                             tag_of line <> Some "H").
  { intros line Hin. vm_compute in Hin.
    destruct Hin as [<- | [<- | [<- | []]]]; vm_compute; discriminate. }
  split.
  - rewrite (proj2 (lighting_without_header decimal_int decimal_float "xyz.house"
                      interleaved_text stage_house [] Hno)).
    + reflexivity.
    + vm_compute. discriminate.
  - rewrite (proj1 (lighting_without_header decimal_int decimal_float "xyz.house"
                      interleaved_text stage_wrapper_only [] Hno)).
    + reflexivity.
    + reflexivity.
Defined.

Lemma lighting_without_mesh_witness :
  process_house_lighting decimal_int decimal_float "xyz.house" house_text
    stage_wrapper_only [] =
  (inl Py.IndexError,
   map light_info_of_region
     (placed (regions (fst (parse_house_file decimal_int decimal_float "xyz.house"
                              house_text))))).
Proof.
  apply (proj1 (lighting_without_mesh decimal_int decimal_float "xyz.house" house_text
                  stage_wrapper_only []) prim_wrapper).
  reflexivity.
Defined.

Lemma lighting_result_witness :
  exists lp' : light_positions,
    fst (process_house_lighting decimal_int decimal_float "xyz.house" house_text
           stage_house []) = inr lp' /\
    total_lights lp' = 3.
Proof.
  destruct (lighting_result decimal_int decimal_float "xyz.house" house_text
              stage_house [] isaac_mesh line_H_header) as (lp' & Hr & Htotal & _).
  - reflexivity.
  - apply eq_trans with (1 := get_house_mesh_transform_candidates stage_house).
    reflexivity.
  - intros i. destruct i; intros H; apply (f_equal this) in H; vm_compute in H;
      discriminate.
  - exists lp'. split; [exact Hr |]. rewrite Htotal. reflexivity.
Defined.

(* ================================================================== *)
(** * Several headers, flat meshes and the layout of the paths *)
(* ================================================================== *)

Section HeaderLines.

Variable py_int : string -> option Z.
Variable py_float : string -> option Qc.

Lemma parse_line_keeps_header (st : house_data * list warning) (n : Z) (line : string) :
  (tag_of line = Some "H" -> unusable_header_line py_int py_float line) ->
  header (fst (parse_line py_int py_float st (n, line))) = header (fst st).
Proof.
  intros Hline.
  destruct (tag_of line) as [tag |] eqn:Htag.
  - destruct (String.eqb_spec tag "H") as [-> | Hne].
    + destruct (Hline eq_refl) as [Hshort | Hbad].
      * now rewrite (parse_line_short py_int py_float st n line "H" Htag eq_refl Hshort).
      * now rewrite (parse_line_bad_numeric py_int py_float st n line "H" Htag eq_refl
                       Hbad).
    + apply parse_line_header. rewrite Htag. congruence.
  - apply parse_line_header. rewrite Htag. discriminate.
Qed.

Lemma parse_lines_keep_header (ls : list string) :
  forall (start : Z) (st : house_data * list warning),
    (forall line, In line ls -> tag_of line = Some "H" ->
                  unusable_header_line py_int py_float line) ->
    header (fst (fold_left (parse_line py_int py_float) (Py.enumerate start ls) st)) =
    header (fst st).
Proof.
  induction ls as [| line ls IH]; intros start st Hno; [reflexivity |].
  cbn [Py.enumerate fold_left]. rewrite IH by (intros l Hl; apply Hno; now right).
  apply parse_line_keeps_header. apply Hno. now left.
Qed.

(** X20: of several header lines the last usable one counts.  When a
    line of tag [H] with at least 24 tokens converts to a header, and
    every later line of tag [H] is too short or has a numeric token that
    does not convert, the document has the header of that line, whatever
    came before it. *)
Theorem last_usable_header_wins (path : string) (before after : list string)
    (line : string) (x : header_data) :
  tag_of line = Some "H" ->
  (24 <= length (tokens line))%nat ->
  header_of_parts py_int py_float (tokens line) = inr x ->
  (forall later, In later after -> tag_of later = Some "H" ->
                 unusable_header_line py_int py_float later) ->
  header (fst (fold_left (parse_line py_int py_float)
                 (Py.enumerate 1 (before ++ line :: after))
                 (initial_house_data path, []))) = Some x.
Proof.
  intros Htag Hlen Hx Hafter.
  rewrite enumerate_app, fold_left_app. cbn [Py.enumerate fold_left].
  rewrite parse_lines_keep_header by exact Hafter.
  destruct (fold_left (parse_line py_int py_float) (Py.enumerate 1 before)
              (initial_house_data path, [])) as [hd w].
  rewrite (parse_line_parts py_int py_float hd w _ line "H" Htag).
  rewrite (parse_parts_tag py_int py_float hd (tokens line) "H" Htag).
  cbn [String.eqb Ascii.eqb Bool.eqb].
  apply Nat.leb_le in Hlen. rewrite Hlen, Hx. reflexivity.
Qed.

End HeaderLines.

Lemma last_usable_header_wins_witness :
  header (fst (fold_left (parse_line decimal_int decimal_float)
                 (Py.enumerate 1 (["H too short"%string] ++ line_H :: ["H short again"%string]))
                 (initial_house_data "xyz.house", []))) = Some line_H_header.
Proof.
  apply (last_usable_header_wins decimal_int decimal_float "xyz.house"
           ["H too short"%string] ["H short again"%string] line_H line_H_header).
  - reflexivity.
  - vm_compute. lia.
  - reflexivity.
  - intros later [<- | []] _. left. vm_compute. lia.
Defined.

Local Open Scope Qc_scope.

(** X23: when the scaling returns.  [scale_light_positions] returns a
    plan exactly when it is given a header and a mesh box and the rotated
    header box has an extent on every axis; a mesh box without extent
    raises nothing.  Otherwise it raises [TypeError] when the header or
    the mesh box is [None] and [ZeroDivisionError] when both are there,
    and it leaves every light as it was. *)
Theorem scaling_returns_iff (lp : light_positions) (mesh : option mesh_transform)
    (house_header : option header_data) (h : heap) :
  let has_extent (hh : header_data) :=
    forall i : axis,
      getitem3 (extent (rotate_bbox (hdr_bbox_min hh) (hdr_bbox_max hh))) i <> 0 in
  ((exists lp', fst (scale_light_positions lp mesh house_header h) = inr lp') <->
   (exists hh mt, house_header = Some hh /\ mesh = Some mt /\ has_extent hh)) /\
  (forall e, fst (scale_light_positions lp mesh house_header h) = inl e ->
     snd (scale_light_positions lp mesh house_header h) = h /\
     (house_header = None \/ mesh = None -> e = Py.TypeError) /\
     (house_header <> None -> mesh <> None -> e = Py.ZeroDivisionError)).
Proof.
  intros has_extent. subst has_extent. cbv beta.
  destruct house_header as [hh |]; [destruct mesh as [mt |] |].
  - destruct (Qc_eq_dec (v0 (hdr_bbox_max hh) - v0 (hdr_bbox_min hh)) 0) as [Z0 | N0];
      [| destruct (Qc_eq_dec (v2 (hdr_bbox_max hh) - v2 (hdr_bbox_min hh)) 0)
           as [Z1 | N1];
         [| destruct (Qc_eq_dec (v1 (hdr_bbox_max hh) - v1 (hdr_bbox_min hh)) 0)
              as [Z2 | N2]]].
    4: { assert (Hnz : forall i : axis,
                   getitem3 (extent (rotate_bbox (hdr_bbox_min hh) (hdr_bbox_max hh))) i
                   <> 0).
         { intros i. rewrite rotated_extent. destruct i; assumption. }
         pose proof (alignment_frame_rotated mt hh Hnz) as Hframe.
         unfold scale_light_positions. rewrite Hframe. cbn [fst snd]. split.
         - split; [intros _; now exists hh, mt | intros _; eexists; reflexivity].
         - intros e He. discriminate. }
    all: assert (Hzero : exists i : axis,
                   getitem3 (extent (rotate_bbox (hdr_bbox_min hh) (hdr_bbox_max hh))) i
                   = 0)
      by (first [ exists ax0; rewrite rotated_extent; assumption
                | exists ax1; rewrite rotated_extent; assumption
                | exists ax2; rewrite rotated_extent; assumption ]);
      destruct Hzero as [i Hi];
      assert (Hraise : scale_light_positions lp (Some mt) (Some hh) h =
                       (inl Py.ZeroDivisionError, h));
      [ apply rotated_extent_zero in Hi;
        unfold scale_light_positions, alignment_frame;
        cbn [subscriptable Py.bind Py.ret v0 v1 v2];
        repeat match goal with
          | |- context [Py.truediv ?a ?b] =>
              first [ rewrite (truediv_zero a b) by (destruct i; assumption)
                    | destruct (truediv_cases a b) as [-> | ->] ];
              cbn [Py.bind]
          end; reflexivity
      | rewrite Hraise; cbn [fst snd]; split;
        [ split;
          [ intros [lp' Hlp']; discriminate
          | intros (hh' & mt' & [= <-] & _ & Hext); exfalso; exact (Hext i Hi) ]
        | intros e [= <-]; split; [reflexivity |];
          split; [intros [H | H]; discriminate | reflexivity] ] ].
  - cbn [scale_light_positions alignment_frame subscriptable Py.bind Py.raise fst snd].
    split.
    + split; [intros [lp' Hlp']; discriminate
             | intros (hh' & mt' & _ & Hmesh & _); discriminate].
    + intros e [= <-]. split; [reflexivity |]. split; [reflexivity |].
      intros _ Hmesh. contradiction.
  - cbn [scale_light_positions alignment_frame subscriptable Py.bind Py.raise fst snd].
    split.
    + split; [intros [lp' Hlp']; discriminate
             | intros (hh' & mt' & Hheader & _); discriminate].
    + intros e [= <-]. split; [reflexivity |]. split; [reflexivity |].
      intros Hheader. contradiction.
Qed.

Lemma scaling_returns_iff_witness :
  (exists lp',
      fst (scale_light_positions one_light_plan
             (Some (mkMesh (Vec3 (fl 0) (fl 7) (fl 0)) (Vec3 (fl 10) (fl 7) (fl 4))))
             (Some xyz_header) one_light_heap) = inr lp') /\
  snd (scale_light_positions one_light_plan (Some isaac_mesh) None one_light_heap) =
    one_light_heap.
Proof.
  split.
  - apply (proj1 (scaling_returns_iff one_light_plan
                    (Some (mkMesh (Vec3 (fl 0) (fl 7) (fl 0))
                             (Vec3 (fl 10) (fl 7) (fl 4))))
                    (Some xyz_header) one_light_heap)).
    eexists. eexists. split; [reflexivity |]. split; [reflexivity |].
    exact xyz_header_has_extent.
  - apply (proj2 (scaling_returns_iff one_light_plan (Some isaac_mesh) None
                    one_light_heap) Py.TypeError).
    reflexivity.
Defined.

Local Close Scope Qc_scope.

Local Open Scope string_scope.

Lemma ends_with_sep_cons (c : ascii) (s : string) :
  s <> "" -> Os.ends_with_sep (String c s) = Os.ends_with_sep s.
Proof. destruct s; [congruence | reflexivity]. Qed.

Lemma ends_with_sep_app (a b : string) :
  b <> "" -> Os.ends_with_sep (a ++ b) = Os.ends_with_sep b.
Proof.
  intros Hb. induction a as [| c a IH]; [reflexivity |].
  cbn [append]. rewrite ends_with_sep_cons; [exact IH |].
  destruct a; [exact Hb | discriminate].
Qed.

Lemma contains_sep_end (s : string) :
  Os.contains "/" s = false -> Os.ends_with_sep s = false.
Proof.
  induction s as [| c s IH]; [reflexivity |].
  cbn [Os.contains]. rewrite orb_false_iff. intros [Hp Hc].
  destruct s as [| c' s'].
  - cbn [String.prefix Os.ends_with_sep] in *.
    destruct (Ascii.ascii_dec "/" c) as [<- | Hne]; [discriminate |].
    apply Ascii.eqb_neq. congruence.
  - rewrite ends_with_sep_cons by discriminate. now apply IH.
Qed.

Lemma contains_sep_start (s : string) :
  Os.contains "/" s = false -> Os.starts_with_sep s = false.
Proof.
  unfold Os.starts_with_sep. destruct s; cbn [Os.contains]; [reflexivity |].
  rewrite orb_false_iff. tauto.
Qed.

Lemma starts_with_sep_app (a b : string) :
  a <> "" -> Os.starts_with_sep (a ++ b) = Os.starts_with_sep a.
Proof.
  unfold Os.starts_with_sep. destruct a as [| c a]; [congruence |]. intros _.
  cbn [append String.prefix].
  assert (Hempty : forall s, String.prefix "" s = true) by (intros s; now destruct s).
  now rewrite !Hempty.
Qed.

Lemma join2_relative (path b : string) :
  path <> "" -> Os.ends_with_sep path = false -> Os.starts_with_sep b = false ->
  Os.join2 path b = path ++ "/" ++ b.
Proof.
  intros Hp He Hb. unfold Os.join2. rewrite Hb, He.
  destruct path; [congruence | reflexivity].
Qed.

Lemma join2_absolute (path b : string) :
  Os.starts_with_sep b = true -> Os.join2 path b = b.
Proof. intros Hb. unfold Os.join2. now rewrite Hb. Qed.

Lemma app_nonempty (a b : string) : a <> "" -> a ++ b <> "".
Proof. destruct a; [congruence | discriminate]. Qed.

(** A relative component that is not empty and does not end in a slash
    is appended after one slash, and the result can be joined in the same
    way again. *)
Lemma join2_step (path b : string) :
  path <> "" -> Os.ends_with_sep path = false ->
  Os.starts_with_sep b = false -> b <> "" -> Os.ends_with_sep b = false ->
  Os.join2 path b = path ++ "/" ++ b /\
  path ++ "/" ++ b <> "" /\
  Os.ends_with_sep (path ++ "/" ++ b) = false.
Proof.
  intros Hp He Hb Hbne Hbe. split; [now apply join2_relative |].
  split; [now apply app_nonempty |].
  rewrite ends_with_sep_app by discriminate.
  change ("/" ++ b) with (String "/" b). now rewrite ends_with_sep_cons.
Qed.

(** X22: where the files of a house are looked for.  For a house name
    that is a single path component the house file and the corrected USD
    file lie below the scans directory, at the paths spelled out here.  A
    house name that starts with a slash replaces the scans directory: the
    two files are then looked for at the name itself with the extension
    appended. *)
Theorem house_paths_layout (house_name : string) :
  (plain_name house_name ->
   house_file_path house_name =
     (((((matterport_base_path ++ "/" ++ house_name) ++ "/" ++ "house_segmentations")
         ++ "/" ++ house_name) ++ "/" ++ "house_segmentations")
      ++ "/" ++ house_name ++ ".house") /\
   corrected_usd_path house_name =
     (matterport_base_path ++ "/" ++ house_name)
     ++ "/" ++ house_name ++ "_corrected.usd") /\
  (Os.starts_with_sep house_name = true ->
   house_file_path house_name = house_name ++ ".house" /\
   corrected_usd_path house_name = house_name ++ "_corrected.usd").
Proof.
  split.
  - intros [Hne Hplain].
    pose proof (contains_sep_end _ Hplain) as Hend.
    pose proof (contains_sep_start _ Hplain) as Hstart.
    assert (Hext : forall ext, Os.starts_with_sep (house_name ++ ext) = false)
      by (intros ext; now rewrite starts_with_sep_app).
    destruct (join2_step matterport_base_path house_name) as (E1 & N1 & S1);
      try assumption; try reflexivity; [discriminate |].
    split.
    + destruct (join2_step _ "house_segmentations" N1 S1) as (E2 & N2 & S2);
        try reflexivity; [discriminate |].
      destruct (join2_step _ house_name N2 S2) as (E3 & N3 & S3); try assumption.
      destruct (join2_step _ "house_segmentations" N3 S3) as (E4 & N4 & S4);
        try reflexivity; [discriminate |].
      unfold house_file_path, Os.join. cbn [fold_left].
      rewrite E1, E2, E3, E4.
      now apply join2_relative.
    + unfold corrected_usd_path, Os.join. cbn [fold_left]. rewrite E1.
      now apply join2_relative.
  - intros Habs.
    assert (Hne : house_name <> "") by (intros ->; discriminate).
    unfold house_file_path, corrected_usd_path, Os.join. cbn [fold_left].
    split; apply join2_absolute; now rewrite starts_with_sep_app.
Qed.

Lemma house_paths_layout_witness :
  house_file_path "xyz" =
    "/home/aaron/matterport3d/v1/scans/xyz/house_segmentations/xyz/house_segmentations/xyz.house" /\
  corrected_usd_path "/tmp/other" = "/tmp/other_corrected.usd".
Proof.
  split.
  - destruct (proj1 (house_paths_layout "xyz")) as [Hfile _].
    + split; [discriminate | reflexivity].
    + rewrite Hfile. reflexivity.
  - destruct (proj2 (house_paths_layout "/tmp/other")) as [_ Husd].
    + reflexivity.
    + exact Husd.
Defined.

Local Close Scope string_scope.
